(** * Budgeto: the pay-cycle projection engine

    A shallow embedding of [app/lib/payCalculations.ts] and [app/lib/bills.ts]
    together with the parts of the ECMAScript [Date] object and of [date-fns]
    those two files call; and, around them, of the Convex functions of
    [convex/bills.ts] and [convex/userSettings.ts], of the loaders of the
    dashboard and of the schedule page, and of the payday reminder.

    Conventions of the embedding:
    - a JavaScript [number] holding money is a binary64 float ([PrimFloat.float]);
    - a time value is an integer count of milliseconds; a [Date] is
      [option Z], [None] standing for the Invalid Date (time value NaN);
    - the local time zone is UTC (the program reads the ambient zone and the
      specification assumes a single implicit one);
    - [new Date()] is the explicit parameter [now];
    - a loop that the source does not bound takes [fuel]; [Unfinished] (or
      [None]) is the answer of a run that has not finished within it;
    - a Convex table is the list of its documents in the order they were
      created; a mutation answers the new table, or throws. *)

From Stdlib Require Import ZArith List String Ascii Bool Lia Floats Uint63.
Import ListNotations.
Set Warnings "-inexact-float".
Local Open Scope Z_scope.

(* ================================================================= *)
(** ** ECMAScript time values and the [Date] object *)

Module JSDate.

Definition msPerDay : Z := 86400000.
Definition maxTime : Z := 8640000000000000.

(** [None] is the Invalid Date. *)
Definition Date : Type := option Z.

Definition TimeClip (t : Z) : Date :=
  if Z.abs t <=? maxTime then Some t else None.

Definition Day (t : Z) : Z := t / msPerDay.
Definition TimeWithinDay (t : Z) : Z := t mod msPerDay.

Definition DayFromYear (y : Z) : Z :=
  365 * (y - 1970) + (y - 1969) / 4 - (y - 1901) / 100 + (y - 1601) / 400.

Definition isLeap (y : Z) : bool :=
  (y mod 4 =? 0) && (negb (y mod 100 =? 0) || (y mod 400 =? 0)).

(** Number of days (0 or 1) a leap year adds. *)
Definition leapDay (y : Z) : Z := if isLeap y then 1 else 0.

(** The largest year whose first day is not after day [d]: an estimate from
    the mean length of a year, corrected by at most one. *)
Definition YearFromDay (d : Z) : Z :=
  let y0 := 1970 + (d * 400) / 146097 in
  if DayFromYear (y0 + 1) <=? d then y0 + 1
  else if DayFromYear y0 <=? d then y0
  else y0 - 1.

Definition YearFromTime (t : Z) : Z := YearFromDay (Day t).
Definition DayWithinYear (t : Z) : Z := Day t - DayFromYear (YearFromTime t).
Definition InLeapYear (t : Z) : Z := leapDay (YearFromTime t).

(** Day number within the year of the first day of month [m] (0-based). *)
Definition monthStart (m l : Z) : Z :=
  if m <=? 0 then 0
  else if m =? 1 then 31
  else if m =? 2 then 59 + l
  else if m =? 3 then 90 + l
  else if m =? 4 then 120 + l
  else if m =? 5 then 151 + l
  else if m =? 6 then 181 + l
  else if m =? 7 then 212 + l
  else if m =? 8 then 243 + l
  else if m =? 9 then 273 + l
  else if m =? 10 then 304 + l
  else 334 + l.

Definition MonthFromTime (t : Z) : Z :=
  let d := DayWithinYear t in
  let l := InLeapYear t in
  if d <? 31 then 0
  else if d <? 59 + l then 1
  else if d <? 90 + l then 2
  else if d <? 120 + l then 3
  else if d <? 151 + l then 4
  else if d <? 181 + l then 5
  else if d <? 212 + l then 6
  else if d <? 243 + l then 7
  else if d <? 273 + l then 8
  else if d <? 304 + l then 9
  else if d <? 334 + l then 10
  else 11.

Definition DateFromTime (t : Z) : Z :=
  DayWithinYear t - monthStart (MonthFromTime t) (InLeapYear t) + 1.

(** Sunday is 0; 1 January 1970 was a Thursday. *)
Definition WeekDay (t : Z) : Z := (Day t + 4) mod 7.

Definition MakeDay (year month date : Z) : Z :=
  let ym := year + month / 12 in
  let mn := month mod 12 in
  DayFromYear ym + monthStart mn (leapDay ym) + date - 1.

Definition MakeDate (day time : Z) : Z := day * msPerDay + time.

(** [Date.UTC(y, m, d, h, mi, s, ms)] with a 1-based month, for writing dates. *)
Definition utc (y m d h mi s ms : Z) : Z :=
  MakeDate (MakeDay y (m - 1) d) (((h * 60 + mi) * 60 + s) * 1000 + ms).

(** *** Getters: [None] is NaN *)

Definition getTime (d : Date) : option Z := d.
Definition getDate (d : Date) : option Z := option_map DateFromTime d.
Definition getMonth (d : Date) : option Z := option_map MonthFromTime d.
Definition getFullYear (d : Date) : option Z := option_map YearFromTime d.
Definition getDay (d : Date) : option Z := option_map WeekDay d.

(** Addition of two numbers either of which may be NaN. *)
Definition numAdd (a b : option Z) : option Z :=
  match a, b with
  | Some x, Some y => Some (x + y)
  | _, _ => None
  end.

(** *** Setters: the source mutates, the embedding returns the new value *)

Definition setDate (d : Date) (dt : option Z) : Date :=
  match d, dt with
  | Some t, Some n =>
      TimeClip (MakeDate (MakeDay (YearFromTime t) (MonthFromTime t) n)
                         (TimeWithinDay t))
  | _, _ => None
  end.

(** [setMonth(month)]: the day of the month is kept, and overflows. *)
Definition setMonth (d : Date) (m : option Z) : Date :=
  match d, m with
  | Some t, Some mo =>
      TimeClip (MakeDate (MakeDay (YearFromTime t) mo (DateFromTime t))
                         (TimeWithinDay t))
  | _, _ => None
  end.

(** [setMonth(month, date)]. *)
Definition setMonth2 (d : Date) (m dt : option Z) : Date :=
  match d, m, dt with
  | Some t, Some mo, Some n =>
      TimeClip (MakeDate (MakeDay (YearFromTime t) mo n) (TimeWithinDay t))
  | _, _, _ => None
  end.

(** [setFullYear(year, month, date)]; on an Invalid Date the time within the
    day is taken as 0. *)
Definition setFullYear3 (d : Date) (y m dt : option Z) : Date :=
  match y, m, dt with
  | Some yr, Some mo, Some n =>
      let tw := match d with Some t => TimeWithinDay t | None => 0 end in
      TimeClip (MakeDate (MakeDay yr mo n) tw)
  | _, _, _ => None
  end.

(** [setHours(h, m, s, ms)]. *)
Definition setHours (d : Date) (h mi s ms : Z) : Date :=
  match d with
  | Some t =>
      TimeClip (MakeDate (Day t) (((h * 60 + mi) * 60 + s) * 1000 + ms))
  | None => None
  end.

(** [new Date(year, month, date)]; years 0 to 99 mean 1900 to 1999. *)
Definition newDateYMD (y m dt : option Z) : Date :=
  match y, m, dt with
  | Some yr, Some mo, Some n =>
      let yr' := if (0 <=? yr) && (yr <=? 99) then 1900 + yr else yr in
      TimeClip (MakeDate (MakeDay yr' mo n) 0)
  | _, _, _ => None
  end.

(** *** Relational operators on dates: every comparison with NaN is false *)

Definition dateLt (a b : Date) : bool :=
  match a, b with Some x, Some y => x <? y | _, _ => false end.
Definition dateGt (a b : Date) : bool := dateLt b a.
Definition dateLe (a b : Date) : bool :=
  match a, b with Some x, Some y => x <=? y | _, _ => false end.
Definition dateGe (a b : Date) : bool := dateLe b a.

(** [a === b] on numbers: NaN is not equal to itself. *)
Definition numEq (a b : option Z) : bool :=
  match a, b with Some x, Some y => x =? y | _, _ => false end.

End JSDate.

(* ================================================================= *)
(** ** The functions of [date-fns] the program imports *)

Module DateFns.
Import JSDate.

Definition startOfDay (d : Date) : Date := setHours d 0 0 0 0.
Definition endOfDay (d : Date) : Date := setHours d 23 59 59 999.

Definition setDate (d : Date) (dayOfMonth : Z) : Date :=
  JSDate.setDate d (Some dayOfMonth).

Definition addDays (d : Date) (amount : Z) : Date :=
  if amount =? 0 then d
  else JSDate.setDate d (numAdd (getDate d) (Some amount)).

Definition addWeeks (d : Date) (amount : Z) : Date := addDays d (amount * 7).

Definition addMonths (d : Date) (amount : Z) : Date :=
  if amount =? 0 then d
  else
    let dayOfMonth := getDate d in
    let endOfDesiredMonth :=
      setMonth2 d (numAdd (getMonth d) (Some (amount + 1))) (Some 0) in
    let daysInMonth := getDate endOfDesiredMonth in
    match dayOfMonth, daysInMonth with
    | Some dom, Some dim =>
        if dim <=? dom then endOfDesiredMonth
        else setFullYear3 d (getFullYear endOfDesiredMonth)
                            (getMonth endOfDesiredMonth) dayOfMonth
    | _, _ =>
        setFullYear3 d (getFullYear endOfDesiredMonth)
                       (getMonth endOfDesiredMonth) dayOfMonth
    end.

Definition isBefore (a b : Date) : bool := dateLt a b.
Definition isAfter (a b : Date) : bool := dateGt a b.
Definition isSameDay (a b : Date) : bool :=
  numEq (getTime (startOfDay a)) (getTime (startOfDay b)).

(** The program only ever builds an interval from two valid dates (it has
    called [toISOString] on both before), so the interval is given by its two
    time values.  As in [date-fns] 3 and 4 the two ends are put in order
    first; [date-fns] 2 throws on an interval that ends before it starts
    (the program is inside its [try] block then, and the bill adds nothing
    more).  The two agree on every range that ends on or after the day it
    starts. *)
Definition isWithinInterval (d : Date) (startTime endTime : Z) : bool :=
  match d with
  | Some t => (Z.min startTime endTime <=? t) && (t <=? Z.max startTime endTime)
  | None => false
  end.

End DateFns.

(* ================================================================= *)
(** ** [app/lib/bills.ts]: the bill occurrence expander *)

Module Bills.
Import JSDate DateFns.

(** What a call does: it returns, it throws (the [RangeError] of
    [toISOString] on an Invalid Date), or it is still running when the fuel
    is spent. *)
Inductive outcome (A : Type) : Type :=
| Returns (a : A)
| Throws
| Unfinished.
Arguments Returns {A} a.
Arguments Throws {A}.
Arguments Unfinished {A}.

(** A document of the [bills] table.  [dueDate] and [isActive] are optional
    fields; [dueDate] and [_creationTime] hold whole numbers. *)
Record Bill : Type := mkBill {
  name : string;
  amount : float;
  frequency : string;
  dueDate : option Z;
  isActive : option bool;
  _creationTime : Z
}.

(** [addIntervalFn]: for a weekly bill it is [addWeeks]; for a fortnightly
    bill it is [(date) => addWeeks(date, 2)], which drops its second
    argument. *)
Definition addIntervalFn (freq : string) (d : Date) (n : Z) : Date :=
  if String.eqb freq "weekly" then addWeeks d n else addWeeks d 2.

Definition maxBackwardIterations : nat := 1000.

(** The backward search: [while (currentDate > rangeStart &&
    backwardIterations < maxBackwardIterations)]; [left] is the number of
    iterations still allowed. *)
Fixpoint backwardWalk (left : nat) (freq : string) (rangeStart : Z)
    (currentDate : Date) : Date :=
  match left with
  | O => currentDate
  | S k =>
      if dateGt currentDate (Some rangeStart)
      then backwardWalk k freq rangeStart (addIntervalFn freq currentDate (-1))
      else currentDate
  end.

(** The forward walk of a weekly or fortnightly bill. *)
Fixpoint forwardWalk (fuel : nat) (freq : string) (rangeStart rangeEnd : Z)
    (billAmount : float) (currentDate : Date) (totalAmount : float)
    : option float :=
  if dateLe currentDate (Some rangeEnd) then
    match fuel with
    | O => None
    | S k =>
        let totalAmount' :=
          if dateGe currentDate (Some rangeStart)
             && isWithinInterval currentDate rangeStart rangeEnd
          then (totalAmount + billAmount)%float else totalAmount in
        let nextDate := addIntervalFn freq currentDate 1 in
        if isSameDay nextDate currentDate then Some totalAmount'
        else forwardWalk k freq rangeStart rangeEnd billAmount nextDate
                         totalAmount'
    end
  else Some totalAmount.

(** The month-by-month loop of a monthly bill. *)
Fixpoint monthlyWalk (fuel : nat) (rangeStart rangeEnd : Z)
    (billAmount : float) (currentMonthDate : Date) (totalAmount : float)
    : option float :=
  if negb (isAfter currentMonthDate (Some rangeEnd)) then
    match fuel with
    | O => None
    | S k =>
        let totalAmount' :=
          if isWithinInterval currentMonthDate rangeStart rangeEnd
          then (totalAmount + billAmount)%float else totalAmount in
        let nextMonthDate := addMonths currentMonthDate 1 in
        if isSameDay nextMonthDate currentMonthDate then Some totalAmount'
        else monthlyWalk k rangeStart rangeEnd billAmount nextMonthDate
                         totalAmount'
    end
  else Some totalAmount.

(** The body of [bills.forEach]: the running total after one bill.  Nothing
    in the [try] block can throw once the range is valid, so the only
    failure is running out of fuel. *)
Definition processBill (fuel : nat) (rangeStart rangeEnd : Z) (bill : Bill)
    (totalAmount : float) : option float :=
  if PrimFloat.is_nan (amount bill) then Some totalAmount
  else
    let billAmount := amount bill in
    if String.eqb (frequency bill) "one-off" then
      match dueDate bill with
      | None => Some totalAmount
      | Some ts =>
          match TimeClip ts with
          | None => Some totalAmount
          | Some _ as due =>
              if isWithinInterval due rangeStart rangeEnd
              then Some (totalAmount + billAmount)%float
              else Some totalAmount
          end
      end
    else if String.eqb (frequency bill) "monthly" then
      match dueDate bill with
      | None => Some totalAmount
      | Some dayOfMonth =>
          if (dayOfMonth <? 1) || (31 <? dayOfMonth) then Some totalAmount
          else
            let currentMonthDate := DateFns.setDate (Some rangeStart) dayOfMonth in
            let currentMonthDate :=
              if isBefore currentMonthDate (Some rangeStart)
              then addMonths currentMonthDate 1 else currentMonthDate in
            monthlyWalk fuel rangeStart rangeEnd billAmount currentMonthDate
                        totalAmount
      end
    else if String.eqb (frequency bill) "weekly"
            || String.eqb (frequency bill) "fortnightly" then
      match TimeClip (_creationTime bill) with
      | None => Some totalAmount
      | Some _ as initialDueDate =>
          let currentDate :=
            backwardWalk maxBackwardIterations (frequency bill) rangeStart
                         initialDueDate in
          forwardWalk fuel (frequency bill) rangeStart rangeEnd billAmount
                      currentDate totalAmount
      end
    else Some totalAmount.

(** [bills.forEach(...)] threading [totalAmount]. *)
Fixpoint forEachBill (fuel : nat) (rangeStart rangeEnd : Z)
    (bills : list Bill) (totalAmount : float) : option float :=
  match bills with
  | [] => Some totalAmount
  | bill :: rest =>
      match processBill fuel rangeStart rangeEnd bill totalAmount with
      | Some totalAmount' => forEachBill fuel rangeStart rangeEnd rest totalAmount'
      | None => None
      end
  end.

Definition calculateUpcomingBillsTotal (fuel : nat) (bills : list Bill)
    (startDate endDate : Date) : outcome float :=
  match startOfDay startDate, endOfDay endDate with
  | Some rangeStart, Some rangeEnd =>
      match forEachBill fuel rangeStart rangeEnd bills 0%float with
      | Some totalAmount => Returns totalAmount
      | None => Unfinished
      end
  | _, _ => Throws
  end.

Definition calculateBillsBetweenDates (fuel : nat) (bills : list Bill)
    (startDate endDate : Date) : outcome float :=
  match startDate, endDate with
  | Some _, Some _ => calculateUpcomingBillsTotal fuel bills startDate endDate
  | _, _ => Throws
  end.

(** [convex/bills.ts], [listActiveBills] and [listActiveBillsByUserId]: of
    the user's documents, given newest first, those whose [isActive] is not
    [false] ([q.neq(q.field('isActive'), false)]). *)
Definition listActiveBills (userBills : list Bill) : list Bill :=
  filter (fun b => match isActive b with
                   | Some false => false
                   | _ => true
                   end) userBills.

End Bills.

(* ================================================================= *)
(** ** [app/lib/payCalculations.ts] *)

Module PayCalculations.
Import JSDate DateFns Bills.

(** *** Cycle conversion *)

(** [!s] for a string that may be null or undefined. *)
Definition falsyString (s : option string) : bool :=
  match s with
  | None => true
  | Some s' => String.eqb s' ""
  end.

Definition calculateAnnualSalary (amount : option float)
    (frequency : option string) : option float :=
  match amount, frequency with
  | Some a, Some f =>
      if PrimFloat.leb a 0 || falsyString frequency then None
      else if String.eqb f "monthly" then Some (a * 12)%float
      else if String.eqb f "fortnightly" then Some (a * 26)%float
      else if String.eqb f "weekly" then Some (a * 52)%float
      else None
  | _, _ => None
  end.

Definition calculateTargetCycleAmount (annualSalary : option float)
    (targetFrequency : option string) : option float :=
  match annualSalary, targetFrequency with
  | Some a, Some f =>
      if PrimFloat.leb a 0 || falsyString targetFrequency then None
      else if String.eqb f "monthly" then Some (a / 12)%float
      else if String.eqb f "fortnightly" then Some (a / 26)%float
      else if String.eqb f "weekly" then Some (a / 52)%float
      else None
  | _, _ => None
  end.

(** *** Day names *)

(** [String.prototype.toLowerCase] on the ASCII letters. *)
Definition lowerAscii (c : ascii) : ascii :=
  let n := nat_of_ascii c in
  if (Nat.leb 65 n && Nat.leb n 90)%bool then ascii_of_nat (n + 32) else c.

Fixpoint toLowerCase (s : string) : string :=
  match s with
  | EmptyString => EmptyString
  | String c rest => String (lowerAscii c) (toLowerCase rest)
  end.

(** What reading a property of [dayOfWeekMap] gives: a day number, one of
    the members every object literal inherits from [Object.prototype] (a
    function or an object, whose numeric value is NaN), or [undefined]. *)
Inductive property : Type :=
| PNumber (n : Z)
| PInherited
| PUndefined.

Definition dayOfWeekMap : list (string * Z) :=
  [("sunday", 0); ("monday", 1); ("tuesday", 2); ("wednesday", 3);
   ("thursday", 4); ("friday", 5); ("saturday", 6)]%string.

Definition objectPrototypeKeys : list string :=
  ["constructor"; "__proto__"; "hasOwnProperty"; "isPrototypeOf";
   "propertyIsEnumerable"; "toLocaleString"; "toString"; "valueOf";
   "__defineGetter__"; "__defineSetter__"; "__lookupGetter__";
   "__lookupSetter__"]%string.

Fixpoint ownProperty (m : list (string * Z)) (k : string) : option Z :=
  match m with
  | [] => None
  | (k', v) :: rest => if String.eqb k k' then Some v else ownProperty rest k
  end.

(** [dayOfWeekMap[k]]. *)
Definition dayOfWeekMap_get (k : string) : property :=
  match ownProperty dayOfWeekMap k with
  | Some n => PNumber n
  | None =>
      if existsb (String.eqb k) objectPrototypeKeys then PInherited
      else PUndefined
  end.

(** [ToNumber] of such a property that is not [undefined]. *)
Definition propertyToNumber (p : property) : option Z :=
  match p with
  | PNumber n => Some n
  | _ => None
  end.

(** [(targetDayNum - currentDayNum + 7) % 7], then [=== 0 ? 7 : it]. *)
Definition daysUntil (targetDayNum currentDayNum : option Z) : option Z :=
  match targetDayNum, currentDayNum with
  | Some tg, Some cu => Some (Z.rem (tg - cu + 7) 7)
  | _, _ => None
  end.

Definition zeroToSeven (n : option Z) : option Z :=
  match n with
  | Some k => if k =? 0 then Some 7 else Some k
  | None => None
  end.

(** *** The next actual payday *)

(** [today]: [new Date()] with [setHours(0, 0, 0, 0)]. *)
Definition todayOf (now : Z) : Date := setHours (TimeClip now) 0 0 0 0.

Definition calculateNextPayday (now : Z) (frequency : option string)
    (dayOfMonth : option Z) (dayOfWeek : option string) : option Date :=
  match frequency with
  | None => None
  | Some freq =>
    if String.eqb freq "" then None
    else
      let today := todayOf now in
      let nextPayday := today in
      if String.eqb freq "monthly" then
        match dayOfMonth with
        | None => None
        | Some dom =>
            if negb (dom =? 0) && (1 <=? dom) && (dom <=? 31) then
              let payDay := Some dom in
              let nextPayday := JSDate.setDate nextPayday payDay in
              let nextPayday :=
                if dateLt nextPayday today
                then JSDate.setDate
                       (setMonth nextPayday
                                 (numAdd (getMonth nextPayday) (Some 1)))
                       payDay
                else nextPayday in
              let originalMonth := getMonth nextPayday in
              let nextPayday :=
                if negb (numEq (getMonth nextPayday) originalMonth)
                then newDateYMD (getFullYear today)
                                (numAdd originalMonth (Some 1)) (Some 0)
                else nextPayday in
              Some nextPayday
            else None
        end
      else if String.eqb freq "fortnightly" then
        match dayOfWeek with
        | None => None
        | Some dow =>
            if String.eqb dow "" then None
            else
              match dayOfWeekMap_get (toLowerCase dow) with
              | PUndefined => None
              | targetDayNum =>
                  let firstTargetDate := today in
                  let currentDayNum := getDay today in
                  let daysUntilNextTargetDay :=
                    daysUntil (propertyToNumber targetDayNum) currentDayNum in
                  let initialDaysToAdd := zeroToSeven daysUntilNextTargetDay in
                  let firstTargetDate :=
                    JSDate.setDate firstTargetDate
                                   (numAdd (getDate today) initialDaysToAdd) in
                  let nextPayday := firstTargetDate in
                  Some (JSDate.setDate nextPayday
                          (numAdd (getDate firstTargetDate) (Some 14)))
              end
        end
      else if String.eqb freq "weekly" then
        match dayOfWeek with
        | None => None
        | Some dow =>
            if String.eqb dow "" then None
            else
              match dayOfWeekMap_get (toLowerCase dow) with
              | PUndefined => None
              | targetDayNum =>
                  let currentDayNum := getDay today in
                  let daysUntilTarget :=
                    daysUntil (propertyToNumber targetDayNum) currentDayNum in
                  let daysToAdd := zeroToSeven daysUntilTarget in
                  Some (JSDate.setDate nextPayday
                          (numAdd (getDate today) daysToAdd))
              end
        end
      else None
  end.

(** *** The projected schedule *)

Record ProjectedScheduleItem : Type := mkItem {
  allowanceDate : Date;
  allowanceAmount : float;
  billsDueInPeriod : float;
  leftoverForPeriod : float
}.

Record Settings : Type := mkSettings {
  desiredPayFrequency : option string;
  desiredPayDayOfWeek : option string;
  desiredPayAmount : option float
}.

(** The [for] loop of [generateProjectedSchedule]; [left] is [count - i]. *)
Fixpoint scheduleLoop (fuel : nat) (bills : list Bill) (intervalDays : Z)
    (desiredPayAmount : float) (left : nat) (currentAllowanceDate : Date)
    : outcome (list ProjectedScheduleItem) :=
  match left with
  | O => Returns []
  | S k =>
      let nextAllowanceDate := addDays currentAllowanceDate intervalDays in
      match calculateBillsBetweenDates fuel bills currentAllowanceDate
                                       nextAllowanceDate with
      | Returns billsDueInPeriod =>
          let leftoverForPeriod := (desiredPayAmount - billsDueInPeriod)%float in
          let item := mkItem currentAllowanceDate desiredPayAmount
                             billsDueInPeriod leftoverForPeriod in
          match scheduleLoop fuel bills intervalDays desiredPayAmount k
                             nextAllowanceDate with
          | Returns schedule => Returns (item :: schedule)
          | Throws => Throws
          | Unfinished => Unfinished
          end
      | Throws => Throws
      | Unfinished => Unfinished
      end
  end.

Definition generateProjectedSchedule (fuel : nat) (now : Z)
    (settings : Settings) (bills : list Bill) (count : Z)
    : outcome (list ProjectedScheduleItem) :=
  match desiredPayFrequency settings, desiredPayDayOfWeek settings,
        desiredPayAmount settings with
  | Some freq, Some dow, Some payAmount =>
      if String.eqb freq "" || String.eqb dow "" then Returns []
      else
        match dayOfWeekMap_get (toLowerCase dow) with
        | PUndefined => Returns []
        | targetDayNum =>
            let today := todayOf now in
            let currentAllowanceDate := today in
            let currentDayNum := getDay today in
            let daysUntilNextTargetDay :=
              daysUntil (propertyToNumber targetDayNum) currentDayNum in
            let initialDaysToAdd := zeroToSeven daysUntilNextTargetDay in
            let currentAllowanceDate :=
              JSDate.setDate currentAllowanceDate
                             (numAdd (getDate today) initialDaysToAdd) in
            let go intervalDays :=
              scheduleLoop fuel bills intervalDays payAmount (Z.to_nat count)
                           currentAllowanceDate in
            if String.eqb (toLowerCase freq) "weekly" then go 7
            else if String.eqb (toLowerCase freq) "fortnightly" then go 14
            else Returns []
        end
  | _, _, _ => Returns []
  end.

End PayCalculations.

(* ================================================================= *)
(** ** Concrete inputs used by the examples below *)

Module Scenarios.
Import JSDate DateFns Bills PayCalculations.

(** Midnight (UTC) of a calendar date, as a [Date]. *)
Definition ymd (y m d : Z) : Date := Some (utc y m d 0 0 0 0).

(** The fixture of [app/lib/__tests__/bills.test.ts]. *)
Definition defaultCreation : Z := utc 2023 1 1 0 0 0 0.
Definition MOCK_TODAY : Date := Some (utc 2024 4 15 10 0 0 0).

Definition cancelledSub : Bill :=
  mkBill "Cancelled Sub" 20 "monthly" (Some 10) (Some false) defaultCreation.

Definition salaryAdvanceRepay : Bill :=
  mkBill "Salary Advance Repay" 250 "fortnightly" None (Some true)
         (utc 2024 4 5 0 0 0 0).

Definition testBills : list Bill :=
  [ mkBill "Rent" 1500 "monthly" (Some 1) (Some true) defaultCreation;
    mkBill "Loan" 300 "monthly" (Some 20) (Some true) defaultCreation;
    salaryAdvanceRepay;
    mkBill "Groceries" 150 "weekly" None (Some true) (utc 2024 4 10 0 0 0 0);
    mkBill "Past Concert" 100 "one-off" (Some (utc 2024 3 20 0 0 0 0))
           (Some true) defaultCreation;
    mkBill "Upcoming Gig" 80 "one-off" (Some (utc 2024 4 25 0 0 0 0))
           (Some true) defaultCreation;
    mkBill "Future Flight" 450 "one-off" (Some (utc 2024 5 10 0 0 0 0))
           (Some true) defaultCreation;
    cancelledSub ].

(** A monthly bill due on the 31st. *)
Definition endOfMonthBill : Bill :=
  mkBill "Card" 100 "monthly" (Some 31) (Some true) defaultCreation.

(** A monthly bill due on the 20th. *)
Definition loan : Bill :=
  mkBill "Loan" 300 "monthly" (Some 20) (Some true) defaultCreation.

(** Two thousand weeks, in milliseconds: where one thousand fortnightly
    steps lead. *)
Definition twoThousandWeeks : Z := 2000 * (7 * msPerDay).

(** A time value at least a month after the first and two months before the
    last a [Date] can hold. *)
Definition awayFromTheEnds (t : Z) : Prop :=
  - maxTime + 31 * msPerDay <= t /\ t + 61 * msPerDay <= maxTime.

(** Annualize, then derive the amount of the same cycle. *)
Definition roundTrip (amount : float) (frequency : string) : option float :=
  calculateTargetCycleAmount
    (calculateAnnualSalary (Some amount) (Some frequency)) (Some frequency).

(** The float of a whole number. *)
Definition wholeAmount (n : Z) : float := PrimFloat.of_uint63 (Uint63.of_Z n).

Definition roundTripIs (amount : float) (frequency : string) : bool :=
  match roundTrip amount frequency with
  | Some r => PrimFloat.Leibniz.eqb r amount
  | None => false
  end.

Definition roundTripExactAt (n : Z) : bool :=
  let a := wholeAmount n in
  PrimFloat.ltb 0 a && roundTripIs a "monthly"
  && roundTripIs a "fortnightly" && roundTripIs a "weekly".

(** [roundTripExactAt] on the [2 ^ depth] whole numbers from [lo] on. *)
Fixpoint roundTripExactFrom (depth : nat) (lo : Z) : bool :=
  match depth with
  | O => roundTripExactAt lo
  | S d =>
      roundTripExactFrom d lo && roundTripExactFrom d (lo + 2 ^ Z.of_nat d)
  end.

(** The frequencies the cycle conversion knows. *)
Definition recognised (f : string) : Prop :=
  f = "monthly"%string \/ f = "fortnightly"%string \/ f = "weekly"%string.

(** An amount that is missing or [<= 0], or a frequency that is missing or
    not recognised. *)
Definition invalidInput (amount : option float) (frequency : option string)
    : Prop :=
  amount = None
  \/ (exists a, amount = Some a /\ PrimFloat.leb a 0 = true)
  \/ frequency = None
  \/ (exists f, frequency = Some f /\ ~ recognised f).

(** Settings asking for an allowance every second Monday. *)
Definition mondays : Settings :=
  mkSettings (Some "fortnightly"%string) (Some "Monday"%string)
             (Some 2307.69%float).

(** Settings whose day name is a member of [Object.prototype]. *)
Definition inheritedDay : Settings :=
  mkSettings (Some "fortnightly"%string) (Some "constructor"%string)
             (Some 2307.69%float).

End Scenarios.

(* ================================================================= *)
(** ** Counting occurrences *)

Module Counting.
Import JSDate DateFns Bills.

(** [totalAmount += billAmount], [n] times over. *)
Definition addTimes (n : nat) (billAmount totalAmount : float) : float :=
  Nat.iter n (fun t => (t + billAmount)%float) totalAmount.

Definition msPerWeek : Z := 7 * msPerDay.

(** How many of the times [base], [base + step], [base + 2 * step], ... are
    at most [x]. *)
Definition upTo (base step x : Z) : Z := Z.max 0 ((x - base) / step + 1).

(** How many of them lie between [lo] and [hi], both included. *)
Definition occurrencesIn (base step lo hi : Z) : nat :=
  Z.to_nat (upTo base step hi - upTo base step (lo - 1)).

(** The step of a recurring bill, as the program's forward walk takes it:
    a week for a weekly bill, two weeks otherwise. *)
Definition stepOf (freq : string) : Z :=
  if String.eqb freq "weekly" then msPerWeek else 2 * msPerWeek.

(** The day [dayOfMonth] of the month [i] months after the month of
    [rangeStart], at [rangeStart]'s time of day. *)
Definition monthlyOccurrence (rangeStart dayOfMonth : Z) (i : nat) : Z :=
  MakeDate (MakeDay (YearFromTime rangeStart)
                    (MonthFromTime rangeStart + Z.of_nat i) dayOfMonth)
           (TimeWithinDay rangeStart).

(** How many of the [n] monthly occurrences from the [i]-th on lie between
    [lo] and [hi], both included. *)
Definition monthlyOccurrencesFrom (rangeStart dayOfMonth lo hi : Z)
    (i n : nat) : nat :=
  List.length
    (filter (fun j => (lo <=? monthlyOccurrence rangeStart dayOfMonth j)
                      && (monthlyOccurrence rangeStart dayOfMonth j <=? hi))
            (seq i n)).

(** The bills the expander cannot read. *)
Definition unreadable (bill : Bill) : Prop :=
  PrimFloat.is_nan (amount bill) = true
  \/ (frequency bill = "one-off"%string
      /\ (dueDate bill = None
          \/ exists ts, dueDate bill = Some ts /\ maxTime < Z.abs ts))
  \/ (frequency bill = "monthly"%string
      /\ (dueDate bill = None
          \/ exists d, dueDate bill = Some d /\ (d < 1 \/ 31 < d)))
  \/ ((frequency bill = "weekly"%string
       \/ frequency bill = "fortnightly"%string)
      /\ maxTime < Z.abs (_creationTime bill))
  \/ (frequency bill <> "one-off"%string
      /\ frequency bill <> "monthly"%string
      /\ frequency bill <> "weekly"%string
      /\ frequency bill <> "fortnightly"%string).

End Counting.

(* ================================================================= *)
(** ** Inputs the pay calculations refuse *)

Module Inputs.
Import JSDate DateFns Bills PayCalculations.

(** The inputs [calculateNextPayday] has no payday for: no frequency or one
    that is not monthly, fortnightly or weekly; for a monthly pay, no day of
    the month or one outside 1 to 31; for a weekly or fortnightly pay, no
    day of the week, an empty one, or one [dayOfWeekMap] has nothing for. *)
Definition noPayday (frequency : option string) (dayOfMonth : option Z)
    (dayOfWeek : option string) : Prop :=
  match frequency with
  | None => True
  | Some f =>
      (f = "monthly"%string
       /\ match dayOfMonth with
          | None => True
          | Some d => d < 1 \/ 31 < d
          end)
      \/ ((f = "weekly"%string \/ f = "fortnightly"%string)
          /\ match dayOfWeek with
             | None => True
             | Some dow =>
                 dow = ""%string
                 \/ dayOfWeekMap_get (toLowerCase dow) = PUndefined
             end)
      \/ (f <> "monthly"%string /\ f <> "weekly"%string
          /\ f <> "fortnightly"%string)
  end.

End Inputs.

(* ================================================================= *)
(** ** Convex mutations *)

Module Convex.

(** What makes a mutation throw: an argument its validator refuses, a
    [.unique()] query with several documents, or an [Error] of the
    handler. *)
Inductive error : Type :=
| ArgumentValidationError
| NotUnique
| Error (message : string).

(** What a mutation on a table of type [T] does: it commits a new table and
    returns a value, or it throws and the table stays as it was. *)
Inductive mutation (T A : Type) : Type :=
| Committed (value : A) (table : T)
| Thrown (e : error).
Arguments Committed {T A} value table.
Arguments Thrown {T A} e.

(** An identifier for a new document, given the identifiers in use. *)
Definition newId (ids : list nat) : nat := S (fold_right Nat.max O ids).

End Convex.

(* ================================================================= *)
(** ** [convex/bills.ts]: the bills of the users *)

Module ConvexBills.
Import JSDate DateFns Bills Convex.

(** A document of the [bills] table with the two fields the expander does
    not read: its [_id] and the [userId] of its owner.  The other fields
    are those of [Bill]. *)
Record BillDoc : Type := mkBillDoc {
  _id : nat;
  userId : string;
  fields : Bill
}.

(** The table, in the order the documents were created. *)
Definition BillsTable : Type := list BillDoc.

(** The validator of [frequency]: a union of four literals. *)
Definition frequencyLiteral (f : string) : bool :=
  String.eqb f "monthly" || String.eqb f "fortnightly"
  || String.eqb f "weekly" || String.eqb f "one-off".

(** [ctx.db.get(id)]. *)
Definition get (db : BillsTable) (id : nat) : option BillDoc :=
  find (fun d => Nat.eqb (_id d) id) db.

(** [q.neq(q.field('isActive'), false)]. *)
Definition notInactive (d : BillDoc) : bool :=
  match isActive (fields d) with
  | Some false => false
  | _ => true
  end.

(** [withIndex('by_userId', q => q.eq('userId', userId))]. *)
Definition byUserId (uid : string) (d : BillDoc) : bool :=
  String.eqb (userId d) uid.

(** [listActiveBillsByUserId]; [listActiveBills] is the same query for the
    user of the session. *)
Definition listActiveBillsByUserId (db : BillsTable) (userId : string)
    : BillsTable :=
  if String.eqb userId "" then []
  else rev (filter notInactive (filter (byUserId userId) db)).

(** [addBill]; [now] is the creation time the database stamps. *)
Definition addBill (now : Z) (db : BillsTable) (userId name : string)
    (amount : float) (frequency : string) (dueDate : option Z)
    (isActive : option bool) : mutation BillsTable nat :=
  if negb (frequencyLiteral frequency) then Thrown ArgumentValidationError
  else if String.eqb userId "" then
    Thrown (Error
      "Internal Server Error: userId missing in addBill mutation call.")
  else
    let billId := newId (map _id db) in
    Committed billId
      (db ++ [mkBillDoc billId userId
                (mkBill name amount frequency dueDate
                        (Some match isActive with
                              | Some b => b
                              | None => true
                              end)
                        now)]).

(** The document a patch makes of a document: the fields given are
    replaced, the others kept. *)
Definition patched (name : option string) (amount : option float)
    (frequency : option string) (dueDate : option Z)
    (isActive : option bool) (d : BillDoc) : BillDoc :=
  let old := fields d in
  mkBillDoc (_id d) (userId d)
    (mkBill (match name with Some v => v | None => Bills.name old end)
            (match amount with Some v => v | None => Bills.amount old end)
            (match frequency with
             | Some v => v
             | None => Bills.frequency old
             end)
            (match dueDate with
             | Some v => Some v
             | None => Bills.dueDate old
             end)
            (match isActive with
             | Some v => Some v
             | None => Bills.isActive old
             end)
            (_creationTime old)).

(** [ctx.db.patch(billId, updateData)]. *)
Definition patch (db : BillsTable) (billId : nat) (name : option string)
    (amount : option float) (frequency : option string)
    (dueDate : option Z) (isActive : option bool) : BillsTable :=
  map (fun d =>
         if Nat.eqb (_id d) billId
         then patched name amount frequency dueDate isActive d
         else d) db.

(** [updateBill]: an argument that is not given is [None]. *)
Definition updateBill (db : BillsTable) (billId : nat) (userId : string)
    (name : option string) (amount : option float)
    (frequency : option string) (dueDate : option Z)
    (isActive : option bool) : mutation BillsTable nat :=
  if match frequency with
     | Some f => negb (frequencyLiteral f)
     | None => false
     end then Thrown ArgumentValidationError
  else if String.eqb userId "" then
    Thrown (Error
      "Internal Server Error: userId missing in updateBill mutation call.")
  else
    match get db billId with
    | None => Thrown (Error "Bill not found.")
    | Some existingBill =>
        if negb (String.eqb (ConvexBills.userId existingBill) userId) then
          Thrown (Error "Unauthorized: You can only update your own bills.")
        else
          Committed billId
            (patch db billId name amount frequency dueDate isActive)
    end.

(** [deleteBill]. *)
Definition deleteBill (db : BillsTable) (billId : nat) (userId : string)
    : mutation BillsTable nat :=
  if String.eqb userId "" then
    Thrown (Error
      "Internal Server Error: userId missing in deleteBill mutation call.")
  else
    match get db billId with
    | None => Thrown (Error "Bill not found.")
    | Some existingBill =>
        if negb (String.eqb (ConvexBills.userId existingBill) userId) then
          Thrown (Error "Unauthorized: You can only delete your own bills.")
        else
          Committed billId
            (filter (fun d => negb (Nat.eqb (_id d) billId)) db)
    end.

(** The tables the mutations are run on: no two documents share an
    identifier. *)
Definition distinctIds (db : BillsTable) : Prop := NoDup (map _id db).

End ConvexBills.

(* ================================================================= *)
(** ** [convex/userSettings.ts]: the settings of the users *)

Module ConvexUserSettings.
Import JSDate DateFns Bills PayCalculations Convex.

(** A document of the [userSettings] table.  The optional fields are
    [None] when absent; the day of the month and the timestamp hold whole
    numbers. *)
Record UserSettingsDoc : Type := mkUserSettingsDoc {
  _id : nat;
  _creationTime : Z;
  userId : string;
  userEmail : string;
  actualPayAmount : option float;
  actualPayFrequency : option string;
  actualPayDayOfMonth : option Z;
  desiredPayFrequency : option string;
  desiredPayDayOfWeek : option string;
  desiredPayAmount : option float;
  nextPaydayTimestamp : option Z
}.

Definition SettingsTable : Type := list UserSettingsDoc.

(** [.unique()]: the one document of the query, [null] when there is none;
    it throws when there are several. *)
Definition unique (docs : SettingsTable) : option (option UserSettingsDoc) :=
  match docs with
  | [] => Some None
  | [d] => Some (Some d)
  | _ => None
  end.

(** [withIndex("by_userId", (q) => q.eq("userId", userId))]. *)
Definition ofUser (uid : string) (d : UserSettingsDoc) : bool :=
  String.eqb (userId d) uid.

(** [getByUserId]. *)
Definition getByUserId (db : SettingsTable) (userId : string)
    : option (option UserSettingsDoc) :=
  unique (filter (ofUser userId) db).

(** [getById]. *)
Definition getById (db : SettingsTable) (userSettingsId : nat)
    : option UserSettingsDoc :=
  find (fun d => Nat.eqb (_id d) userSettingsId) db.

(** Whether a number or [null] is truthy: neither [null], 0 nor NaN. *)
Definition truthy (x : option float) : bool :=
  match x with
  | Some v => negb (PrimFloat.is_nan v) && negb (PrimFloat.eqb v 0)
  | None => false
  end.

(** [a ?? b]. *)
Definition nullish {A : Type} (a b : option A) : option A :=
  match a with
  | Some v => Some v
  | None => b
  end.

(** The amount [upsert] stores as [desiredPayAmount]. *)
Definition desiredAmountForDb (actualPayAmount desiredPayAmount : option float)
    : option float :=
  let annualSalary :=
    calculateAnnualSalary actualPayAmount (Some "monthly"%string) in
  let desiredAmountCalculated :=
    if truthy annualSalary
    then calculateTargetCycleAmount annualSalary (Some "fortnightly"%string)
    else None in
  nullish desiredAmountCalculated desiredPayAmount.

(** [upsert]; [now] is the creation time the database stamps on a new
    document.  Every field of the table is in [dataToSave], so the patch
    replaces them all (a field given as [undefined] is removed). *)
Definition upsert (now : Z) (db : SettingsTable) (userId userEmail : string)
    (actualPayAmount : option float) (actualPayFrequency : option string)
    (actualPayDayOfMonth : option Z) (desiredPayDayOfWeek : option string)
    (desiredPayAmount : option float) (nextPaydayTimestamp : option Z)
    : mutation SettingsTable nat :=
  if match actualPayFrequency with
     | Some f => negb (String.eqb f "monthly")
     | None => false
     end then Thrown ArgumentValidationError
  else
    match getByUserId db userId with
    | None => Thrown NotUnique
    | Some existingSettings =>
        let dataToSave id created :=
          mkUserSettingsDoc id created userId userEmail actualPayAmount
            (Some "monthly"%string) actualPayDayOfMonth
            (Some "fortnightly"%string) desiredPayDayOfWeek
            (desiredAmountForDb actualPayAmount desiredPayAmount)
            nextPaydayTimestamp in
        match existingSettings with
        | Some existing =>
            Committed (_id existing)
              (map (fun d =>
                      if Nat.eqb (_id d) (_id existing)
                      then dataToSave (_id d) (_creationTime d) else d) db)
        | None =>
            let newSettingsId := newId (map _id db) in
            Committed newSettingsId (db ++ [dataToSave newSettingsId now])
        end
    end.

(** The three fields [generateProjectedSchedule] reads of a document. *)
Definition settingsOf (d : UserSettingsDoc) : Settings :=
  mkSettings (desiredPayFrequency d) (desiredPayDayOfWeek d)
             (desiredPayAmount d).

(** The tables [upsert] is run on: no two documents share an identifier or
    a user. *)
Definition oneDocumentPerUser (db : SettingsTable) : Prop :=
  NoDup (map _id db) /\ NoDup (map userId db).

End ConvexUserSettings.

(* ================================================================= *)
(** ** The loaders of the dashboard and of the schedule page *)

Module Loaders.
Import JSDate DateFns Bills PayCalculations.

Record LoaderData : Type := mkLoaderData {
  settings : option ConvexUserSettings.UserSettingsDoc;
  bills : list Bill;
  upcomingBillsTotal : float;
  leftoverAmount : option float
}.

(** The loader once the two queries have answered: the total of the bills
    over the next fourteen days, and what is left of the allowance. *)
Definition summarize (fuel : nat) (now : Z)
    (settings : option ConvexUserSettings.UserSettingsDoc)
    (bills : list Bill) : outcome LoaderData :=
  let today := TimeClip now in
  let fourteenDaysFromNow := addDays today 14 in
  match calculateUpcomingBillsTotal fuel bills today fourteenDaysFromNow with
  | Returns upcomingBillsTotal =>
      let smoothedPayoutAmount :=
        match settings with
        | Some s => ConvexUserSettings.desiredPayAmount s
        | None => None
        end in
      let leftoverAmount :=
        match smoothedPayoutAmount with
        | Some a => Some (a - upcomingBillsTotal)%float
        | None => None
        end in
      Returns (mkLoaderData settings bills upcomingBillsTotal leftoverAmount)
  | Throws => Throws
  | Unfinished => Unfinished
  end.

(** [loader]: the two queries, then the summary.  Without a user, or when a
    query throws, the loader throws a [Response]. *)
Definition loader (fuel : nat) (now : Z)
    (userSettings : ConvexUserSettings.SettingsTable)
    (billsTable : ConvexBills.BillsTable)
    (userId : string) : outcome LoaderData :=
  if String.eqb userId "" then Throws
  else
    match ConvexUserSettings.getByUserId userSettings userId with
    | None => Throws
    | Some settings =>
        summarize fuel now settings
          (map ConvexBills.fields
               (ConvexBills.listActiveBillsByUserId billsTable userId))
    end.

End Loaders.

(* ================================================================= *)
(** ** [app/inngest/functions/scheduleNotifications.ts] *)

Module Notifications.
Import JSDate DateFns Bills PayCalculations.

(** The data handed to [sendPaydayNotification]; [payday] is the time the
    ISO string denotes. *)
Record SendNotificationInvokePayload : Type := mkPayload {
  userId : string;
  userEmail : string;
  targetAmount : option float;
  payday : Z
}.

(** What a run does: it cancels, it throws, or it sleeps until a date and
    then invokes the sending function. *)
Inductive run : Type :=
| Cancelled
| Failed
| Scheduled (notificationDate : Z) (data : SendNotificationInvokePayload).

(** The run for an event [{ userId, userSettingsId }]. *)
Definition scheduleNotifications (db : ConvexUserSettings.SettingsTable)
    (userId : string) (userSettingsId : nat) : run :=
  let userSettings := ConvexUserSettings.getById db userSettingsId in
  match userSettings with
  | None => Cancelled
  | Some s =>
      match ConvexUserSettings.nextPaydayTimestamp s with
      | None => Cancelled
      | Some nextPaydayTimestamp =>
          if (nextPaydayTimestamp =? 0)
             || String.eqb (ConvexUserSettings.userEmail s) ""
          then Cancelled
          else
            let paydayDate := TimeClip nextPaydayTimestamp in
            match addDays paydayDate (-2) with
            | None => Failed
            | Some notificationDate =>
                Scheduled notificationDate
                  (mkPayload userId (ConvexUserSettings.userEmail s)
                             (ConvexUserSettings.desiredPayAmount s)
                             nextPaydayTimestamp)
            end
      end
  end.

(** [sendPaydayNotification] up to the sending of the e-mail: it throws on
    a payload without a user or an address. *)
Definition payloadAccepted (payload : option SendNotificationInvokePayload)
    : bool :=
  match payload with
  | None => false
  | Some p => negb (String.eqb (userEmail p) "")
              && negb (String.eqb (userId p) "")
  end.

End Notifications.

(* ================================================================= *)
(** ** Tables used by the examples below *)

Module Fixtures.
Import JSDate DateFns Bills ConvexBills.

(** Two users, one bill each. *)
Definition twoUsers : BillsTable :=
  [mkBillDoc 1 "alice" (mkBill "Rent" 1500 "monthly" (Some 1) (Some true) 0);
   mkBillDoc 2 "bob" (mkBill "Gym" 50 "weekly" None None 0)].

(** The settings of a user paid 5000 on the 15th, next on 15 May 2024. *)
Definition aliceSettings : ConvexUserSettings.UserSettingsDoc :=
  ConvexUserSettings.mkUserSettingsDoc 1 0 "alice" "a@example.org"
    (Some 5000%float) (Some "monthly"%string) (Some 15)
    (Some "fortnightly"%string) (Some "friday"%string)
    (Some 2307.69%float) (Some (utc 2024 5 15 0 0 0 0)).

End Fixtures.

(* ================================================================= *)
(** ** Facts about time values *)

Module DateFacts.
Import JSDate DateFns.

(** [YearFromDay] is the year the language specification asks for: the
    largest one that starts on or before the day. *)
Lemma YearFromDay_spec (d : Z) :
  DayFromYear (YearFromDay d) <= d < DayFromYear (YearFromDay d + 1).
Proof.
  unfold YearFromDay.
  set (y0 := 1970 + d * 400 / 146097).
  assert (Hy : y0 = 1970 + d * 400 / 146097) by reflexivity.
  clearbody y0.
  destruct (Z.leb_spec (DayFromYear (y0 + 1)) d) as [H1|H1].
  - split; [lia|]. unfold DayFromYear in *. Z.div_mod_to_equations. lia.
  - destruct (Z.leb_spec (DayFromYear y0) d) as [H2|H2].
    + lia.
    + split; [|replace (y0 - 1 + 1) with y0 by lia; lia].
      unfold DayFromYear in *. Z.div_mod_to_equations. lia.
Qed.

Lemma MonthFromTime_range (t : Z) : 0 <= MonthFromTime t <= 11.
Proof.
  unfold MonthFromTime.
  repeat match goal with
         | |- context [if ?b then _ else _] => destruct b
         end; lia.
Qed.

(** Setting the day of the month to "today's plus [k]" moves [k] days. *)
Lemma MakeDay_shift (t k : Z) :
  MakeDay (YearFromTime t) (MonthFromTime t) (DateFromTime t + k) = Day t + k.
Proof.
  pose proof (MonthFromTime_range t) as Hm.
  unfold MakeDay, DateFromTime, DayWithinYear, InLeapYear.
  rewrite Z.div_small, Z.mod_small by lia.
  rewrite Z.add_0_r. lia.
Qed.

Lemma MakeDate_shift (t k : Z) :
  MakeDate (Day t + k) (TimeWithinDay t) = t + k * msPerDay.
Proof.
  unfold MakeDate, Day, TimeWithinDay.
  pose proof (Z.div_mod t msPerDay) as H.
  unfold msPerDay in *. lia.
Qed.

Lemma setDate_plus (t k : Z) :
  JSDate.setDate (Some t) (numAdd (getDate (Some t)) (Some k))
  = TimeClip (t + k * msPerDay).
Proof.
  cbn [JSDate.setDate numAdd getDate option_map].
  now rewrite MakeDay_shift, MakeDate_shift.
Qed.

Lemma addDays_Some (t k : Z) :
  k <> 0 -> addDays (Some t) k = TimeClip (t + k * msPerDay).
Proof.
  intros Hk. unfold addDays.
  destruct (Z.eqb_spec k 0) as [E|_]; [contradiction|].
  apply setDate_plus.
Qed.

Lemma addDays_None (k : Z) : addDays None k = None.
Proof. unfold addDays. now destruct (k =? 0). Qed.

Lemma TimeClip_Some (t u : Z) : TimeClip t = Some u -> u = t.
Proof. unfold TimeClip. destruct (Z.abs t <=? maxTime); congruence. Qed.

Lemma TimeClip_valid (t : Z) : Z.abs t <= maxTime -> TimeClip t = Some t.
Proof.
  intros H. unfold TimeClip.
  destruct (Z.leb_spec (Z.abs t) maxTime); [reflexivity | lia].
Qed.

End DateFacts.

(* ================================================================= *)
(** ** The bill occurrence expander: lemmas *)

Module BillsFacts.
Import JSDate DateFns Bills Scenarios DateFacts.

Lemma addIntervalFn_fortnightly (d : Date) (n : Z) :
  addIntervalFn "fortnightly" d n = addDays d 14.
Proof. reflexivity. Qed.

Lemma addIntervalFn_weekly (d : Date) (n : Z) :
  addIntervalFn "weekly" d n = addDays d (n * 7).
Proof. reflexivity. Qed.

Lemma backwardWalk_None (n : nat) (freq : string) (rs : Z) :
  backwardWalk n freq rs None = None.
Proof. destruct n; reflexivity. Qed.

(** The backward search of a fortnightly bill anchored after the start of
    the range walks forward: it ends on the Invalid Date or one thousand
    fortnights after the anchor. *)
Lemma backwardWalk_fortnightly (rs : Z) (n : nat) :
  forall t, rs < t ->
    backwardWalk n "fortnightly" rs (Some t) = None \/
    backwardWalk n "fortnightly" rs (Some t)
      = Some (t + Z.of_nat n * (14 * msPerDay)).
Proof.
  induction n as [|k IH]; intros t Ht.
  - right. cbn [backwardWalk]. f_equal. lia.
  - cbn [backwardWalk]. unfold dateGt, dateLt.
    destruct (Z.ltb_spec rs t) as [_|Hge]; [|lia].
    rewrite addIntervalFn_fortnightly, addDays_Some by lia.
    destruct (TimeClip (t + 14 * msPerDay)) as [u|] eqn:E.
    + apply TimeClip_Some in E. subst u.
      destruct (IH (t + 14 * msPerDay)) as [H|H];
        [unfold msPerDay; lia | now left | right].
      rewrite H. f_equal. lia.
    + left. apply backwardWalk_None.
Qed.

Lemma forwardWalk_past (fuel : nat) (freq : string) (rs re : Z)
    (amt : float) (cur : Date) (total : float) :
  dateLe cur (Some re) = false ->
  forwardWalk fuel freq rs re amt cur total = Some total.
Proof. intros H. destruct fuel; cbn [forwardWalk]; now rewrite H. Qed.

(** One fortnightly bill anchored after the start of the range leaves the
    running total as it was. *)
Lemma processBill_fortnightly_future (fuel : nat) (rs re : Z) (bill : Bill)
    (total : float) :
  frequency bill = "fortnightly"%string ->
  rs < _creationTime bill ->
  re < _creationTime bill + twoThousandWeeks ->
  processBill fuel rs re bill total = Some total.
Proof.
  intros Hf Hs He. unfold processBill.
  destruct (is_nan (amount bill)); [reflexivity|].
  rewrite Hf. cbn [String.eqb Ascii.eqb Bool.eqb orb].
  change (String.eqb "fortnightly" "one-off") with false.
  change (String.eqb "fortnightly" "monthly") with false.
  change (String.eqb "fortnightly" "weekly") with false.
  change (String.eqb "fortnightly" "fortnightly") with true.
  cbn [orb].
  destruct (TimeClip (_creationTime bill)) as [a|] eqn:E; [|reflexivity].
  apply TimeClip_Some in E. subst a.
  apply forwardWalk_past.
  destruct (backwardWalk_fortnightly rs maxBackwardIterations
              (_creationTime bill) Hs) as [H|H]; rewrite H.
  - reflexivity.
  - unfold dateLe. apply Z.leb_gt.
    unfold twoThousandWeeks, maxBackwardIterations, msPerDay in *.
    change (Z.of_nat 1000) with 1000. lia.
Qed.

Lemma forEachBill_app (fuel : nat) (rs re : Z) (pre post : list Bill) :
  forall total,
    forEachBill fuel rs re (pre ++ post) total
    = match forEachBill fuel rs re pre total with
      | Some total' => forEachBill fuel rs re post total'
      | None => None
      end.
Proof.
  induction pre as [|b pre IH]; intros total; cbn [app forEachBill].
  - reflexivity.
  - destruct (processBill fuel rs re b total); [apply IH | reflexivity].
Qed.

(** The expander never reads [isActive]. *)
Lemma processBill_ignores_isActive (fuel : nat) (rs re : Z) (b : Bill)
    (flag : option bool) (total : float) :
  processBill fuel rs re
    (mkBill (name b) (amount b) (frequency b) (dueDate b) flag
            (_creationTime b)) total
  = processBill fuel rs re b total.
Proof. destruct b; reflexivity. Qed.

(** The exclusion of inactive bills is the query's. *)
Lemma listActiveBills_active (userBills : list Bill) (b : Bill) :
  In b (listActiveBills userBills) -> isActive b <> Some false.
Proof.
  unfold listActiveBills. rewrite filter_In. intros [_ H] E.
  rewrite E in H. discriminate.
Qed.

(** Once the month-by-month walk holds the Invalid Date it never leaves the
    loop: the Invalid Date is not after the end of the range, and it is not
    the same day as itself. *)
Lemma monthlyWalk_invalid (rs re : Z) (amt : float) (fuel : nat) :
  forall total, monthlyWalk fuel rs re amt None total = None.
Proof.
  induction fuel as [|k IH]; intros total; cbn [monthlyWalk].
  - reflexivity.
  - cbn. apply IH.
Qed.

(** The forward walk of a weekly or fortnightly bill always ends: each
    step moves at least a week, and on the Invalid Date the loop stops. *)
Lemma forwardWalk_terminates (freq : string) (rs re : Z) (amt : float)
    (fuel : nat) :
  forall t total,
    re - t < Z.of_nat fuel * (7 * msPerDay) ->
    forwardWalk fuel freq rs re amt (Some t) total <> None.
Proof.
  induction fuel as [|k IH]; intros t total Hlt.
  - cbn [forwardWalk]. unfold dateLe.
    destruct (Z.leb_spec t re); [lia | discriminate].
  - cbn [forwardWalk]. unfold dateLe at 1.
    destruct (Z.leb_spec t re) as [Hle|_]; [|discriminate].
    assert (Hstep : exists s, 7 <= s /\
              addIntervalFn freq (Some t) 1 = TimeClip (t + s * msPerDay)).
    { unfold addIntervalFn, addWeeks.
      destruct (String.eqb freq "weekly").
      - exists 7. split; [lia|]. now rewrite addDays_Some.
      - exists 14. split; [lia|]. now rewrite addDays_Some. }
    destruct Hstep as (s & Hs & ->).
    destruct (isSameDay _ _); [discriminate|].
    destruct (TimeClip (t + s * msPerDay)) as [u|] eqn:E.
    + apply TimeClip_Some in E. subst u. apply IH.
      unfold msPerDay in *. lia.
    + rewrite forwardWalk_past by reflexivity. discriminate.
Qed.

End BillsFacts.

(* ================================================================= *)
(** ** Fuel: a run that ends keeps its answer when given more *)

Module Fuel.
Import JSDate DateFns Bills.

Lemma forwardWalk_mono (freq : string) (rs re : Z) (amt : float) (n : nat) :
  forall m cur total r, (n <= m)%nat ->
    forwardWalk n freq rs re amt cur total = Some r ->
    forwardWalk m freq rs re amt cur total = Some r.
Proof.
  induction n as [|k IH]; intros m cur total r Hle H.
  - cbn [forwardWalk] in H.
    destruct (dateLe cur (Some re)) eqn:E; [discriminate|].
    destruct m; cbn [forwardWalk]; now rewrite E.
  - destruct m as [|m']; [lia|].
    cbn [forwardWalk] in *.
    destruct (dateLe cur (Some re)); [|exact H].
    destruct (isSameDay _ _); [exact H|].
    apply IH; [lia | exact H].
Qed.

Lemma monthlyWalk_mono (rs re : Z) (amt : float) (n : nat) :
  forall m cur total r, (n <= m)%nat ->
    monthlyWalk n rs re amt cur total = Some r ->
    monthlyWalk m rs re amt cur total = Some r.
Proof.
  induction n as [|k IH]; intros m cur total r Hle H.
  - cbn [monthlyWalk] in H.
    destruct (negb (isAfter cur (Some re))) eqn:E; [discriminate|].
    destruct m; cbn [monthlyWalk]; now rewrite E.
  - destruct m as [|m']; [lia|].
    cbn [monthlyWalk] in *.
    destruct (negb (isAfter cur (Some re))); [|exact H].
    destruct (isSameDay _ _); [exact H|].
    apply IH; [lia | exact H].
Qed.

Lemma processBill_mono (n m : nat) (rs re : Z) (b : Bill) (total r : float) :
  (n <= m)%nat ->
  processBill n rs re b total = Some r ->
  processBill m rs re b total = Some r.
Proof.
  intros Hle. unfold processBill.
  destruct (is_nan (amount b)); [trivial|].
  destruct (String.eqb (frequency b) "one-off"); [trivial|].
  destruct (String.eqb (frequency b) "monthly").
  - destruct (dueDate b) as [d|]; [|trivial].
    destruct ((d <? 1) || (31 <? d)); [trivial|].
    now apply monthlyWalk_mono.
  - destruct (String.eqb (frequency b) "weekly"
              || String.eqb (frequency b) "fortnightly"); [|trivial].
    destruct (TimeClip (_creationTime b)); [|trivial].
    now apply forwardWalk_mono.
Qed.

Lemma forEachBill_mono (n m : nat) (rs re : Z) (bills : list Bill) :
  (n <= m)%nat ->
  forall total r,
    forEachBill n rs re bills total = Some r ->
    forEachBill m rs re bills total = Some r.
Proof.
  intros Hle. induction bills as [|b rest IH]; intros total r H.
  - exact H.
  - cbn [forEachBill] in *.
    destruct (processBill n rs re b total) as [t'|] eqn:E; [|discriminate].
    rewrite (processBill_mono n m rs re b total t' Hle E). now apply IH.
Qed.

Lemma calculateUpcomingBillsTotal_mono (n m : nat) (bills : list Bill)
    (startDate endDate : Date) :
  (n <= m)%nat ->
  calculateUpcomingBillsTotal n bills startDate endDate <> Unfinished ->
  calculateUpcomingBillsTotal m bills startDate endDate
  = calculateUpcomingBillsTotal n bills startDate endDate.
Proof.
  intros Hle. unfold calculateUpcomingBillsTotal.
  destruct (startOfDay startDate) as [rs|]; [|reflexivity].
  destruct (endOfDay endDate) as [re|]; [|reflexivity].
  destruct (forEachBill n rs re bills 0) as [r|] eqn:E.
  - intros _. now rewrite (forEachBill_mono n m rs re bills Hle _ _ E).
  - intros H. now contradiction H.
Qed.

End Fuel.

(* ================================================================= *)
(** ** The calendar: months *)

Module Calendar.
Import JSDate DateFns DateFacts.

Lemma leapDay_range (y : Z) : 0 <= leapDay y <= 1.
Proof. unfold leapDay. destruct (isLeap y); lia. Qed.

Lemma DayFromYear_succ (y : Z) :
  DayFromYear (y + 1) = DayFromYear y + 365 + leapDay y.
Proof.
  unfold DayFromYear, leapDay, isLeap.
  destruct (Z.eqb_spec (y mod 4) 0) as [E4|N4];
  destruct (Z.eqb_spec (y mod 100) 0) as [E100|N100];
  destruct (Z.eqb_spec (y mod 400) 0) as [E400|N400];
  cbn [negb andb orb]; Z.div_mod_to_equations; lia.
Qed.

Lemma DayWithinYear_range (t : Z) :
  0 <= DayWithinYear t < 365 + InLeapYear t.
Proof.
  unfold DayWithinYear, InLeapYear, YearFromTime.
  pose proof (YearFromDay_spec (Day t)) as H.
  rewrite DayFromYear_succ in H. lia.
Qed.

Lemma DateFromTime_range (t : Z) : 1 <= DateFromTime t <= 31.
Proof.
  pose proof (DayWithinYear_range t) as Hd.
  pose proof (leapDay_range (YearFromTime t)) as Hl.
  unfold DateFromTime, MonthFromTime, InLeapYear in *.
  set (d := DayWithinYear t) in *. set (l := leapDay (YearFromTime t)) in *.
  repeat match goal with
         | |- context [d <? ?k] => destruct (Z.ltb_spec d k)
         end; cbn [monthStart Z.leb Z.eqb Z.compare Pos.eqb]; lia.
Qed.

Lemma TimeWithinDay_range (t : Z) : 0 <= TimeWithinDay t < msPerDay.
Proof. unfold TimeWithinDay. apply Z.mod_pos_bound. reflexivity. Qed.

Lemma Day_MakeDate (d tw : Z) :
  0 <= tw < msPerDay -> Day (MakeDate d tw) = d.
Proof.
  intros H. unfold Day, MakeDate.
  rewrite Z.add_comm, Z.div_add by (unfold msPerDay; lia).
  rewrite Z.div_small by exact H. reflexivity.
Qed.

Lemma TimeWithinDay_MakeDate (d tw : Z) :
  0 <= tw < msPerDay -> TimeWithinDay (MakeDate d tw) = tw.
Proof.
  intros H. unfold TimeWithinDay, MakeDate.
  rewrite Z.add_comm, Z.mod_add by (unfold msPerDay; lia).
  now apply Z.mod_small.
Qed.

Lemma MakeDate_Day (t : Z) : MakeDate (Day t) (TimeWithinDay t) = t.
Proof. pose proof (MakeDate_shift t 0) as H. now rewrite !Z.add_0_r in H. Qed.

Lemma MakeDay_date (y m d : Z) : MakeDay y m d = MakeDay y m 1 + d - 1.
Proof. unfold MakeDay. lia. Qed.

(** From the first day of a month to the last day of the next one. *)
Lemma two_months (y m : Z) :
  0 <= m <= 11 -> 58 <= MakeDay y (m + 2) 0 - MakeDay y m 1 <= 61.
Proof.
  intros Hm. pose proof (leapDay_range y) as Hl.
  pose proof (leapDay_range (y + 1)) as Hl'.
  pose proof (DayFromYear_succ y) as Hy.
  assert (Hc : m = 0 \/ m = 1 \/ m = 2 \/ m = 3 \/ m = 4 \/ m = 5 \/ m = 6
               \/ m = 7 \/ m = 8 \/ m = 9 \/ m = 10 \/ m = 11) by lia.
  unfold MakeDay.
  repeat (destruct Hc as [->|Hc]); [..|subst m];
    repeat match goal with
           | |- context [?a / 12] =>
               let v := eval vm_compute in (a / 12) in change (a / 12) with v
           | |- context [?a mod 12] =>
               let v := eval vm_compute in (a mod 12) in
               change (a mod 12) with v
           end;
    rewrite ?Z.add_0_r; cbn [monthStart Z.leb Z.eqb Z.compare Pos.eqb]; lia.
Qed.

(** [addMonths(d, 1)] written out. *)
Lemma addMonths_one (t : Z) :
  addMonths (Some t) 1
  = match TimeClip (MakeDate (MakeDay (YearFromTime t) (MonthFromTime t + 2) 0)
                             (TimeWithinDay t)) with
    | Some te =>
        if DateFromTime te <=? DateFromTime t then Some te
        else TimeClip (MakeDate (MakeDay (YearFromTime te) (MonthFromTime te)
                                         (DateFromTime t))
                                (TimeWithinDay t))
    | None => None
    end.
Proof.
  unfold addMonths.
  cbn [Z.eqb getDate getMonth getFullYear option_map numAdd setMonth2 Z.add
       Pos.add].
  destruct (TimeClip _) as [te|]; reflexivity.
Qed.

Lemma MakeDate_bounds (d d' tw k1 k2 : Z) :
  d + k1 <= d' <= d + k2 ->
  MakeDate d tw + k1 * msPerDay <= MakeDate d' tw
  <= MakeDate d tw + k2 * msPerDay.
Proof. unfold MakeDate, msPerDay. lia. Qed.

(** The day [addMonths(d, 1)] lands on, counted from the day of [d]: the
    last day of the next month, or the same day of the month in it. *)
Lemma addMonths_day (t : Z) :
  let e := MakeDate (MakeDay (YearFromTime t) (MonthFromTime t + 2) 0)
                    (TimeWithinDay t) in
  Day t + 28 <= MakeDay (YearFromTime t) (MonthFromTime t + 2) 0 <= Day t + 61
  /\ (DateFromTime t < DateFromTime e ->
      Day t + 28
      <= MakeDay (YearFromTime e) (MonthFromTime e) (DateFromTime t)
      <= Day t + 61).
Proof.
  cbv zeta.
  pose proof (MonthFromTime_range t) as Hm.
  pose proof (two_months (YearFromTime t) (MonthFromTime t) Hm) as H2.
  pose proof (DateFromTime_range t) as Hdom.
  pose proof (TimeWithinDay_range t) as Htw.
  pose proof (MakeDay_shift t 0) as HD. rewrite !Z.add_0_r in HD.
  rewrite MakeDay_date in HD.
  remember (MakeDay (YearFromTime t) (MonthFromTime t + 2) 0) as ed eqn:Eed.
  remember (MakeDate ed (TimeWithinDay t)) as te eqn:Ete.
  split; [lia|]. intros Hgt.
  pose proof (DateFromTime_range te) as Hdim.
  pose proof (MakeDay_shift te (DateFromTime t - DateFromTime te)) as Hs.
  replace (DateFromTime te + (DateFromTime t - DateFromTime te))
    with (DateFromTime t) in Hs by lia.
  rewrite Hs. subst te. rewrite Day_MakeDate by exact Htw. lia.
Qed.

(** When it answers a date, [addMonths(d, 1)] is between 28 and 61 days
    later. *)
Lemma addMonths_advances (t t' : Z) :
  addMonths (Some t) 1 = Some t' ->
  t + 28 * msPerDay <= t' <= t + 61 * msPerDay.
Proof.
  rewrite addMonths_one.
  destruct (addMonths_day t) as [H1 H2].
  rewrite <- (MakeDate_Day t) at 4 5.
  destruct (TimeClip _) as [te|] eqn:E; [|discriminate].
  apply TimeClip_Some in E. subst te.
  destruct (Z.leb_spec
              (DateFromTime
                 (MakeDate (MakeDay (YearFromTime t) (MonthFromTime t + 2) 0)
                           (TimeWithinDay t)))
              (DateFromTime t)) as [Hle|Hgt]; intros H.
  - injection H as <-. now apply MakeDate_bounds.
  - apply TimeClip_Some in H. subst t'. apply MakeDate_bounds. now apply H2.
Qed.

(** Away from the last representable month it does answer a date. *)
Lemma addMonths_valid (t : Z) :
  - maxTime <= t -> t + 61 * msPerDay <= maxTime ->
  exists t', addMonths (Some t) 1 = Some t'.
Proof.
  intros Hlo Hhi. rewrite addMonths_one.
  destruct (addMonths_day t) as [H1 H2].
  pose proof (MakeDate_bounds (Day t)
                (MakeDay (YearFromTime t) (MonthFromTime t + 2) 0)
                (TimeWithinDay t) 28 61 H1) as Hb.
  rewrite MakeDate_Day in Hb.
  assert (Hd : 0 <= 28 * msPerDay) by (unfold msPerDay; lia).
  rewrite TimeClip_valid by lia.
  destruct (Z.leb_spec
              (DateFromTime
                 (MakeDate (MakeDay (YearFromTime t) (MonthFromTime t + 2) 0)
                           (TimeWithinDay t)))
              (DateFromTime t)) as [Hle|Hgt]; [eauto|].
  pose proof (MakeDate_bounds (Day t) _ (TimeWithinDay t) 28 61 (H2 Hgt))
    as Hb'.
  rewrite MakeDate_Day in Hb'.
  rewrite TimeClip_valid by lia. eauto.
Qed.

End Calendar.

(* ================================================================= *)
(** ** The expander ends, away from the two ends of time *)

Module Termination.
Import JSDate DateFns Bills Scenarios DateFacts BillsFacts Calendar.

Lemma msPerDay_pos : 0 < msPerDay.
Proof. reflexivity. Qed.

Lemma enough_steps (x s : Z) :
  0 < s -> x < Z.of_nat (Z.to_nat (x / s) + 1) * s.
Proof.
  intros Hs. rewrite Nat2Z.inj_add. change (Z.of_nat 1) with 1.
  pose proof (Z.mul_succ_div_gt x s Hs) as H.
  assert (Hq : x / s <= Z.of_nat (Z.to_nat (x / s))) by lia.
  eapply Z.lt_le_trans; [exact H|].
  rewrite Z.mul_comm. apply Z.mul_le_mono_nonneg_r; lia.
Qed.

Lemma setDate_Some (t d : Z) :
  DateFns.setDate (Some t) d = TimeClip (t + (d - DateFromTime t) * msPerDay).
Proof.
  unfold DateFns.setDate, JSDate.setDate.
  replace d with (DateFromTime t + (d - DateFromTime t)) at 1 by lia.
  now rewrite MakeDay_shift, MakeDate_shift.
Qed.

Lemma monthlyWalk_terminates (rs re : Z) (amt : float) :
  re + 61 * msPerDay <= maxTime ->
  forall fuel t total,
    - maxTime <= t ->
    re - t < Z.of_nat fuel * (28 * msPerDay) ->
    monthlyWalk fuel rs re amt (Some t) total <> None.
Proof.
  intros Hre. pose proof msPerDay_pos as Hd.
  induction fuel as [|k IH]; intros t total Hlo Hlt;
    cbn [monthlyWalk isAfter dateGt dateLt].
  - destruct (Z.ltb_spec re t); [discriminate | cbn in Hlt; lia].
  - destruct (Z.ltb_spec re t) as [_|Hle]; [discriminate|]. cbn [negb].
    destruct (addMonths_valid t Hlo) as [t' Ht']; [lia|].
    rewrite Ht'. pose proof (addMonths_advances t t' Ht') as Hadv.
    destruct (isSameDay _ _); [discriminate|].
    apply IH; [lia|]. rewrite Nat2Z.inj_succ in Hlt. lia.
Qed.

Lemma processBill_terminates (rs re : Z) (bill : Bill) :
  awayFromTheEnds rs -> awayFromTheEnds re ->
  exists n, forall fuel total, (n <= fuel)%nat ->
    processBill fuel rs re bill total <> None.
Proof.
  intros [Hrs1 Hrs2] [Hre1 Hre2]. pose proof msPerDay_pos as Hd.
  unfold processBill.
  destruct (is_nan (amount bill)); [exists O; discriminate|].
  destruct (String.eqb (frequency bill) "one-off").
  { exists O. intros fuel total _. destruct (dueDate bill) as [ts|];
      [|discriminate].
    destruct (TimeClip ts); [|discriminate].
    destruct (isWithinInterval _ _ _); discriminate. }
  destruct (String.eqb (frequency bill) "monthly").
  { destruct (dueDate bill) as [d|]; [|exists O; discriminate].
    destruct (Z.ltb_spec d 1) as [|H1]; [exists O; discriminate|].
    destruct (Z.ltb_spec 31 d) as [|H31]; [exists O; discriminate|].
    cbn [orb]. rewrite setDate_Some.
    pose proof (DateFromTime_range rs) as Hdom.
    assert (Hc0 : rs - 30 * msPerDay
                  <= rs + (d - DateFromTime rs) * msPerDay
                  <= rs + 30 * msPerDay) by nia.
    rewrite TimeClip_valid by lia.
    set (c0 := rs + (d - DateFromTime rs) * msPerDay) in *.
    exists (Z.to_nat ((re - rs + 30 * msPerDay) / (28 * msPerDay)) + 1)%nat.
    intros fuel total Hfuel.
    pose proof (enough_steps (re - rs + 30 * msPerDay) (28 * msPerDay)
                  ltac:(lia)) as Hsteps.
    assert (Hf : re - rs + 30 * msPerDay < Z.of_nat fuel * (28 * msPerDay)).
    { eapply Z.lt_le_trans; [exact Hsteps|].
      apply Z.mul_le_mono_nonneg_r; lia. }
    unfold isBefore, dateLt.
    destruct (Z.ltb_spec c0 rs) as [Hb|Hb].
    - destruct (addMonths_valid c0) as [c1 Hc1]; [lia | lia|].
      rewrite Hc1. pose proof (addMonths_advances c0 c1 Hc1) as Hadv.
      apply monthlyWalk_terminates; lia.
    - apply monthlyWalk_terminates; lia. }
  destruct (String.eqb (frequency bill) "weekly"
            || String.eqb (frequency bill) "fortnightly");
    [|exists O; discriminate].
  destruct (TimeClip (_creationTime bill)) as [a|]; [|exists O; discriminate].
  destruct (backwardWalk maxBackwardIterations (frequency bill) rs (Some a))
    as [t|].
  - exists (Z.to_nat ((re - t) / (7 * msPerDay)) + 1)%nat.
    intros fuel total Hfuel. apply forwardWalk_terminates.
    eapply Z.lt_le_trans;
      [exact (enough_steps (re - t) (7 * msPerDay) ltac:(lia))|].
    apply Z.mul_le_mono_nonneg_r; lia.
  - exists O. intros fuel total _. now rewrite forwardWalk_past.
Qed.

Lemma forEachBill_terminates (rs re : Z) (bills : list Bill) :
  awayFromTheEnds rs -> awayFromTheEnds re ->
  exists n, forall fuel total, (n <= fuel)%nat ->
    forEachBill fuel rs re bills total <> None.
Proof.
  intros Hrs Hre. induction bills as [|b rest (n & IH)].
  - exists O. discriminate.
  - destruct (processBill_terminates rs re b Hrs Hre) as (m & Hm).
    exists (Nat.max m n). intros fuel total Hfuel. cbn [forEachBill].
    destruct (processBill fuel rs re b total) as [t'|] eqn:E.
    + apply IH. lia.
    + exfalso. apply (Hm fuel total); [lia | exact E].
Qed.

(** Whatever the bills, the expander ends on every range that keeps a month
    from the first and two months from the last value a [Date] can hold. *)
Lemma calculateUpcomingBillsTotal_terminates (bills : list Bill)
    (startDate endDate : Date) (rs re : Z) :
  startOfDay startDate = Some rs ->
  endOfDay endDate = Some re ->
  awayFromTheEnds rs -> awayFromTheEnds re ->
  exists n, forall fuel, (n <= fuel)%nat ->
    calculateUpcomingBillsTotal fuel bills startDate endDate <> Unfinished.
Proof.
  intros Hs He Hrs Hre.
  destruct (forEachBill_terminates rs re bills Hrs Hre) as (n & Hn).
  exists n. intros fuel Hfuel. unfold calculateUpcomingBillsTotal.
  rewrite Hs, He.
  destruct (forEachBill fuel rs re bills 0) as [r|] eqn:E; [discriminate|].
  exfalso. apply (Hn fuel 0%float Hfuel E).
Qed.

End Termination.

(* ================================================================= *)
(** ** The bill occurrence expander: what the program does *)

Module Expander.
Import JSDate DateFns Bills Scenarios DateFacts BillsFacts.

(** The five totals [bills.test.ts] expects (with the zone set to UTC). *)
Example test_next_14_days :
  calculateUpcomingBillsTotal 8 testBills MOCK_TODAY (ymd 2024 4 29)
  = Returns 930%float.
Proof. vm_compute. reflexivity. Qed.

Example test_start_and_end_inclusive :
  calculateUpcomingBillsTotal 8 testBills (ymd 2024 4 20) (ymd 2024 4 25)
  = Returns 530%float.
Proof. vm_compute. reflexivity. Qed.

Example test_across_months :
  calculateUpcomingBillsTotal 8 testBills (ymd 2024 4 25) (ymd 2024 5 5)
  = Returns 1980%float.
Proof. vm_compute. reflexivity. Qed.

Example test_until_first_payday :
  calculateBillsBetweenDates 8 testBills MOCK_TODAY (ymd 2024 4 19)
  = Returns 400%float.
Proof. vm_compute. reflexivity. Qed.

Example test_between_two_dates :
  calculateBillsBetweenDates 8 testBills (ymd 2024 4 19) (ymd 2024 5 3)
  = Returns 2680%float.
Proof. vm_compute. reflexivity. Qed.

(** C1 (the program at the failing input).  The inactive bill of the test
    fixture, due on the 10th, is counted by the expander as soon as the
    range holds a 10th: over 5 to 15 April 2024 it adds its 20. *)
Theorem inactive_bill_is_counted :
  calculateUpcomingBillsTotal 8 [cancelledSub] (ymd 2024 4 5) (ymd 2024 4 15)
  = Returns 20%float
  /\ isActive cancelledSub = Some false
  /\ calculateBillsBetweenDates 8 testBills (ymd 2024 4 5) (ymd 2024 4 15)
     = Returns 420%float.
Proof. split; [|split]; vm_compute; reflexivity. Qed.

(** C2 (the program at the failing input).  For the fortnightly bill of the
    test fixture (anchored 5 April 2024) the total over 1 to 30 April is 0,
    while the totals over 1 to 10 April and 11 to 30 April are 0 and 250. *)
Theorem fortnightly_total_is_not_additive :
  calculateUpcomingBillsTotal 8 [salaryAdvanceRepay]
    (ymd 2024 4 1) (ymd 2024 4 30) = Returns 0%float
  /\ calculateUpcomingBillsTotal 8 [salaryAdvanceRepay]
       (ymd 2024 4 1) (ymd 2024 4 10) = Returns 0%float
  /\ calculateUpcomingBillsTotal 8 [salaryAdvanceRepay]
       (ymd 2024 4 11) (ymd 2024 4 30) = Returns 250%float
  /\ addDays (ymd 2024 4 10) 1 = ymd 2024 4 11.
Proof. split; [|split; [|split]]; vm_compute; reflexivity. Qed.

(** The same failure for a monthly bill due on the 31st: three occurrences
    over 15 January to 31 March 2023 (31 January, 28 February, 28 March), one
    over 15 January to 15 February and one over 16 February to 31 March. *)
Lemma monthly_total_is_not_additive :
  calculateUpcomingBillsTotal 8 [endOfMonthBill]
    (ymd 2023 1 15) (ymd 2023 3 31) = Returns 300%float
  /\ calculateUpcomingBillsTotal 8 [endOfMonthBill]
       (ymd 2023 1 15) (ymd 2023 2 15) = Returns 100%float
  /\ calculateUpcomingBillsTotal 8 [endOfMonthBill]
       (ymd 2023 2 16) (ymd 2023 3 31) = Returns 100%float.
Proof. split; [|split]; vm_compute; reflexivity. Qed.

(** C5.  A fortnightly bill whose anchor (its creation time) is after the
    start of the day the range starts on, over a range whose end (the end of
    the day it ends on, as the program takes it) is less than two thousand
    weeks after the anchor, adds nothing: the running total is the same
    after the bill as before, and the total of a list is that of the list
    without the bill.  The backward search steps forward: from the anchor it
    ends, its thousand iterations used up, two thousand weeks later (or on
    the Invalid Date, past the last value a [Date] can hold). *)
Theorem fortnightly_anchor_after_start_adds_nothing
    (fuel : nat) (pre post : list Bill) (bill : Bill)
    (startDate endDate : Date) (rangeStart rangeEnd : Z) :
  frequency bill = "fortnightly"%string ->
  startOfDay startDate = Some rangeStart ->
  endOfDay endDate = Some rangeEnd ->
  rangeStart < _creationTime bill ->
  rangeEnd < _creationTime bill + twoThousandWeeks ->
  (forall total, processBill fuel rangeStart rangeEnd bill total = Some total)
  /\ calculateUpcomingBillsTotal fuel (pre ++ bill :: post) startDate endDate
     = calculateUpcomingBillsTotal fuel (pre ++ post) startDate endDate
  /\ (forall anchor, TimeClip (_creationTime bill) = Some anchor ->
        backwardWalk maxBackwardIterations "fortnightly" rangeStart
          (Some anchor) = None
        \/ backwardWalk maxBackwardIterations "fortnightly" rangeStart
             (Some anchor) = Some (anchor + twoThousandWeeks)).
Proof.
  intros Hf Hs He Hlo Hhi.
  assert (Hp : forall total,
             processBill fuel rangeStart rangeEnd bill total = Some total)
    by (intros total; now apply processBill_fortnightly_future).
  split; [exact Hp|]. split.
  - unfold calculateUpcomingBillsTotal. rewrite Hs, He.
    rewrite !forEachBill_app.
    destruct (forEachBill fuel rangeStart rangeEnd pre 0) as [t|];
      [|reflexivity].
    cbn [forEachBill]. now rewrite Hp.
  - intros anchor Ha. apply TimeClip_Some in Ha. subst anchor.
    destruct (backwardWalk_fortnightly rangeStart maxBackwardIterations
                (_creationTime bill) Hlo) as [H|H]; [now left | right].
    rewrite H. unfold twoThousandWeeks, maxBackwardIterations.
    change (Z.of_nat 1000) with 1000.
    replace (_creationTime bill + 1000 * (14 * msPerDay))
      with (_creationTime bill + 2000 * (7 * msPerDay)) by lia.
    reflexivity.
Qed.

Lemma fortnightly_anchor_after_start_adds_nothing_witness :
  calculateUpcomingBillsTotal 8 ([] ++ salaryAdvanceRepay :: [])
    (ymd 2024 4 1) (ymd 2024 4 30)
  = calculateUpcomingBillsTotal 8 ([] ++ []) (ymd 2024 4 1) (ymd 2024 4 30).
Proof.
  apply (fortnightly_anchor_after_start_adds_nothing 8 [] [] salaryAdvanceRepay
           (ymd 2024 4 1) (ymd 2024 4 30)
           (utc 2024 4 1 0 0 0 0) (utc 2024 4 30 23 59 59 999));
    vm_compute; reflexivity.
Defined.

(** The bound is on the end of the range as the program takes it, the last
    millisecond of the end date's day: an end date one millisecond before
    the anchor plus two thousand weeks is on the day the walk lands on, and
    the bill is counted once. *)
Example fortnightly_end_of_day_boundary :
  let anchor := utc 2024 4 5 10 0 0 0 in
  let bill := mkBill "F" 250 "fortnightly" None None anchor in
  let endDate := anchor + twoThousandWeeks - 1 in
  calculateUpcomingBillsTotal 8 [bill] (ymd 2024 4 1) (Some endDate)
  = Returns 250%float.
Proof. vm_compute. reflexivity. Qed.

Lemma monthlyWalk_overflow (fuel : nat) (rs re : Z) (amt : float) (t : Z)
    (total : float) :
  isAfter (Some t) (Some re) = false ->
  addMonths (Some t) 1 = None ->
  monthlyWalk fuel rs re amt (Some t) total = None.
Proof.
  intros H1 H2. destruct fuel as [|k]; cbn [monthlyWalk]; rewrite H1.
  - reflexivity.
  - cbn [negb]. rewrite H2. cbn [isSameDay startOfDay setHours getTime numEq].
    apply monthlyWalk_invalid.
Qed.

(** C10 (the program at the failing input).  For a monthly bill due on the
    20th and the range made of the single day 20 August 275760 (a date a
    [Date] can hold), the call is still running whatever the fuel: the month after is past the last time
    value a [Date] can hold, [addMonths] answers the Invalid Date, and the
    loop neither ends nor breaks on it. *)
Theorem monthly_walk_never_ends_at_the_last_month (fuel : nat) :
  TimeClip (utc 275760 8 20 0 0 0 0) = ymd 275760 8 20
  /\ calculateUpcomingBillsTotal fuel [loan] (ymd 275760 8 20)
       (ymd 275760 8 20)
     = Unfinished.
Proof.
  split; [vm_compute; reflexivity|].
  unfold calculateUpcomingBillsTotal.
  replace (startOfDay (ymd 275760 8 20))
    with (Some (utc 275760 8 20 0 0 0 0)) by (vm_compute; reflexivity).
  replace (endOfDay (ymd 275760 8 20))
    with (Some (utc 275760 8 20 23 59 59 999)) by (vm_compute; reflexivity).
  cbn [forEachBill].
  assert (E : processBill fuel (utc 275760 8 20 0 0 0 0)
                (utc 275760 8 20 23 59 59 999) loan 0 = None).
  { unfold processBill.
    replace (is_nan (amount loan)) with false by (vm_compute; reflexivity).
    replace (String.eqb (frequency loan) "one-off") with false
      by (vm_compute; reflexivity).
    replace (String.eqb (frequency loan) "monthly") with true
      by (vm_compute; reflexivity).
    replace (dueDate loan) with (Some 20) by reflexivity.
    cbn [Z.ltb Z.compare Pos.compare Pos.compare_cont orb].
    replace (DateFns.setDate (Some (utc 275760 8 20 0 0 0 0)) 20)
      with (Some (utc 275760 8 20 0 0 0 0)) by (vm_compute; reflexivity).
    replace (isBefore (Some (utc 275760 8 20 0 0 0 0))
                      (Some (utc 275760 8 20 0 0 0 0)))
      with false by (vm_compute; reflexivity).
    apply monthlyWalk_overflow; vm_compute; reflexivity. }
  now rewrite E.
Qed.

End Expander.

(* ================================================================= *)
(** ** Cycle conversion *)

Module CycleConversion.
Import PayCalculations Scenarios.

Lemma invalidInput_Some (a : float) (f : string) :
  invalidInput (Some a) (Some f)
  <-> PrimFloat.leb a 0 = true \/ ~ recognised f.
Proof.
  unfold invalidInput. split.
  - intros [H|[(a0 & H & Hle)|[H|(f0 & H & Hf)]]]; try discriminate.
    + injection H as <-. now left.
    + injection H as <-. now right.
  - intros [H|H].
    + right; left. now exists a.
    + right; right; right. now exists f.
Qed.

Lemma calculateAnnualSalary_None (a : float) (f : string) :
  calculateAnnualSalary (Some a) (Some f) = None
  <-> PrimFloat.leb a 0 = true \/ ~ recognised f.
Proof.
  unfold calculateAnnualSalary, falsyString, recognised.
  destruct (PrimFloat.leb a 0); cbn [orb]; [tauto|].
  destruct (String.eqb_spec f "") as [->|_].
  { split; [intros _; right | reflexivity].
    intros [H|[H|H]]; discriminate. }
  destruct (String.eqb_spec f "monthly") as [->|N1].
  { split; [discriminate | intros [H|H]; [discriminate | tauto]]. }
  destruct (String.eqb_spec f "fortnightly") as [->|N2].
  { split; [discriminate | intros [H|H]; [discriminate | tauto]]. }
  destruct (String.eqb_spec f "weekly") as [->|N3].
  { split; [discriminate | intros [H|H]; [discriminate | tauto]]. }
  split; [intros _; right; tauto | reflexivity].
Qed.

Lemma calculateTargetCycleAmount_None (a : float) (f : string) :
  calculateTargetCycleAmount (Some a) (Some f) = None
  <-> PrimFloat.leb a 0 = true \/ ~ recognised f.
Proof.
  unfold calculateTargetCycleAmount, falsyString, recognised.
  destruct (PrimFloat.leb a 0); cbn [orb]; [tauto|].
  destruct (String.eqb_spec f "") as [->|_].
  { split; [intros _; right | reflexivity].
    intros [H|[H|H]]; discriminate. }
  destruct (String.eqb_spec f "monthly") as [->|N1].
  { split; [discriminate | intros [H|H]; [discriminate | tauto]]. }
  destruct (String.eqb_spec f "fortnightly") as [->|N2].
  { split; [discriminate | intros [H|H]; [discriminate | tauto]]. }
  destruct (String.eqb_spec f "weekly") as [->|N3].
  { split; [discriminate | intros [H|H]; [discriminate | tauto]]. }
  split; [intros _; right; tauto | reflexivity].
Qed.

Lemma invalidInput_missing (amount : option float) (frequency : option string) :
  amount = None \/ frequency = None -> invalidInput amount frequency.
Proof. unfold invalidInput. tauto. Qed.

(** C7.  [calculateAnnualSalary] answers null exactly when the amount is
    missing or [<= 0], or the frequency is missing or none of monthly,
    fortnightly, weekly; [calculateTargetCycleAmount] answers null under the
    same conditions on its own arguments, and otherwise the annual amount
    divided by 12, 26 or 52.  Both are total functions: no input makes
    them throw. *)
Theorem cycle_conversion_null_exactly_on_invalid_input
    (amount : option float) (frequency : option string) :
  (calculateAnnualSalary amount frequency = None
   <-> invalidInput amount frequency)
  /\ (calculateTargetCycleAmount amount frequency = None
      <-> invalidInput amount frequency)
  /\ (forall a, amount = Some a -> PrimFloat.leb a 0 = false ->
        (frequency = Some "monthly"%string ->
         calculateTargetCycleAmount amount frequency = Some (a / 12)%float)
        /\ (frequency = Some "fortnightly"%string ->
            calculateTargetCycleAmount amount frequency = Some (a / 26)%float)
        /\ (frequency = Some "weekly"%string ->
            calculateTargetCycleAmount amount frequency = Some (a / 52)%float)).
Proof.
  split; [|split].
  - destruct amount as [a|], frequency as [f|];
      try (split; [intros _; apply invalidInput_missing; tauto | reflexivity]).
    rewrite invalidInput_Some. apply calculateAnnualSalary_None.
  - destruct amount as [a|], frequency as [f|];
      try (split; [intros _; apply invalidInput_missing; tauto | reflexivity]).
    rewrite invalidInput_Some. apply calculateTargetCycleAmount_None.
  - intros a -> Ha.
    split; [|split]; intros ->; cbn [calculateTargetCycleAmount falsyString];
      rewrite Ha; reflexivity.
Qed.

(** The two values the unit tests fix. *)
Example annual_of_5000_monthly :
  calculateAnnualSalary (Some 5000%float) (Some "monthly"%string)
  = Some 60000%float.
Proof. reflexivity. Qed.

Example monthly_of_60000 :
  calculateTargetCycleAmount (Some 60000%float) (Some "monthly"%string)
  = Some 5000%float.
Proof. reflexivity. Qed.


Lemma roundTripExactFrom_sound (depth : nat) :
  forall lo n,
    roundTripExactFrom depth lo = true ->
    lo <= n < lo + 2 ^ Z.of_nat depth ->
    roundTripExactAt n = true.
Proof.
  induction depth as [|d IH]; intros lo n H Hn.
  - cbn in Hn. assert (n = lo) by lia. subst n. exact H.
  - cbn [roundTripExactFrom] in H. apply andb_prop in H as [H1 H2].
    rewrite Nat2Z.inj_succ, Z.pow_succ_r in Hn by lia.
    destruct (Z_lt_le_dec n (lo + 2 ^ Z.of_nat d)) as [Hlt|Hge].
    + apply (IH lo); [exact H1 | lia].
    + apply (IH (lo + 2 ^ Z.of_nat d)); [exact H2 | lia].
Qed.

Lemma roundTripIs_sound (a : float) (f : string) :
  roundTripIs a f = true -> roundTrip a f = Some a.
Proof.
  unfold roundTripIs. destruct (roundTrip a f) as [r|]; [|discriminate].
  intros H. apply FloatAxioms.Leibniz.eqb_spec in H. now subst r.
Qed.



End CycleConversion.

(* ================================================================= *)
(** ** The next payday and the projected schedule *)

Module Schedule.
Import JSDate DateFns Bills PayCalculations Scenarios DateFacts.

(** *** Weekdays *)

Lemma WeekDay_range (t : Z) : 0 <= WeekDay t <= 6.
Proof. unfold WeekDay. pose proof (Z.mod_pos_bound (Day t + 4) 7). lia. Qed.

Lemma WeekDay_shift (t k : Z) :
  WeekDay (t + k * msPerDay) = (WeekDay t + k) mod 7.
Proof.
  unfold WeekDay, Day.
  rewrite Z.div_add by (unfold msPerDay; lia).
  rewrite Zplus_mod_idemp_l. f_equal. lia.
Qed.

Lemma ownProperty_dayOfWeekMap_range (k : string) (w : Z) :
  ownProperty dayOfWeekMap k = Some w -> 0 <= w <= 6.
Proof.
  unfold dayOfWeekMap. cbn [ownProperty].
  repeat match goal with
         | |- context [String.eqb k ?s] => destruct (String.eqb k s)
         end;
    intros H; try discriminate; injection H as <-; lia.
Qed.

Lemma dayOfWeekMap_get_range (k : string) (w : Z) :
  dayOfWeekMap_get k = PNumber w -> 0 <= w <= 6.
Proof.
  unfold dayOfWeekMap_get.
  destruct (ownProperty dayOfWeekMap k) as [n|] eqn:E.
  - intros H. injection H as <-. now apply ownProperty_dayOfWeekMap_range in E.
  - destruct (existsb _ _); discriminate.
Qed.

(** The number of days the program adds to today: between 1 and 7, the
    least that lands on the target weekday. *)
Lemma days_to_add (wd w : Z) :
  0 <= wd <= 6 -> 0 <= w <= 6 ->
  exists k, zeroToSeven (daysUntil (Some w) (Some wd)) = Some k
    /\ 1 <= k <= 7
    /\ (wd + k) mod 7 = w
    /\ (forall j, 1 <= j < k -> (wd + j) mod 7 <> w)
    /\ (wd = w -> k = 7).
Proof.
  intros Hwd Hw. cbn [daysUntil zeroToSeven].
  rewrite Z.rem_mod_nonneg by lia.
  destruct (Z.eqb_spec ((w - wd + 7) mod 7) 0) as [E|N].
  - exists 7. split; [reflexivity|].
    assert (wd = w) by (Z.div_mod_to_equations; lia). subst wd.
    repeat split; try lia.
    + Z.div_mod_to_equations; lia.
    + intros j Hj. Z.div_mod_to_equations; lia.
  - exists ((w - wd + 7) mod 7). split; [reflexivity|].
    repeat split.
    + Z.div_mod_to_equations; lia.
    + Z.div_mod_to_equations; lia.
    + Z.div_mod_to_equations; lia.
    + intros j Hj. Z.div_mod_to_equations; lia.
    + intros ->. exfalso. apply N. Z.div_mod_to_equations; lia.
Qed.

(** *** The loop of the schedule *)

Lemma calculateBillsBetweenDates_Returns (fuel : nat) (bills : list Bill)
    (s e : Date) (r : float) :
  calculateBillsBetweenDates fuel bills s e = Returns r ->
  exists ts te, s = Some ts /\ e = Some te.
Proof.
  unfold calculateBillsBetweenDates.
  destruct s as [ts|], e as [te|]; try discriminate. eauto.
Qed.

Lemma scheduleLoop_first (fuel : nat) (bills : list Bill) (iv : Z)
    (amt : float) (left : nat) (cur : Date)
    (item : ProjectedScheduleItem) (rest : list ProjectedScheduleItem) :
  scheduleLoop fuel bills iv amt left cur = Returns (item :: rest) ->
  allowanceDate item = cur /\ exists t, cur = Some t.
Proof.
  destruct left as [|k]; cbn [scheduleLoop]; [discriminate|].
  destruct (calculateBillsBetweenDates fuel bills cur (addDays cur iv))
    as [r| |] eqn:E; try discriminate.
  destruct (scheduleLoop fuel bills iv amt k (addDays cur iv));
    try discriminate.
  intros H. injection H as <- _. split; [reflexivity|].
  apply calculateBillsBetweenDates_Returns in E as (ts & _ & -> & _). eauto.
Qed.

Lemma scheduleLoop_items (fuel : nat) (bills : list Bill) (iv : Z)
    (amt : float) (left : nat) :
  forall cur schedule,
    scheduleLoop fuel bills iv amt left cur = Returns schedule ->
    forall item, In item schedule ->
      leftoverForPeriod item
      = (allowanceAmount item - billsDueInPeriod item)%float
      /\ allowanceAmount item = amt
      /\ calculateBillsBetweenDates fuel bills (allowanceDate item)
           (addDays (allowanceDate item) iv)
         = Returns (billsDueInPeriod item).
Proof.
  induction left as [|k IH]; intros cur schedule H item Hin;
    cbn [scheduleLoop] in H.
  - injection H as <-. destruct Hin.
  - destruct (calculateBillsBetweenDates fuel bills cur (addDays cur iv))
      as [r| |] eqn:E; try discriminate.
    destruct (scheduleLoop fuel bills iv amt k (addDays cur iv))
      as [tl| |] eqn:E'; try discriminate.
    injection H as <-. destruct Hin as [<-|Hin].
    + cbn. auto.
    + exact (IH _ _ E' _ Hin).
Qed.

Lemma scheduleLoop_length (fuel : nat) (bills : list Bill) (iv : Z)
    (amt : float) (left : nat) :
  forall cur schedule,
    scheduleLoop fuel bills iv amt left cur = Returns schedule ->
    List.length schedule = left.
Proof.
  induction left as [|k IH]; intros cur schedule H; cbn [scheduleLoop] in H.
  - now injection H as <-.
  - destruct (calculateBillsBetweenDates fuel bills cur (addDays cur iv));
      try discriminate.
    destruct (scheduleLoop fuel bills iv amt k (addDays cur iv))
      as [tl| |] eqn:E'; try discriminate.
    injection H as <-. cbn. f_equal. exact (IH _ _ E').
Qed.

(** What [generateProjectedSchedule] does once its checks have passed. *)
Lemma generateProjectedSchedule_nonempty (fuel : nat) (now : Z)
    (settings : Settings) (bills : list Bill) (count : Z)
    (item : ProjectedScheduleItem) (rest : list ProjectedScheduleItem) :
  generateProjectedSchedule fuel now settings bills count
  = Returns (item :: rest) ->
  exists freq dow amt iv,
    desiredPayFrequency settings = Some freq
    /\ desiredPayDayOfWeek settings = Some dow
    /\ desiredPayAmount settings = Some amt
    /\ dayOfWeekMap_get (toLowerCase dow) <> PUndefined
    /\ scheduleLoop fuel bills iv amt (Z.to_nat count)
         (JSDate.setDate (todayOf now)
            (numAdd (getDate (todayOf now))
               (zeroToSeven
                  (daysUntil
                     (propertyToNumber (dayOfWeekMap_get (toLowerCase dow)))
                     (getDay (todayOf now))))))
       = Returns (item :: rest).
Proof.
  unfold generateProjectedSchedule.
  destruct settings as [[freq|] [dow|] [amt|]]; cbn [desiredPayFrequency
    desiredPayDayOfWeek desiredPayAmount]; try discriminate.
  destruct (String.eqb freq "" || String.eqb dow ""); [discriminate|].
  destruct (dayOfWeekMap_get (toLowerCase dow)) as [w| |] eqn:Ed;
    try discriminate.
  - destruct (String.eqb (toLowerCase freq) "weekly").
    + intros H. exists freq, dow, amt, 7. rewrite Ed.
      repeat (split; [first [reflexivity | discriminate]|]). exact H.
    + destruct (String.eqb (toLowerCase freq) "fortnightly");
        [|discriminate].
      intros H. exists freq, dow, amt, 14. rewrite Ed.
      repeat (split; [first [reflexivity | discriminate]|]). exact H.
  - destruct (String.eqb (toLowerCase freq) "weekly").
    + intros H. exists freq, dow, amt, 7. rewrite Ed.
      repeat (split; [first [reflexivity | discriminate]|]). exact H.
    + destruct (String.eqb (toLowerCase freq) "fortnightly");
        [|discriminate].
      intros H. exists freq, dow, amt, 14. rewrite Ed.
      repeat (split; [first [reflexivity | discriminate]|]). exact H.
Qed.

(** *** The first allowance *)

(** C3 fails as stated.  On Monday 15 April 2024, with Monday as the
    desired day, the schedule starts on 22 April, not today. *)
Lemma schedule_does_not_start_today :
  let now := utc 2024 4 15 10 0 0 0 in
  todayOf now = ymd 2024 4 15
  /\ getDay (todayOf now) = Some 1
  /\ dayOfWeekMap_get (toLowerCase "Monday") = PNumber 1
  /\ generateProjectedSchedule 0 now mondays [] 1
     = Returns [mkItem (ymd 2024 4 22) 2307.69 0 2307.69]
  /\ ymd 2024 4 22 <> ymd 2024 4 15.
Proof.
  cbv zeta.
  split; [|split; [|split; [|split]]]; try (vm_compute; reflexivity).
  vm_compute. intros H. discriminate H.
Qed.

(** C3, amended.  The first item of a schedule is dated between one and
    seven days after today, on the desired weekday, and no day in between
    (today excluded) falls on that weekday: it is the first occurrence of
    the desired weekday strictly after today, a week from today when today
    is such a day. *)
Theorem first_allowance_is_strictly_after_today
    (fuel : nat) (now : Z) (settings : Settings) (bills : list Bill)
    (count : Z) (item : ProjectedScheduleItem)
    (rest : list ProjectedScheduleItem) :
  generateProjectedSchedule fuel now settings bills count
  = Returns (item :: rest) ->
  exists dow w today k,
    desiredPayDayOfWeek settings = Some dow
    /\ dayOfWeekMap_get (toLowerCase dow) = PNumber w
    /\ todayOf now = Some today
    /\ 1 <= k <= 7
    /\ allowanceDate item = Some (today + k * msPerDay)
    /\ getDay (allowanceDate item) = Some w
    /\ (forall j, 1 <= j < k -> WeekDay (today + j * msPerDay) <> w)
    /\ (getDay (todayOf now) = Some w -> k = 7).
Proof.
  intros H.
  apply generateProjectedSchedule_nonempty in H
    as (freq & dow & amt & iv & _ & Hdow & _ & Hdef & H).
  apply scheduleLoop_first in H as (Hdate & t & Ht).
  rewrite Ht in Hdate.
  destruct (dayOfWeekMap_get (toLowerCase dow)) as [w| |] eqn:Ed;
    [| |contradiction].
  2:{ cbn [propertyToNumber daysUntil zeroToSeven] in Ht.
      destruct (todayOf now); cbn in Ht; discriminate. }
  destruct (todayOf now) as [today|] eqn:Etoday; [|discriminate].
  cbn [propertyToNumber getDay option_map] in Ht.
  destruct (days_to_add (WeekDay today) w (WeekDay_range today)
              (dayOfWeekMap_get_range _ _ Ed))
    as (k & Hk & Hrange & Hday & Hmin & Hsame).
  rewrite Hk, setDate_plus in Ht.
  apply TimeClip_Some in Ht. subst t.
  exists dow, w, today, k.
  rewrite Hdate.
  repeat (split; [first [assumption | reflexivity]|]).
  cbn [getDay option_map]. rewrite WeekDay_shift, Hday.
  split; [reflexivity|]. split.
  - intros j Hj. rewrite WeekDay_shift. now apply Hmin.
  - intros Hw. injection Hw as Hw. now apply Hsame.
Qed.

Lemma first_allowance_is_strictly_after_today_witness :
  exists dow w today k,
    desiredPayDayOfWeek mondays = Some dow
    /\ dayOfWeekMap_get (toLowerCase dow) = PNumber w
    /\ todayOf (utc 2024 4 15 10 0 0 0) = Some today
    /\ 1 <= k <= 7
    /\ allowanceDate (mkItem (ymd 2024 4 22) 2307.69 0 2307.69)
       = Some (today + k * msPerDay)
    /\ getDay (allowanceDate (mkItem (ymd 2024 4 22) 2307.69 0 2307.69))
       = Some w
    /\ (forall j, 1 <= j < k -> WeekDay (today + j * msPerDay) <> w)
    /\ (getDay (todayOf (utc 2024 4 15 10 0 0 0)) = Some w -> k = 7).
Proof.
  apply (first_allowance_is_strictly_after_today 0 (utc 2024 4 15 10 0 0 0)
           mondays [] 1 _ []).
  vm_compute. reflexivity.
Defined.

(** *** Leftover *)

(** C9.  In every item of a schedule the program returns, the leftover is
    the allowance minus the bills of the period, as the subtraction gives it
    (nothing is clamped), and the allowance is [desiredPayAmount]. *)
Theorem leftover_is_allowance_minus_bills
    (fuel : nat) (now : Z) (settings : Settings) (bills : list Bill)
    (count : Z) (schedule : list ProjectedScheduleItem)
    (item : ProjectedScheduleItem) :
  generateProjectedSchedule fuel now settings bills count = Returns schedule ->
  In item schedule ->
  leftoverForPeriod item = (allowanceAmount item - billsDueInPeriod item)%float
  /\ desiredPayAmount settings = Some (allowanceAmount item).
Proof.
  intros H Hin.
  destruct schedule as [|first rest]; [destruct Hin|].
  apply generateProjectedSchedule_nonempty in H
    as (freq & dow & amt & iv & _ & _ & Hamt & _ & H).
  destruct (scheduleLoop_items _ _ _ _ _ _ _ H item Hin) as (Hl & Ha & _).
  split; [exact Hl | now rewrite Hamt, Ha].
Qed.

(** A leftover below zero: 100 a week against a weekly bill of 250. *)
Lemma leftover_is_allowance_minus_bills_witness :
  let item := mkItem (ymd 2024 4 16) 100 250 (-150) in
  leftoverForPeriod item = (allowanceAmount item - billsDueInPeriod item)%float
  /\ Some 100%float = Some (allowanceAmount item).
Proof.
  cbv zeta.
  apply (leftover_is_allowance_minus_bills 8 (utc 2024 4 15 10 0 0 0)
           (mkSettings (Some "Weekly"%string) (Some "TUESDAY"%string)
                       (Some 100%float))
           [mkBill "Rent share" 250 "weekly" None None
                   (utc 2024 4 15 10 0 0 0)]
           2
           [mkItem (ymd 2024 4 16) 100 250 (-150);
            mkItem (ymd 2024 4 23) 100 250 (-150)]).
  - vm_compute. reflexivity.
  - left. reflexivity.
Defined.

(** *** Incomplete settings *)

Lemma schedule_empty_when_a_setting_is_absent (fuel : nat) (now : Z)
    (settings : Settings) (bills : list Bill) (count : Z) :
  desiredPayFrequency settings = None
  \/ desiredPayDayOfWeek settings = None
  \/ desiredPayAmount settings = None ->
  generateProjectedSchedule fuel now settings bills count = Returns [].
Proof.
  unfold generateProjectedSchedule.
  destruct settings as [[freq|] [dow|] [amt|]]; cbn; try reflexivity.
  intros [H|[H|H]]; discriminate.
Qed.

Lemma schedule_empty_when_day_is_undefined (fuel : nat) (now : Z)
    (settings : Settings) (bills : list Bill) (count : Z) (dow : string) :
  desiredPayDayOfWeek settings = Some dow ->
  dayOfWeekMap_get (toLowerCase dow) = PUndefined ->
  generateProjectedSchedule fuel now settings bills count = Returns [].
Proof.
  unfold generateProjectedSchedule.
  destruct settings as [[freq|] [d|] [amt|]]; cbn [desiredPayFrequency
    desiredPayDayOfWeek desiredPayAmount]; try reflexivity.
  intros H. injection H as ->. intros ->.
  now destruct (String.eqb freq "" || String.eqb dow "").
Qed.

Lemma schedule_empty_when_frequency_is_unknown (fuel : nat) (now : Z)
    (settings : Settings) (bills : list Bill) (count : Z) (freq : string) :
  desiredPayFrequency settings = Some freq ->
  toLowerCase freq <> "weekly"%string ->
  toLowerCase freq <> "fortnightly"%string ->
  generateProjectedSchedule fuel now settings bills count = Returns [].
Proof.
  unfold generateProjectedSchedule.
  destruct settings as [[f|] [dow|] [amt|]]; cbn [desiredPayFrequency
    desiredPayDayOfWeek desiredPayAmount]; try reflexivity.
  intros H. injection H as ->. intros N1 N2.
  destruct (String.eqb freq "" || String.eqb dow ""); [reflexivity|].
  destruct (String.eqb_spec (toLowerCase freq) "weekly"); [contradiction|].
  destruct (String.eqb_spec (toLowerCase freq) "fortnightly");
    [contradiction|].
  now destruct (dayOfWeekMap_get (toLowerCase dow)).
Qed.

(** C8 (the program at the failing input).  The day name "constructor" is
    none of the seven, yet [dayOfWeekMap] answers for it with the member every
    object inherits; the check against [undefined] passes, the first
    allowance date is the Invalid Date, and the first period's call of
    [calculateBillsBetweenDates] throws on [toISOString]. *)
Theorem schedule_throws_on_inherited_day_name (fuel : nat) (now : Z)
    (bills : list Bill) (count : positive) :
  ownProperty dayOfWeekMap (toLowerCase "constructor") = None
  /\ generateProjectedSchedule fuel now inheritedDay bills (Z.pos count)
     = Throws.
Proof.
  split; [reflexivity|].
  unfold generateProjectedSchedule, inheritedDay.
  cbn [desiredPayFrequency desiredPayDayOfWeek desiredPayAmount].
  change (dayOfWeekMap_get (toLowerCase "constructor")) with PInherited.
  change (String.eqb "fortnightly" "" || String.eqb "constructor" "")
    with false.
  change (String.eqb (toLowerCase "fortnightly") "weekly") with false.
  change (String.eqb (toLowerCase "fortnightly") "fortnightly") with true.
  cbn [propertyToNumber daysUntil zeroToSeven].
  replace (JSDate.setDate (todayOf now) (numAdd (getDate (todayOf now)) None))
    with (@None Z) by (destruct (todayOf now); reflexivity).
  rewrite Z2Nat.inj_pos.
  destruct (Pos2Nat.is_succ count) as (k & ->).
  reflexivity.
Qed.

(** *** The next actual payday *)

(** C4 (the program at the failing input).  On 15 April 2024 a pay day of
    31 gives 1 May, not 30 April; on 31 January 2024 a pay day of 30 gives
    30 March, not the end of February. *)
Theorem next_payday_is_not_clamped :
  calculateNextPayday (utc 2024 4 15 10 0 0 0) (Some "monthly"%string)
    (Some 31) None = Some (ymd 2024 5 1)
  /\ calculateNextPayday (utc 2024 1 31 9 0 0 0) (Some "monthly"%string)
       (Some 30) None = Some (ymd 2024 3 30).
Proof. split; vm_compute; reflexivity. Qed.

(** Where the day exists in the month, the program does what C4 says: the
    day of this month when it is today or still to come, else next
    month's. *)
Example next_payday_today :
  calculateNextPayday (utc 2024 4 15 10 0 0 0) (Some "monthly"%string)
    (Some 15) None = Some (ymd 2024 4 15).
Proof. vm_compute. reflexivity. Qed.

Example next_payday_later_this_month :
  calculateNextPayday (utc 2024 4 15 10 0 0 0) (Some "monthly"%string)
    (Some 20) None = Some (ymd 2024 4 20).
Proof. vm_compute. reflexivity. Qed.

Example next_payday_next_month :
  calculateNextPayday (utc 2024 4 15 10 0 0 0) (Some "monthly"%string)
    (Some 14) None = Some (ymd 2024 5 14).
Proof. vm_compute. reflexivity. Qed.

End Schedule.

(* ================================================================= *)
(** ** The schedule is produced *)

Module Production.
Import JSDate DateFns Bills PayCalculations Scenarios DateFacts BillsFacts
       Calendar Termination Schedule.

Lemma startOfDay_Some (t : Z) :
  - maxTime <= t <= maxTime ->
  exists rs, startOfDay (Some t) = Some rs /\ t - msPerDay < rs <= t.
Proof.
  intros Ht. unfold startOfDay, setHours.
  change (((0 * 60 + 0) * 60 + 0) * 1000 + 0) with 0.
  pose proof (MakeDate_Day t) as Hd.
  pose proof (TimeWithinDay_range t) as Htw.
  assert (Hv : MakeDate (Day t) 0 = t - TimeWithinDay t)
    by (unfold MakeDate in *; lia).
  rewrite Hv.
  assert (Hlo : - maxTime <= t - TimeWithinDay t).
  { unfold TimeWithinDay. unfold maxTime, msPerDay in *.
    Z.div_mod_to_equations. lia. }
  rewrite TimeClip_valid by lia.
  eexists. split; [reflexivity | lia].
Qed.

Lemma endOfDay_Some (t : Z) :
  - maxTime <= t -> t + msPerDay <= maxTime ->
  exists re, endOfDay (Some t) = Some re /\ t <= re < t + msPerDay.
Proof.
  intros Hlo Hhi. unfold endOfDay, setHours.
  change (((23 * 60 + 59) * 60 + 59) * 1000 + 999) with (msPerDay - 1).
  pose proof (MakeDate_Day t) as Hd.
  pose proof (TimeWithinDay_range t) as Htw.
  assert (Hv : MakeDate (Day t) (msPerDay - 1)
               = t - TimeWithinDay t + (msPerDay - 1))
    by (unfold MakeDate in *; lia).
  rewrite Hv. rewrite TimeClip_valid by lia.
  eexists. split; [reflexivity | lia].
Qed.

(** The schedule loop returns once the fuel is enough, as long as every
    period stays away from the two ends of time. *)
Lemma scheduleLoop_returns (bills : list Bill) (iv : Z) (amt : float) :
  0 < iv <= 14 ->
  forall left t,
    - maxTime + 32 * msPerDay <= t ->
    t + (Z.of_nat left * 14 + 62) * msPerDay <= maxTime ->
    exists n, forall fuel, (n <= fuel)%nat ->
      exists schedule,
        scheduleLoop fuel bills iv amt left (Some t) = Returns schedule.
Proof.
  intros Hiv. pose proof msPerDay_pos as Hd.
  induction left as [|k IH]; intros t Hlo Hhi.
  - exists O. intros fuel _. now exists [].
  - rewrite Nat2Z.inj_succ in Hhi.
    assert (Hnext : addDays (Some t) iv = Some (t + iv * msPerDay)).
    { rewrite addDays_Some by lia. apply TimeClip_valid. nia. }
    destruct (startOfDay_Some t) as (rs & Hrs & Hrs'); [nia|].
    destruct (endOfDay_Some (t + iv * msPerDay)) as (re & Hre & Hre');
      [nia | nia|].
    destruct (calculateUpcomingBillsTotal_terminates bills (Some t)
                (Some (t + iv * msPerDay)) rs re Hrs Hre)
      as (n1 & Hn1); [split; nia | split; nia|].
    destruct (IH (t + iv * msPerDay)) as (n2 & Hn2); [nia | nia|].
    exists (Nat.max n1 n2). intros fuel Hfuel.
    cbn [scheduleLoop]. rewrite Hnext.
    cbn [calculateBillsBetweenDates].
    specialize (Hn1 fuel ltac:(lia)).
    destruct (calculateUpcomingBillsTotal fuel bills (Some t)
                (Some (t + iv * msPerDay))) as [r| |] eqn:E.
    + destruct (Hn2 fuel ltac:(lia)) as (schedule & ->). eauto.
    + unfold calculateUpcomingBillsTotal in E. rewrite Hrs, Hre in E.
      destruct (forEachBill _ _ _ _ _); discriminate.
    + contradiction.
Qed.

(** With complete settings, one of the seven day names and a weekly or
    fortnightly frequency, the schedule is produced and has [count] items. *)
Lemma generateProjectedSchedule_returns (now : Z) (settings : Settings)
    (bills : list Bill) (count : Z) (freq dow : string) (amt : float)
    (w : Z) :
  desiredPayFrequency settings = Some freq ->
  desiredPayDayOfWeek settings = Some dow ->
  desiredPayAmount settings = Some amt ->
  dayOfWeekMap_get (toLowerCase dow) = PNumber w ->
  toLowerCase freq = "weekly"%string \/ toLowerCase freq = "fortnightly"%string ->
  - maxTime + 33 * msPerDay <= now ->
  now + (Z.max 0 count * 14 + 69) * msPerDay <= maxTime ->
  exists n, forall fuel, (n <= fuel)%nat ->
    exists schedule,
      generateProjectedSchedule fuel now settings bills count = Returns schedule
      /\ List.length schedule = Z.to_nat count.
Proof.
  intros Hf Hdow Hamt Hw Hfreq Hlo Hhi. pose proof msPerDay_pos as Hd.
  unfold generateProjectedSchedule. rewrite Hf, Hdow, Hamt, Hw.
  assert (Hne : String.eqb freq "" || String.eqb dow "" = false).
  { destruct (String.eqb_spec freq "") as [->|_].
    - destruct Hfreq; discriminate.
    - destruct (String.eqb_spec dow "") as [->|_]; [discriminate|reflexivity]. }
  rewrite Hne.
  destruct (startOfDay_Some now) as (today & Htoday & Hrange); [nia|].
  unfold todayOf. rewrite (TimeClip_valid now) by lia.
  change (setHours (Some now) 0 0 0 0) with (startOfDay (Some now)).
  rewrite Htoday. cbn [propertyToNumber getDay option_map].
  destruct (days_to_add (WeekDay today) w (WeekDay_range today)
              (dayOfWeekMap_get_range _ _ Hw))
    as (k & Hk & Hkr & _).
  rewrite Hk, setDate_plus.
  rewrite TimeClip_valid by nia.
  assert (Hcount : Z.of_nat (Z.to_nat count) = Z.max 0 count) by lia.
  assert (Hgo : forall iv, 0 < iv <= 14 ->
            exists n, forall fuel, (n <= fuel)%nat ->
              exists schedule,
                scheduleLoop fuel bills iv amt (Z.to_nat count)
                  (Some (today + k * msPerDay)) = Returns schedule
                /\ List.length schedule = Z.to_nat count).
  { intros iv Hiv.
    destruct (scheduleLoop_returns bills iv amt Hiv (Z.to_nat count)
                (today + k * msPerDay)) as (n & Hn); [nia | nia|].
    exists n. intros fuel Hfuel. destruct (Hn fuel Hfuel) as (s & Hs).
    exists s. split; [exact Hs|]. now apply scheduleLoop_length in Hs. }
  destruct Hfreq as [->| ->].
  - change (String.eqb "weekly" "weekly") with true. cbv iota.
    apply Hgo. lia.
  - change (String.eqb "fortnightly" "weekly") with false.
    change (String.eqb "fortnightly" "fortnightly") with true. cbv iota.
    apply Hgo. lia.
Qed.

End Production.

(* ================================================================= *)
(** ** The next actual payday, for a day every month has *)

Module NextPayday.
Import JSDate DateFns Bills PayCalculations Scenarios DateFacts Calendar
       Termination Schedule Production.

Lemma DayFromYear_mono (y1 y2 : Z) :
  y1 <= y2 -> DayFromYear y1 <= DayFromYear y2.
Proof. intros H. unfold DayFromYear. Z.div_mod_to_equations. lia. Qed.

Lemma YearFromDay_unique (y d : Z) :
  DayFromYear y <= d < DayFromYear (y + 1) -> YearFromDay d = y.
Proof.
  intros H. pose proof (YearFromDay_spec d) as H'.
  destruct (Z.lt_trichotomy (YearFromDay d) y) as [Hlt|[Heq|Hgt]];
    [exfalso | exact Heq | exfalso].
  - pose proof (DayFromYear_mono (YearFromDay d + 1) y ltac:(lia)). lia.
  - pose proof (DayFromYear_mono (y + 1) (YearFromDay d) ltac:(lia)). lia.
Qed.

(** The day [d] (at most the 28th) of month [m] of year [y] is read back as
    such. *)
Lemma decompose_MakeDay (t y m d : Z) :
  0 <= m <= 11 -> 1 <= d <= 28 ->
  Day t = MakeDay y m d ->
  YearFromTime t = y /\ MonthFromTime t = m /\ DateFromTime t = d.
Proof.
  intros Hm Hd HD.
  pose proof (leapDay_range y) as Hl.
  assert (Hms : MakeDay y m d = DayFromYear y + monthStart m (leapDay y) + d - 1).
  { unfold MakeDay. rewrite Z.div_small, Z.mod_small by lia.
    now rewrite Z.add_0_r. }
  assert (Hrange : 0 <= monthStart m (leapDay y) <= 334 + leapDay y).
  { unfold monthStart.
    repeat match goal with
           | |- context [if ?b then _ else _] => destruct b
           end; lia. }
  assert (HY : YearFromTime t = y).
  { unfold YearFromTime. apply YearFromDay_unique.
    rewrite DayFromYear_succ. lia. }
  assert (Hdwy : DayWithinYear t = monthStart m (leapDay y) + d - 1).
  { unfold DayWithinYear. rewrite HY. lia. }
  assert (HM : MonthFromTime t = m).
  { unfold MonthFromTime, InLeapYear. rewrite HY, Hdwy.
    assert (Hc : m = 0 \/ m = 1 \/ m = 2 \/ m = 3 \/ m = 4 \/ m = 5 \/ m = 6
                 \/ m = 7 \/ m = 8 \/ m = 9 \/ m = 10 \/ m = 11) by lia.
    repeat (destruct Hc as [->|Hc]); [..|subst m];
      cbn [monthStart Z.leb Z.eqb Z.compare Pos.eqb];
      repeat match goal with
             | |- context [?a <? ?b] => destruct (Z.ltb_spec a b); try lia
             end. }
  repeat split; [exact HY | exact HM|].
  unfold DateFromTime, InLeapYear. rewrite HM, HY, Hdwy. lia.
Qed.


Lemma MakeDay_norm (y m d : Z) :
  MakeDay y m d = MakeDay (y + m / 12) (m mod 12) d.
Proof.
  unfold MakeDay.
  rewrite (Z.div_small (m mod 12)), Z.mod_mod, Z.add_0_r
    by (try apply Z.mod_pos_bound; lia).
  reflexivity.
Qed.

(** The length of a month. *)
Lemma one_month (y m : Z) :
  0 <= m <= 11 -> 28 <= MakeDay y (m + 1) 1 - MakeDay y m 1 <= 31.
Proof.
  intros Hm. pose proof (leapDay_range y) as Hl.
  pose proof (DayFromYear_succ y) as Hy.
  assert (Hc : m = 0 \/ m = 1 \/ m = 2 \/ m = 3 \/ m = 4 \/ m = 5 \/ m = 6
               \/ m = 7 \/ m = 8 \/ m = 9 \/ m = 10 \/ m = 11) by lia.
  unfold MakeDay.
  repeat (destruct Hc as [->|Hc]); [..|subst m];
    repeat match goal with
           | |- context [?a / 12] =>
               let v := eval vm_compute in (a / 12) in change (a / 12) with v
           | |- context [?a mod 12] =>
               let v := eval vm_compute in (a mod 12) in
               change (a mod 12) with v
           end;
    rewrite ?Z.add_0_r; cbn [monthStart Z.leb Z.eqb Z.compare Pos.eqb]; lia.
Qed.

(** A day comes before the first of the month after its own. *)
Lemma Day_before_next_month (t : Z) :
  Day t < MakeDay (YearFromTime t) (MonthFromTime t + 1) 1.
Proof.
  pose proof (DayWithinYear_range t) as Hd.
  pose proof (leapDay_range (YearFromTime t)) as Hl.
  pose proof (DayFromYear_succ (YearFromTime t)) as Hy.
  unfold DayWithinYear, InLeapYear in Hd.
  assert (HD : Day t = DayFromYear (YearFromTime t) + DayWithinYear t)
    by (unfold DayWithinYear; lia).
  rewrite HD at 1. unfold MakeDay, MonthFromTime, InLeapYear.
  set (dw := DayWithinYear t) in *. set (l := leapDay (YearFromTime t)) in *.
  repeat match goal with
         | |- context [dw <? ?k] => destruct (Z.ltb_spec dw k)
         end;
    repeat match goal with
           | |- context [?a / 12] =>
               let v := eval vm_compute in (a / 12) in change (a / 12) with v
           | |- context [?a mod 12] =>
               let v := eval vm_compute in (a mod 12) in
               change (a mod 12) with v
           end;
    rewrite ?Z.add_0_r; fold l;
    cbn [monthStart Z.leb Z.eqb Z.compare Pos.eqb]; lia.
Qed.

Lemma JSsetDate_Some (t d : Z) :
  JSDate.setDate (Some t) (Some d)
  = TimeClip (t + (d - DateFromTime t) * msPerDay).
Proof.
  unfold JSDate.setDate.
  replace d with (DateFromTime t + (d - DateFromTime t)) at 1 by lia.
  now rewrite MakeDay_shift, MakeDate_shift.
Qed.

Lemma MakeDate_step (d d' tw k : Z) :
  d' = d + k -> MakeDate d' tw = MakeDate d tw + k * msPerDay.
Proof. intros ->. unfold MakeDate. lia. Qed.

(** X13.  For a pay day that every month has, [calculateNextPayday] answers
    that day of this month when it is today or still to come, and of next
    month otherwise. *)
Lemma next_payday_when_every_month_has_the_day (now today d : Z) :
  todayOf now = Some today ->
  awayFromTheEnds today ->
  1 <= d <= 28 ->
  exists r,
    calculateNextPayday now (Some "monthly"%string) (Some d) None
    = Some (Some r)
    /\ DateFromTime r = d
    /\ today <= r
    /\ (DateFromTime today <= d ->
        YearFromTime r = YearFromTime today
        /\ MonthFromTime r = MonthFromTime today)
    /\ (d < DateFromTime today ->
        YearFromTime r = YearFromTime today + (MonthFromTime today + 1) / 12
        /\ MonthFromTime r = (MonthFromTime today + 1) mod 12).
Proof.
  intros Htoday [Hlo Hhi] Hd. pose proof msPerDay_pos as Hpos.
  pose proof (DateFromTime_range today) as HD0.
  pose proof (MonthFromTime_range today) as HM0.
  unfold calculateNextPayday.
  change (String.eqb "monthly" "") with false.
  change (String.eqb "monthly" "monthly") with true. cbv iota.
  rewrite Htoday.
  assert (Hchk : negb (d =? 0) && (1 <=? d) && (d <=? 31) = true).
  { destruct (Z.eqb_spec d 0); [lia|].
    destruct (Z.leb_spec 1 d); [|lia].
    destruct (Z.leb_spec d 31); [reflexivity | lia]. }
  rewrite Hchk. cbv zeta.
  rewrite !(JSsetDate_Some today d).
  set (t1 := today + (d - DateFromTime today) * msPerDay).
  assert (Ht1 : today - 30 * msPerDay <= t1 <= today + 30 * msPerDay)
    by (unfold t1; nia).
  rewrite TimeClip_valid by lia.
  assert (HDay1 : Day t1 = MakeDay (YearFromTime today) (MonthFromTime today) d).
  { pose proof (MakeDay_shift today (d - DateFromTime today)) as H.
    replace (DateFromTime today + (d - DateFromTime today)) with d in H by lia.
    rewrite H. unfold t1, Day.
    rewrite Z.div_add by lia. reflexivity. }
  destruct (decompose_MakeDay t1 _ _ d HM0 Hd HDay1) as (HY1 & HM1 & HD1).
  unfold dateLt.
  destruct (Z.ltb_spec t1 today) as [Hlt|Hge].
  - (* the day has passed: next month *)
    cbn [getMonth option_map numAdd setMonth].
    rewrite HY1, HM1, HD1.
    pose proof (one_month (YearFromTime today) (MonthFromTime today) HM0)
      as Hlen.
    pose proof (Day_before_next_month today) as Hnext.
    pose proof (MakeDay_shift today 0) as Hown. rewrite !Z.add_0_r in Hown.
    rewrite MakeDay_date in Hown.
    rewrite !(MakeDay_date _ _ d) in *.
    set (yr := YearFromTime today) in *. set (mo := MonthFromTime today) in *.
    assert (Ht2 : MakeDate (MakeDay yr (mo + 1) 1 + d - 1) (TimeWithinDay t1)
                  = t1 + (MakeDay yr (mo + 1) 1 - MakeDay yr mo 1) * msPerDay).
    { rewrite <- (MakeDate_Day t1) at 2. apply MakeDate_step. lia. }
    rewrite Ht2.
    set (t2 := t1 + (MakeDay yr (mo + 1) 1 - MakeDay yr mo 1) * msPerDay) in *.
    assert (Hb2 : t1 + 28 * msPerDay <= t2 <= t1 + 31 * msPerDay)
      by (unfold t2; nia).
    rewrite TimeClip_valid by lia.
    assert (HDay2 : Day t2 = MakeDay (yr + (mo + 1) / 12) ((mo + 1) mod 12) d).
    { rewrite <- MakeDay_norm, (MakeDay_date _ _ d).
      pose proof (TimeWithinDay_range t1) as Htw.
      rewrite <- Ht2. now rewrite Day_MakeDate. }
    assert (Hmod : 0 <= (mo + 1) mod 12 <= 11)
      by (pose proof (Z.mod_pos_bound (mo + 1) 12); lia).
    destruct (decompose_MakeDay t2 _ _ d Hmod Hd HDay2)
      as (HY2 & HM2 & HD2).
    rewrite JSsetDate_Some, HD2, Z.sub_diag, Z.mul_0_l, Z.add_0_r.
    rewrite TimeClip_valid by lia.
    cbn [getMonth option_map numEq]. rewrite Z.eqb_refl. cbn [negb].
    exists t2. split; [reflexivity|].
    split; [exact HD2|]. split.
    { assert (Hk : 0 <= d - DateFromTime today
                        + (MakeDay yr (mo + 1) 1 - MakeDay yr mo 1)) by lia.
      unfold t2, t1. nia. }
    split.
    + intros Hle. exfalso. unfold t1 in Hlt. nia.
    + intros _. split; assumption.
  - (* today or still to come: this month *)
    cbn [getMonth option_map numEq]. rewrite Z.eqb_refl. cbn [negb].
    exists t1. split; [reflexivity|].
    split; [exact HD1|]. split; [lia|]. split.
    + intros _. split; assumption.
    + intros Hlt. exfalso. unfold t1 in Hge. nia.
Qed.

End NextPayday.

(* ================================================================= *)
(** ** Closed statements *)

(** Checks a closed statement by computation. *)
Ltac by_computation :=
  vm_compute; first [reflexivity | discriminate | intro; discriminate].


(* ================================================================= *)
(** ** Counting occurrences: lemmas *)

Module CountingFacts.
Import JSDate DateFns Bills Scenarios DateFacts BillsFacts Calendar
       Termination Counting.

Lemma upTo_spec (base step x k : Z) :
  0 < step -> 0 <= k ->
  (base + k * step <= x <-> k < upTo base step x).
Proof.
  intros Hs Hk. unfold upTo.
  pose proof (Z.div_mod (x - base) step ltac:(lia)) as Hdm.
  pose proof (Z.mod_pos_bound (x - base) step Hs) as Hm.
  split; intros H.
  - assert (k <= (x - base) / step); [|lia].
    apply Z.div_le_lower_bound; lia.
  - assert (Hq : k <= (x - base) / step) by lia.
    assert (k * step <= (x - base) / step * step)
      by (apply Z.mul_le_mono_nonneg_r; lia).
    lia.
Qed.

Lemma upTo_mono (base step x y : Z) :
  0 < step -> x <= y -> upTo base step x <= upTo base step y.
Proof.
  intros Hs Hxy. unfold upTo.
  assert ((x - base) / step <= (y - base) / step)
    by (apply Z.div_le_mono; lia).
  lia.
Qed.

Lemma upTo_shift (base step x : Z) :
  0 < step ->
  upTo (base + step) step x = Z.max 0 ((x - base) / step).
Proof.
  intros Hs. unfold upTo.
  replace (x - (base + step)) with (x - base + (-1) * step) by lia.
  rewrite Z.div_add by lia. f_equal. lia.
Qed.

Lemma upTo_before (base step x : Z) :
  0 < step -> x < base -> upTo base step x = 0.
Proof.
  intros Hs Hx. unfold upTo.
  assert ((x - base) / step < 0) by (apply Z.div_lt_upper_bound; lia).
  lia.
Qed.

Lemma upTo_from (base step x : Z) :
  0 < step -> base <= x -> upTo base step x = (x - base) / step + 1.
Proof.
  intros Hs Hx. unfold upTo.
  assert (0 <= (x - base) / step) by (apply Z.div_pos; lia).
  lia.
Qed.

(** One step of the count: the first time is counted when it is in the
    range, and the rest are counted from the next time on. *)
Lemma occurrencesIn_step (base step lo hi : Z) :
  0 < step -> base <= hi ->
  occurrencesIn base step lo hi
  = ((if (lo <=? base)%Z then 1 else 0)
     + occurrencesIn (base + step) step lo hi)%nat.
Proof.
  intros Hs Hb. unfold occurrencesIn.
  rewrite !upTo_shift by exact Hs.
  rewrite (upTo_from base step hi) by lia.
  assert (Hq : 0 <= (hi - base) / step) by (apply Z.div_pos; lia).
  destruct (Z.leb_spec lo base) as [Hlo|Hlo].
  - rewrite (upTo_before base step (lo - 1)) by lia.
    assert ((lo - 1 - base) / step < 0)
      by (apply Z.div_lt_upper_bound; lia).
    lia.
  - rewrite (upTo_from base step (lo - 1)) by lia.
    assert (0 <= (lo - 1 - base) / step) by (apply Z.div_pos; lia).
    assert ((lo - 1 - base) / step <= (hi - base) / step \/
            (hi - base) / step < (lo - 1 - base) / step) by lia.
    lia.
Qed.

Lemma occurrencesIn_past (base step lo hi : Z) :
  0 < step -> hi < base -> occurrencesIn base step lo hi = O.
Proof.
  intros Hs Hb. unfold occurrencesIn.
  rewrite (upTo_before base step hi) by lia.
  unfold upTo. lia.
Qed.

Lemma addTimes_succ (n : nat) (amt total : float) :
  addTimes (S n) amt total = addTimes n amt (total + amt)%float.
Proof. unfold addTimes. now rewrite Nat.iter_succ_r. Qed.

Lemma addTimes_add (n m : nat) (amt total : float) :
  addTimes (n + m) amt total = addTimes m amt (addTimes n amt total).
Proof.
  unfold addTimes. rewrite Nat.add_comm. now rewrite Nat.iter_add.
Qed.


Lemma msPerWeek_pos : 0 < msPerWeek.
Proof. reflexivity. Qed.

Lemma stepOf_cases (freq : string) :
  stepOf freq = msPerWeek \/ stepOf freq = 2 * msPerWeek.
Proof. unfold stepOf. destruct (String.eqb freq "weekly"); auto. Qed.

Lemma stepOf_range (freq : string) : msPerWeek <= stepOf freq <= 2 * msPerWeek.
Proof.
  pose proof msPerWeek_pos. destruct (stepOf_cases freq) as [->| ->]; lia.
Qed.

(** The forward step of a recurring bill. *)
Lemma addIntervalFn_forward (freq : string) (t : Z) :
  addIntervalFn freq (Some t) 1 = TimeClip (t + stepOf freq).
Proof.
  unfold addIntervalFn, stepOf, addWeeks, msPerWeek.
  destruct (String.eqb freq "weekly"); rewrite addDays_Some by lia;
    f_equal; lia.
Qed.

(** Two times a whole number of days apart, other than zero, are not on the
    same day. *)
Lemma isSameDay_shift (t k : Z) :
  k <> 0 -> isSameDay (Some (t + k * msPerDay)) (Some t) = false.
Proof.
  intros Hk. unfold isSameDay, startOfDay, setHours, getTime.
  change (((0 * 60 + 0) * 60 + 0) * 1000 + 0) with 0.
  destruct (TimeClip (MakeDate (Day (t + k * msPerDay)) 0)) as [a|] eqn:Ea;
    [|reflexivity].
  destruct (TimeClip (MakeDate (Day t) 0)) as [b|] eqn:Eb; [|reflexivity].
  apply TimeClip_Some in Ea, Eb. subst a b. cbn [numEq].
  apply Z.eqb_neq. unfold Day.
  rewrite Z.div_add by (unfold msPerDay; lia).
  unfold MakeDate, msPerDay. lia.
Qed.

Lemma isSameDay_step (freq : string) (t : Z) :
  isSameDay (Some (t + stepOf freq)) (Some t) = false.
Proof.
  destruct (stepOf_cases freq) as [->| ->]; unfold msPerWeek.
  - replace (7 * msPerDay) with (7 * msPerDay) by reflexivity.
    apply (isSameDay_shift t 7). lia.
  - replace (2 * (7 * msPerDay)) with (14 * msPerDay) by lia.
    apply (isSameDay_shift t 14). lia.
Qed.

(** The forward walk counts the bill once for each of the times
    [t], [t + step], [t + 2 * step], ... in the range. *)
Lemma forwardWalk_count (freq : string) (rs re : Z) (amt : float)
    (fuel : nat) :
  re + stepOf freq <= maxTime ->
  forall t total,
    - maxTime <= t ->
    re - t < Z.of_nat fuel * msPerWeek ->
    forwardWalk fuel freq rs re amt (Some t) total
    = Some (addTimes (occurrencesIn t (stepOf freq) rs re) amt total).
Proof.
  intros Hre. pose proof (stepOf_range freq) as Hstep.
  pose proof msPerWeek_pos as Hw.
  induction fuel as [|k IH]; intros t total Hlo Hfuel.
  - cbn [forwardWalk]. unfold dateLe.
    destruct (Z.leb_spec t re); [cbn in Hfuel; lia|].
    rewrite occurrencesIn_past by lia. reflexivity.
  - cbn [forwardWalk]. unfold dateLe at 1.
    destruct (Z.leb_spec t re) as [Hle|Hgt].
    + rewrite addIntervalFn_forward, TimeClip_valid by lia.
      rewrite isSameDay_step.
      rewrite IH by (rewrite ?Nat2Z.inj_succ in Hfuel; lia).
      rewrite (occurrencesIn_step t) by lia.
      unfold dateGe, dateLe, isWithinInterval.
      destruct (Z.leb_spec rs t) as [Hin|Hout]; cbn [andb].
      * destruct (Z.leb_spec (Z.min rs re) t); [|lia].
        destruct (Z.leb_spec t (Z.max rs re)); [|lia].
        cbn [andb Nat.add]. now rewrite addTimes_succ.
      * reflexivity.
    + rewrite occurrencesIn_past by lia. reflexivity.
Qed.

(** The backward search of a weekly bill: it steps back a week at a time,
    and stops on the first time at or before the start of the range, or
    after [n] steps. *)
Lemma backwardWalk_weekly (rs : Z) (n : nat) :
  - maxTime + msPerWeek <= rs ->
  forall t, t <= maxTime ->
    exists j, (j <= n)%nat
      /\ backwardWalk n "weekly" rs (Some t)
         = Some (t - Z.of_nat j * msPerWeek)
      /\ (t - Z.of_nat j * msPerWeek <= rs \/ j = n)
      /\ (j <> O -> rs < t - Z.of_nat j * msPerWeek + msPerWeek).
Proof.
  intros Hrs. pose proof msPerWeek_pos as Hw.
  induction n as [|k IH]; intros t Ht.
  - exists O. cbn [backwardWalk]. repeat split; auto; try lia.
    f_equal. lia.
  - cbn [backwardWalk]. unfold dateGt, dateLt.
    destruct (Z.ltb_spec rs t) as [Hgt|Hle].
    + rewrite addIntervalFn_weekly, addDays_Some by lia.
      replace (t + -1 * 7 * msPerDay) with (t - msPerWeek)
        by (unfold msPerWeek; lia).
      rewrite TimeClip_valid by lia.
      destruct (IH (t - msPerWeek)) as (j & Hj & Hres & Hstop & Hmin); [lia|].
      exists (S j). rewrite Nat2Z.inj_succ.
      replace (t - Z.succ (Z.of_nat j) * msPerWeek)
        with (t - msPerWeek - Z.of_nat j * msPerWeek) by lia.
      repeat split; [lia | exact Hres | |].
      * destruct Hstop; [now left | right; lia].
      * intros _. destruct j as [|j']; [cbn; lia|]. apply Hmin. discriminate.
    + exists O. repeat split; [lia | f_equal; lia | left; lia | congruence].
Qed.

(** Times before the start of the range do not count. *)
Lemma occurrencesIn_skip (base step lo hi : Z) :
  0 < step -> base < lo ->
  occurrencesIn base step lo hi = occurrencesIn (base + step) step lo hi.
Proof.
  intros Hs Hb. destruct (Z.le_gt_cases base hi) as [Hle|Hgt].
  - rewrite occurrencesIn_step by assumption.
    destruct (Z.leb_spec lo base); [lia | reflexivity].
  - now rewrite !occurrencesIn_past by lia.
Qed.

Lemma occurrencesIn_skip_many (step lo hi : Z) (j : nat) :
  0 < step ->
  forall base,
    base + Z.of_nat j * step < lo + step ->
    occurrencesIn base step lo hi
    = occurrencesIn (base + Z.of_nat j * step) step lo hi.
Proof.
  intros Hs. induction j as [|k IH]; intros base Hb.
  - f_equal. lia.
  - rewrite Nat2Z.inj_succ in *.
    rewrite occurrencesIn_skip by nia.
    rewrite IH by nia. f_equal. lia.
Qed.


(** What [occurrencesIn] counts: the [k >= 0] with [base + k * step] in the
    range are those from [upTo base step (lo - 1)] up to, and without,
    [upTo base step hi]. *)
Lemma occurrencesIn_spec (base step lo hi k : Z) :
  0 < step -> 0 <= k ->
  (lo <= base + k * step <= hi
   <-> upTo base step (lo - 1) <= k < upTo base step hi).
Proof.
  intros Hs Hk.
  pose proof (upTo_spec base step (lo - 1) k Hs Hk) as H1.
  pose proof (upTo_spec base step hi k Hs Hk) as H2.
  lia.
Qed.

(** Splitting the range splits the count. *)
Lemma occurrencesIn_split (base step lo mid hi : Z) :
  0 < step -> lo - 1 <= mid <= hi ->
  occurrencesIn base step lo hi
  = (occurrencesIn base step lo mid + occurrencesIn base step (mid + 1) hi)%nat.
Proof.
  intros Hs Hm. unfold occurrencesIn.
  replace (mid + 1 - 1) with mid by lia.
  pose proof (upTo_mono base step (lo - 1) mid Hs ltac:(lia)).
  pose proof (upTo_mono base step mid hi Hs ltac:(lia)).
  lia.
Qed.

(** A date at or before the start of the range is where the backward
    search stops at once. *)
Lemma backwardWalk_stay (n : nat) (freq : string) (rs t : Z) :
  t <= rs -> backwardWalk n freq rs (Some t) = Some t.
Proof.
  intros Ht. destruct n as [|k]; cbn [backwardWalk]; [reflexivity|].
  unfold dateGt, dateLt. destruct (Z.ltb_spec rs t); [lia | reflexivity].
Qed.

(** The running total after a weekly bill. *)
Lemma processBill_weekly (fuel : nat) (rs re : Z) (bill : Bill)
    (total : float) :
  frequency bill = "weekly"%string ->
  PrimFloat.is_nan (amount bill) = false ->
  Z.abs (_creationTime bill) <= maxTime ->
  - maxTime + msPerWeek <= rs -> re + msPerWeek <= maxTime ->
  re - Z.min (_creationTime bill) rs + msPerWeek <= Z.of_nat fuel * msPerWeek ->
  processBill fuel rs re bill total
  = Some (addTimes
            (occurrencesIn (_creationTime bill - 1000 * msPerWeek) msPerWeek
                           rs re)
            (amount bill) total).
Proof.
  intros Hf Hnan Ha Hrs Hre Hfuel. pose proof msPerWeek_pos as Hw.
  unfold processBill. rewrite Hnan, Hf.
  change (String.eqb "weekly" "one-off") with false.
  change (String.eqb "weekly" "monthly") with false.
  change (String.eqb "weekly" "weekly") with true.
  cbn [orb]. rewrite TimeClip_valid by exact Ha.
  destruct (backwardWalk_weekly rs maxBackwardIterations Hrs
              (_creationTime bill) ltac:(lia))
    as (j & Hj & Hres & Hstop & Hmin).
  rewrite Hres.
  assert (Hstep : stepOf "weekly" = msPerWeek) by reflexivity.
  rewrite (forwardWalk_count "weekly" rs re (amount bill) fuel);
    rewrite ?Hstep; try lia.
  - f_equal. f_equal. unfold maxBackwardIterations in *.
    destruct Hstop as [Hstop | Hstop].
    + rewrite (occurrencesIn_skip_many msPerWeek rs re (1000 - j) Hw
                 (_creationTime bill - 1000 * msPerWeek));
        rewrite Nat2Z.inj_sub by lia; change (Z.of_nat 1000) with 1000.
      * f_equal. ring.
      * nia.
    + subst j. reflexivity.
Qed.

(** The running total after a fortnightly bill anchored at or before the
    start of the range. *)
Lemma processBill_fortnightly_past (fuel : nat) (rs re : Z) (bill : Bill)
    (total : float) :
  frequency bill = "fortnightly"%string ->
  PrimFloat.is_nan (amount bill) = false ->
  Z.abs (_creationTime bill) <= maxTime ->
  _creationTime bill <= rs ->
  re + 2 * msPerWeek <= maxTime ->
  re - _creationTime bill < Z.of_nat fuel * msPerWeek ->
  processBill fuel rs re bill total
  = Some (addTimes
            (occurrencesIn (_creationTime bill) (2 * msPerWeek) rs re)
            (amount bill) total).
Proof.
  intros Hf Hnan Ha Hars Hre Hfuel. pose proof msPerWeek_pos as Hw.
  unfold processBill. rewrite Hnan, Hf.
  change (String.eqb "fortnightly" "one-off") with false.
  change (String.eqb "fortnightly" "monthly") with false.
  change (String.eqb "fortnightly" "weekly") with false.
  change (String.eqb "fortnightly" "fortnightly") with true.
  cbn [orb]. rewrite TimeClip_valid by lia.
  assert (Hback : backwardWalk maxBackwardIterations "fortnightly" rs
                    (Some (_creationTime bill))
                  = Some (_creationTime bill)).
  { apply backwardWalk_stay. exact Hars. }
  rewrite Hback.
  assert (Hstep : stepOf "fortnightly" = 2 * msPerWeek) by reflexivity.
  rewrite (forwardWalk_count "fortnightly" rs re (amount bill) fuel);
    rewrite ?Hstep; try lia.
  reflexivity.
Qed.

(** One more bill at the end of the list. *)
Lemma calculateUpcomingBillsTotal_snoc (fuel : nat) (bills : list Bill)
    (bill : Bill) (startDate endDate : Date) (rs re : Z)
    (total total' : float) :
  startOfDay startDate = Some rs -> endOfDay endDate = Some re ->
  calculateUpcomingBillsTotal fuel bills startDate endDate = Returns total ->
  processBill fuel rs re bill total = Some total' ->
  calculateUpcomingBillsTotal fuel (bills ++ [bill]) startDate endDate
  = Returns total'.
Proof.
  intros Hs He. unfold calculateUpcomingBillsTotal. rewrite Hs, He.
  rewrite forEachBill_app.
  destruct (forEachBill fuel rs re bills 0) as [t|]; [|discriminate].
  intros H. injection H as ->. cbn [forEachBill]. now intros ->.
Qed.

Lemma startOfDay_value (t : Z) :
  Z.abs t <= maxTime -> startOfDay (Some t) = Some (Day t * msPerDay).
Proof.
  intros Ht. unfold startOfDay, setHours.
  change (((0 * 60 + 0) * 60 + 0) * 1000 + 0) with 0.
  unfold MakeDate. rewrite Z.add_0_r. apply TimeClip_valid.
  unfold Day. unfold maxTime, msPerDay in *. Z.div_mod_to_equations. lia.
Qed.

Lemma endOfDay_value (t : Z) :
  - maxTime <= t -> t + msPerDay <= maxTime ->
  endOfDay (Some t) = Some (Day t * msPerDay + (msPerDay - 1)).
Proof.
  intros Hlo Hhi. unfold endOfDay, setHours.
  change (((23 * 60 + 59) * 60 + 59) * 1000 + 999) with (msPerDay - 1).
  unfold MakeDate. apply TimeClip_valid.
  unfold Day. unfold maxTime, msPerDay in *. Z.div_mod_to_equations. lia.
Qed.

(** A time is within the days from [s]'s to [e]'s exactly when it is between
    the start of the first and the end of the last. *)
Lemma within_days (s e t : Z) :
  (Day s * msPerDay <= t <= Day e * msPerDay + (msPerDay - 1))
  <-> Day s <= Day t <= Day e.
Proof.
  unfold Day. unfold msPerDay. Z.div_mod_to_equations. lia.
Qed.


(** A weekly bill alone. *)
Lemma weekly_bill_is_counted_once_a_week_aux
    (fuel : nat) (bill : Bill) (startDate endDate : Date) (rs re : Z) :
  startOfDay startDate = Some rs ->
  endOfDay endDate = Some re ->
  - maxTime + msPerWeek <= rs ->
  re + msPerWeek <= maxTime ->
  frequency bill = "weekly"%string ->
  PrimFloat.is_nan (amount bill) = false ->
  Z.abs (_creationTime bill) <= maxTime ->
  re - Z.min (_creationTime bill) rs + msPerWeek
    <= Z.of_nat fuel * msPerWeek ->
  calculateUpcomingBillsTotal fuel [bill] startDate endDate
  = Returns (addTimes
               (occurrencesIn (_creationTime bill - 1000 * msPerWeek)
                              msPerWeek rs re)
               (amount bill) 0).
Proof.
  intros Hs He Hlo Hhi Hf Hnan Ha Hfuel.
  apply (calculateUpcomingBillsTotal_snoc fuel [] bill startDate endDate
           rs re 0 _ Hs He).
  - unfold calculateUpcomingBillsTotal. now rewrite Hs, He.
  - now apply processBill_weekly.
Qed.

(** The running total after a one-off bill, over the days from [s]'s to
    [e]'s. *)
Lemma processBill_one_off (fuel : nat) (bill : Bill) (s e due : Z)
    (total : float) :
  Day s <= Day e ->
  frequency bill = "one-off"%string ->
  PrimFloat.is_nan (amount bill) = false ->
  dueDate bill = Some due ->
  Z.abs due <= maxTime ->
  processBill fuel (Day s * msPerDay) (Day e * msPerDay + (msPerDay - 1))
              bill total
  = Some (if (Day s <=? Day due) && (Day due <=? Day e)
          then (total + amount bill)%float else total).
Proof.
  intros Hse Hf Hnan Hdue Hd. pose proof msPerDay_pos as Hpos.
  unfold processBill. rewrite Hnan, Hf, Hdue.
  change (String.eqb "one-off" "one-off") with true. cbv iota.
  rewrite TimeClip_valid by exact Hd. unfold isWithinInterval.
  pose proof (within_days s e due) as Hw.
  assert (Hord : Day s * msPerDay <= Day e * msPerDay + (msPerDay - 1))
    by nia.
  rewrite Z.min_l, Z.max_r by lia.
  destruct (Z.leb_spec (Day s * msPerDay) due);
    destruct (Z.leb_spec due (Day e * msPerDay + (msPerDay - 1)));
    destruct (Z.leb_spec (Day s) (Day due));
    destruct (Z.leb_spec (Day due) (Day e));
    cbn [andb]; try reflexivity; lia.
Qed.

End CountingFacts.

(* ================================================================= *)
(** ** Monthly occurrences: lemmas *)

Module MonthlyFacts.
Import JSDate DateFns Bills Scenarios DateFacts BillsFacts Fuel Calendar
       Termination Production NextPayday Counting CountingFacts.

(** Reads the month table at a given month, and at the next. *)
Ltac month_table :=
  change (0 + 1) with 1 in *; change (1 + 1) with 2 in *;
  change (2 + 1) with 3 in *; change (3 + 1) with 4 in *;
  change (4 + 1) with 5 in *; change (5 + 1) with 6 in *;
  change (6 + 1) with 7 in *; change (7 + 1) with 8 in *;
  change (8 + 1) with 9 in *; change (9 + 1) with 10 in *;
  change (10 + 1) with 11 in *;
  cbn [monthStart Z.leb Z.eqb Z.compare Pos.eqb] in *.

(** Months past December count into the next years. *)
Lemma MakeDay_norm_add (y a k d : Z) :
  MakeDay (y + a / 12) (a mod 12 + k) d = MakeDay y (a + k) d.
Proof.
  unfold MakeDay.
  replace (y + a / 12 + (a mod 12 + k) / 12) with (y + (a + k) / 12)
    by (Z.div_mod_to_equations; lia).
  replace ((a mod 12 + k) mod 12) with ((a + k) mod 12)
    by (Z.div_mod_to_equations; lia).
  reflexivity.
Qed.

(** A day of month [m] of year [y] is read back as such. *)
Lemma decompose_MakeDay_month (t y m d : Z) :
  0 <= m <= 11 -> 1 <= d ->
  MakeDay y m d < MakeDay y (m + 1) 1 ->
  Day t = MakeDay y m d ->
  YearFromTime t = y /\ MonthFromTime t = m /\ DateFromTime t = d.
Proof.
  intros Hm Hd Hlt HD.
  pose proof (leapDay_range y) as Hl.
  pose proof (DayFromYear_succ y) as Hy.
  assert (Hc : m = 0 \/ m = 1 \/ m = 2 \/ m = 3 \/ m = 4 \/ m = 5 \/ m = 6
               \/ m = 7 \/ m = 8 \/ m = 9 \/ m = 10 \/ m = 11) by lia.
  assert (Hms : MakeDay y m d
                = DayFromYear y + monthStart m (leapDay y) + d - 1).
  { unfold MakeDay. rewrite Z.div_small, Z.mod_small by lia.
    now rewrite Z.add_0_r. }
  assert (Hnext : MakeDay y (m + 1) 1
                  = if m =? 11 then DayFromYear (y + 1)
                    else DayFromYear y + monthStart (m + 1) (leapDay y)).
  { unfold MakeDay.
    repeat (destruct Hc as [->|Hc]); [..|subst m];
      repeat match goal with
             | |- context [?a / 12] =>
                 let v := eval vm_compute in (a / 12) in change (a / 12) with v
             | |- context [?a mod 12] =>
                 let v := eval vm_compute in (a mod 12) in
                 change (a mod 12) with v
             end;
      rewrite ?Z.add_0_r; month_table; lia. }
  rewrite Hms, Hnext in Hlt.
  assert (Hrange : 0 <= monthStart m (leapDay y) + d - 1 < 365 + leapDay y).
  { repeat (destruct Hc as [->|Hc]); [..|subst m]; month_table; lia. }
  assert (HY : YearFromTime t = y).
  { unfold YearFromTime. apply YearFromDay_unique. lia. }
  assert (Hdwy : DayWithinYear t = monthStart m (leapDay y) + d - 1).
  { unfold DayWithinYear. rewrite HY. lia. }
  assert (HM : MonthFromTime t = m).
  { unfold MonthFromTime, InLeapYear. rewrite HY, Hdwy.
    repeat (destruct Hc as [->|Hc]); [..|subst m]; month_table;
      repeat match goal with
             | |- context [?a <? ?b] => destruct (Z.ltb_spec a b); try lia
             end. }
  split; [exact HY|]. split; [exact HM|].
  unfold DateFromTime, InLeapYear. rewrite HM, HY, Hdwy. lia.
Qed.

(** The length of any month, whatever the month number. *)
Lemma month_length (y mm : Z) :
  28 <= MakeDay y (mm + 1) 1 - MakeDay y mm 1 <= 31.
Proof.
  pose proof (Z.mod_pos_bound mm 12 ltac:(lia)) as Hmod.
  pose proof (one_month (y + mm / 12) (mm mod 12) ltac:(lia)) as H.
  rewrite MakeDay_norm_add in H. rewrite <- MakeDay_norm in H. exact H.
Qed.

(** A day every month has, read back from any month number. *)
Lemma decompose_occurrence (t y mm d : Z) :
  1 <= d <= 28 ->
  Day t = MakeDay y mm d ->
  YearFromTime t = y + mm / 12 /\ MonthFromTime t = mm mod 12
  /\ DateFromTime t = d.
Proof.
  intros Hd HD.
  pose proof (Z.mod_pos_bound mm 12 ltac:(lia)) as Hmod.
  rewrite MakeDay_norm in HD.
  apply decompose_MakeDay; [lia | exact Hd | exact HD].
Qed.

(** [addMonths(date, 1)] from a day every month has: the same day of the
    next month, at the same time of day. *)
Lemma addMonths_same_day (t y mm d : Z) :
  1 <= d <= 28 ->
  Day t = MakeDay y mm d ->
  - maxTime <= t -> t + 61 * msPerDay <= maxTime ->
  addMonths (Some t) 1
  = Some (MakeDate (MakeDay y (mm + 1) d) (TimeWithinDay t)).
Proof.
  intros Hd HD Hlo Hhi. pose proof msPerDay_pos as Hpos.
  pose proof (TimeWithinDay_range t) as Htw.
  destruct (decompose_occurrence t y mm d Hd HD) as (HY & HM & HDt).
  pose proof (month_length y mm) as L0.
  pose proof (month_length y (mm + 1)) as L1.
  replace (mm + 1 + 1) with (mm + 2) in L1 by lia.
  rewrite addMonths_one, HY, HM, HDt, MakeDay_norm_add.
  assert (He : MakeDay y (mm + 2) 0
               = MakeDay y (mm + 1)
                   (MakeDay y (mm + 2) 1 - MakeDay y (mm + 1) 1)).
  { rewrite (MakeDay_date y (mm + 1) (_ - _)), (MakeDay_date y (mm + 2) 0).
    lia. }
  set (len := MakeDay y (mm + 2) 1 - MakeDay y (mm + 1) 1) in *.
  set (te := MakeDate (MakeDay y (mm + 2) 0) (TimeWithinDay t)).
  assert (Hte : t <= te <= t + 61 * msPerDay).
  { pose proof (MakeDate_bounds (Day t) (MakeDay y (mm + 2) 0)
                  (TimeWithinDay t) 0 61) as Hb.
    rewrite MakeDate_Day in Hb. fold te in Hb.
    assert (Hr : Day t + 0 <= MakeDay y (mm + 2) 0 <= Day t + 61).
    { rewrite HD, He, (MakeDay_date y mm d), (MakeDay_date y (mm + 1) len).
      lia. }
    specialize (Hb Hr). lia. }
  rewrite TimeClip_valid by lia.
  pose proof (Z.mod_pos_bound (mm + 1) 12 ltac:(lia)) as Hmod.
  assert (Hdec : YearFromTime te = y + (mm + 1) / 12
                 /\ MonthFromTime te = (mm + 1) mod 12
                 /\ DateFromTime te = len).
  { apply decompose_MakeDay_month; [lia | lia | |].
    - rewrite MakeDay_norm_add, <- MakeDay_norm.
      replace (mm + 1 + 1) with (mm + 2) by lia.
      rewrite (MakeDay_date y (mm + 1) len). lia.
    - unfold te. rewrite Day_MakeDate by exact Htw.
      now rewrite <- MakeDay_norm. }
  destruct Hdec as (HYe & HMe & HDe).
  rewrite HDe, HYe, HMe, <- MakeDay_norm.
  destruct (Z.leb_spec len d) as [Hle|Hgt].
  - f_equal. unfold te. f_equal. rewrite He. f_equal. lia.
  - apply TimeClip_valid.
    pose proof (MakeDate_bounds (Day t) (MakeDay y (mm + 1) d)
                  (TimeWithinDay t) 0 61) as Hb.
    rewrite MakeDate_Day in Hb.
    assert (Hr : Day t + 0 <= MakeDay y (mm + 1) d <= Day t + 61).
    { rewrite HD, (MakeDay_date y mm d), (MakeDay_date y (mm + 1) d). lia. }
    specialize (Hb Hr). lia.
Qed.


(** Two times on different days are not on the same day. *)
Lemma isSameDay_days (a b : Z) :
  Day a <> Day b -> isSameDay (Some a) (Some b) = false.
Proof.
  intros Hab. unfold isSameDay, startOfDay, setHours, getTime.
  change (((0 * 60 + 0) * 60 + 0) * 1000 + 0) with 0.
  destruct (TimeClip (MakeDate (Day a) 0)) as [x|] eqn:Ea; [|reflexivity].
  destruct (TimeClip (MakeDate (Day b) 0)) as [z|] eqn:Eb; [|reflexivity].
  apply TimeClip_Some in Ea, Eb. subst x z. cbn [numEq].
  apply Z.eqb_neq. unfold MakeDate, msPerDay. lia.
Qed.

Section MonthlyWalk.

Variables (rs re d : Z) (amt : float).
Hypothesis Hd : 1 <= d <= 28.
Hypothesis Hord : rs <= re.
Hypothesis Hhi : re + 61 * msPerDay <= maxTime.

Lemma monthlyOccurrence_Day (i : nat) :
  Day (monthlyOccurrence rs d i)
  = MakeDay (YearFromTime rs) (MonthFromTime rs + Z.of_nat i) d.
Proof.
  unfold monthlyOccurrence. apply Day_MakeDate, TimeWithinDay_range.
Qed.

Lemma monthlyOccurrence_time (i : nat) :
  TimeWithinDay (monthlyOccurrence rs d i) = TimeWithinDay rs.
Proof.
  unfold monthlyOccurrence. apply TimeWithinDay_MakeDate, TimeWithinDay_range.
Qed.

(** The first of them is where [setDate] leads from the start of the range. *)
Lemma monthlyOccurrence_0 :
  monthlyOccurrence rs d 0 = rs + (d - DateFromTime rs) * msPerDay.
Proof.
  unfold monthlyOccurrence. change (Z.of_nat 0) with 0. rewrite Z.add_0_r.
  replace d with (DateFromTime rs + (d - DateFromTime rs)) at 1 by lia.
  now rewrite MakeDay_shift, MakeDate_shift.
Qed.

(** Each is 28 to 31 days after the one before. *)
Lemma monthlyOccurrence_next (i : nat) :
  monthlyOccurrence rs d i + 28 * msPerDay
  <= monthlyOccurrence rs d (S i)
  <= monthlyOccurrence rs d i + 31 * msPerDay.
Proof.
  unfold monthlyOccurrence. apply MakeDate_bounds.
  rewrite Nat2Z.inj_succ.
  replace (MonthFromTime rs + Z.succ (Z.of_nat i))
    with (MonthFromTime rs + Z.of_nat i + 1) by lia.
  pose proof (month_length (YearFromTime rs) (MonthFromTime rs + Z.of_nat i))
    as H.
  rewrite (MakeDay_date _ (_ + 1) d), (MakeDay_date _ (_ + Z.of_nat i) d).
  lia.
Qed.

Lemma monthlyOccurrence_mono (i k : nat) :
  monthlyOccurrence rs d i <= monthlyOccurrence rs d (i + k).
Proof.
  pose proof msPerDay_pos as Hpos.
  induction k as [|k IH].
  - rewrite Nat.add_0_r. lia.
  - rewrite Nat.add_succ_r.
    pose proof (monthlyOccurrence_next (i + k)). lia.
Qed.

Lemma addMonths_monthlyOccurrence (i : nat) :
  - maxTime <= monthlyOccurrence rs d i ->
  monthlyOccurrence rs d i <= re ->
  addMonths (Some (monthlyOccurrence rs d i)) 1
  = Some (monthlyOccurrence rs d (S i)).
Proof.
  intros Hlo Hle.
  rewrite (addMonths_same_day _ (YearFromTime rs)
             (MonthFromTime rs + Z.of_nat i) d Hd (monthlyOccurrence_Day i))
    by lia.
  rewrite monthlyOccurrence_time. unfold monthlyOccurrence.
  rewrite Nat2Z.inj_succ. do 3 f_equal. lia.
Qed.

Lemma isSameDay_monthlyOccurrence (i : nat) :
  isSameDay (Some (monthlyOccurrence rs d (S i)))
            (Some (monthlyOccurrence rs d i)) = false.
Proof.
  apply isSameDay_days. rewrite !monthlyOccurrence_Day.
  rewrite Nat2Z.inj_succ.
  replace (MonthFromTime rs + Z.succ (Z.of_nat i))
    with (MonthFromTime rs + Z.of_nat i + 1) by lia.
  pose proof (month_length (YearFromTime rs) (MonthFromTime rs + Z.of_nat i))
    as H.
  rewrite (MakeDay_date _ (_ + 1) d), (MakeDay_date _ (_ + Z.of_nat i) d).
  lia.
Qed.

Lemma monthlyOccurrencesFrom_succ (i k : nat) :
  monthlyOccurrencesFrom rs d rs re i (S k)
  = ((if ((rs <=? monthlyOccurrence rs d i)
          && (monthlyOccurrence rs d i <=? re))%Z then 1 else 0)
     + monthlyOccurrencesFrom rs d rs re (S i) k)%nat.
Proof.
  unfold monthlyOccurrencesFrom. cbn [seq filter].
  destruct ((rs <=? monthlyOccurrence rs d i)
            && (monthlyOccurrence rs d i <=? re)); reflexivity.
Qed.

Lemma monthlyOccurrencesFrom_past (k : nat) :
  forall i, re < monthlyOccurrence rs d i ->
    monthlyOccurrencesFrom rs d rs re i k = O.
Proof.
  pose proof msPerDay_pos as Hpos.
  induction k as [|k IH]; intros i Hi; [reflexivity|].
  rewrite monthlyOccurrencesFrom_succ.
  destruct (Z.leb_spec (monthlyOccurrence rs d i) re) as [|_]; [lia|].
  rewrite andb_false_r. cbn [Nat.add]. apply IH.
  pose proof (monthlyOccurrence_next i). lia.
Qed.

(** The month-by-month walk counts the bill once for each monthly
    occurrence in the range. *)
Lemma monthlyWalk_count (k : nat) :
  forall i fuel total,
    - maxTime <= monthlyOccurrence rs d i ->
    re < monthlyOccurrence rs d (i + k) ->
    (k <= fuel)%nat ->
    monthlyWalk fuel rs re amt (Some (monthlyOccurrence rs d i)) total
    = Some (addTimes (monthlyOccurrencesFrom rs d rs re i k) amt total).
Proof.
  pose proof msPerDay_pos as Hpos.
  induction k as [|k IH]; intros i fuel total Hlo Hend Hfuel.
  - rewrite Nat.add_0_r in Hend.
    destruct fuel; cbn [monthlyWalk isAfter dateGt dateLt];
      (destruct (Z.ltb_spec re (monthlyOccurrence rs d i)); [|lia]);
      reflexivity.
  - destruct (Z.lt_ge_cases re (monthlyOccurrence rs d i)) as [Hpast|Hin].
    + rewrite monthlyOccurrencesFrom_past by exact Hpast.
      destruct fuel; cbn [monthlyWalk isAfter dateGt dateLt];
        (destruct (Z.ltb_spec re (monthlyOccurrence rs d i)); [|lia]);
        reflexivity.
    + destruct fuel as [|fuel]; [lia|].
      cbn [monthlyWalk isAfter dateGt dateLt].
      destruct (Z.ltb_spec re (monthlyOccurrence rs d i)) as [|_]; [lia|].
      cbn [negb].
      rewrite addMonths_monthlyOccurrence by assumption.
      rewrite isSameDay_monthlyOccurrence.
      pose proof (monthlyOccurrence_next i) as Hn.
      rewrite IH; [| lia | now rewrite Nat.add_succ_l, <- Nat.add_succ_r | lia].
      rewrite monthlyOccurrencesFrom_succ. unfold isWithinInterval.
      rewrite Z.min_l, Z.max_r by lia.
      destruct ((rs <=? monthlyOccurrence rs d i)
                && (monthlyOccurrence rs d i <=? re)).
      * cbn [Nat.add]. now rewrite addTimes_succ.
      * reflexivity.
Qed.

(** The running total after a monthly bill due on a day every month has. *)
Lemma processBill_monthly (fuel : nat) (bill : Bill) (total : float)
    (n : nat) :
  frequency bill = "monthly"%string ->
  PrimFloat.is_nan (amount bill) = false ->
  amount bill = amt ->
  dueDate bill = Some d ->
  - maxTime + 31 * msPerDay <= rs ->
  re < monthlyOccurrence rs d n ->
  (n <= fuel)%nat ->
  processBill fuel rs re bill total
  = Some (addTimes (monthlyOccurrencesFrom rs d rs re 0 n) amt total).
Proof.
  intros Hf Hnan Hamt Hdue Hlo Hend Hfuel. pose proof msPerDay_pos as Hpos.
  pose proof (DateFromTime_range rs) as HD.
  unfold processBill. rewrite Hnan, Hf, Hdue, Hamt.
  change (String.eqb "monthly" "one-off") with false.
  change (String.eqb "monthly" "monthly") with true. cbv iota.
  destruct (Z.ltb_spec d 1) as [|_]; [lia|].
  destruct (Z.ltb_spec 31 d) as [|_]; [lia|]. cbn [orb].
  rewrite setDate_Some, <- monthlyOccurrence_0.
  pose proof monthlyOccurrence_0 as H0.
  assert (Hb : rs - 30 * msPerDay <= monthlyOccurrence rs d 0
               <= rs + 30 * msPerDay) by nia.
  rewrite TimeClip_valid by lia.
  unfold isBefore, dateLt.
  destruct (Z.ltb_spec (monthlyOccurrence rs d 0) rs) as [Hbefore|Hafter].
  - rewrite addMonths_monthlyOccurrence by lia.
    destruct n as [|n']; [lia|].
    pose proof (monthlyOccurrence_next 0) as Hn.
    rewrite (monthlyWalk_count n' 1 fuel total); [| lia | exact Hend | lia].
    rewrite monthlyOccurrencesFrom_succ.
    destruct (Z.leb_spec rs (monthlyOccurrence rs d 0)) as [|_]; [lia|].
    reflexivity.
  - apply monthlyWalk_count; [lia | exact Hend | exact Hfuel].
Qed.

End MonthlyWalk.

End MonthlyFacts.

(* ================================================================= *)
(** ** The bill occurrence expander: what each bill adds *)

Module Occurrences.
Import JSDate DateFns Bills Scenarios DateFacts BillsFacts Fuel Calendar
       Termination Production Counting CountingFacts MonthlyFacts.

(** X1.  A weekly bill is counted once for each of the times a whole number of
    weeks from its anchor (its creation time), no more than a thousand weeks
    before it, that lie between the start of the start date's day and the end
    of the end date's day: the running total gets the amount added that many
    times. *)
Theorem weekly_bill_is_counted_once_a_week
    (fuel : nat) (bills : list Bill) (bill : Bill) (startDate endDate : Date)
    (rangeStart rangeEnd : Z) (total : float) :
  startOfDay startDate = Some rangeStart ->
  endOfDay endDate = Some rangeEnd ->
  - maxTime + msPerWeek <= rangeStart ->
  rangeEnd + msPerWeek <= maxTime ->
  frequency bill = "weekly"%string ->
  PrimFloat.is_nan (amount bill) = false ->
  Z.abs (_creationTime bill) <= maxTime ->
  rangeEnd - Z.min (_creationTime bill) rangeStart + msPerWeek
    <= Z.of_nat fuel * msPerWeek ->
  calculateUpcomingBillsTotal fuel bills startDate endDate = Returns total ->
  calculateUpcomingBillsTotal fuel (bills ++ [bill]) startDate endDate
  = Returns (addTimes
               (occurrencesIn (_creationTime bill - 1000 * msPerWeek)
                              msPerWeek rangeStart rangeEnd)
               (amount bill) total).
Proof.
  intros Hs He Hlo Hhi Hf Hnan Ha Hfuel Hbills.
  apply (calculateUpcomingBillsTotal_snoc fuel bills bill startDate endDate
           rangeStart rangeEnd total _ Hs He Hbills).
  now apply processBill_weekly.
Qed.

(** The weekly bill of the test fixture (150, anchored on Wednesday 10 April
    2024) after its rent, over 15 to 29 April: 17 and 24 April. *)
Lemma weekly_bill_is_counted_once_a_week_witness :
  let groceries :=
    mkBill "Groceries" 150 "weekly" None (Some true) (utc 2024 4 10 0 0 0 0) in
  let rent := mkBill "Rent" 1500 "monthly" (Some 20) None defaultCreation in
  calculateUpcomingBillsTotal 8 ([rent] ++ [groceries])
    (ymd 2024 4 15) (ymd 2024 4 29)
  = Returns (addTimes 2 150 1500).
Proof.
  cbv zeta.
  apply (weekly_bill_is_counted_once_a_week 8
           [mkBill "Rent" 1500 "monthly" (Some 20) None defaultCreation]
           (mkBill "Groceries" 150 "weekly" None (Some true)
                   (utc 2024 4 10 0 0 0 0))
           (ymd 2024 4 15) (ymd 2024 4 29)
           (utc 2024 4 15 0 0 0 0) (utc 2024 4 29 23 59 59 999) 1500);
    by_computation.
Defined.

(** X2.  A fortnightly bill anchored at or before the start of the range is
    counted once for each of the times a whole number of fortnights after
    its anchor that lie in the range. *)
Theorem fortnightly_bill_is_counted_from_its_anchor
    (fuel : nat) (bills : list Bill) (bill : Bill) (startDate endDate : Date)
    (rangeStart rangeEnd : Z) (total : float) :
  startOfDay startDate = Some rangeStart ->
  endOfDay endDate = Some rangeEnd ->
  rangeEnd + 2 * msPerWeek <= maxTime ->
  frequency bill = "fortnightly"%string ->
  PrimFloat.is_nan (amount bill) = false ->
  Z.abs (_creationTime bill) <= maxTime ->
  _creationTime bill <= rangeStart ->
  rangeEnd - _creationTime bill < Z.of_nat fuel * msPerWeek ->
  calculateUpcomingBillsTotal fuel bills startDate endDate = Returns total ->
  calculateUpcomingBillsTotal fuel (bills ++ [bill]) startDate endDate
  = Returns (addTimes
               (occurrencesIn (_creationTime bill) (2 * msPerWeek)
                              rangeStart rangeEnd)
               (amount bill) total).
Proof.
  intros Hs He Hhi Hf Hnan Ha Hars Hfuel Hbills.
  apply (calculateUpcomingBillsTotal_snoc fuel bills bill startDate endDate
           rangeStart rangeEnd total _ Hs He Hbills).
  now apply processBill_fortnightly_past.
Qed.

(** The fortnightly bill of the test fixture (250, anchored on 5 April 2024)
    over 19 April to 3 May: 19 April and 3 May. *)
Lemma fortnightly_bill_is_counted_from_its_anchor_witness :
  calculateUpcomingBillsTotal 8 ([] ++ [salaryAdvanceRepay])
    (ymd 2024 4 19) (ymd 2024 5 3)
  = Returns (addTimes 2 250 0).
Proof.
  apply (fortnightly_bill_is_counted_from_its_anchor 8 [] salaryAdvanceRepay
           (ymd 2024 4 19) (ymd 2024 5 3)
           (utc 2024 4 19 0 0 0 0) (utc 2024 5 3 23 59 59 999) 0);
    by_computation.
Defined.

(** X3.  For a weekly bill the totals add up: the number of times it is counted
    from [s] to [e] is the number from [s] to [m] plus the number from the
    day after [m] to [e]. *)
Theorem weekly_bill_total_is_additive
    (fuel : nat) (bill : Bill) (s m e : Z) :
  frequency bill = "weekly"%string ->
  PrimFloat.is_nan (amount bill) = false ->
  Z.abs (_creationTime bill) <= maxTime ->
  - maxTime + 2 * msPerWeek <= s -> e + 2 * msPerWeek <= maxTime ->
  Day s <= Day m <= Day e ->
  e - Z.min (_creationTime bill) s + 3 * msPerWeek
    <= Z.of_nat fuel * msPerWeek ->
  exists n1 n2 : nat,
    calculateUpcomingBillsTotal fuel [bill] (Some s) (Some m)
    = Returns (addTimes n1 (amount bill) 0)
    /\ calculateUpcomingBillsTotal fuel [bill] (addDays (Some m) 1) (Some e)
       = Returns (addTimes n2 (amount bill) 0)
    /\ calculateUpcomingBillsTotal fuel [bill] (Some s) (Some e)
       = Returns (addTimes (n1 + n2) (amount bill) 0).
Proof.
  intros Hf Hnan Ha Hlo Hhi Hdays Hfuel.
  pose proof msPerWeek_pos as Hw. pose proof msPerDay_pos as Hd.
  assert (HW : msPerWeek = 7 * msPerDay) by reflexivity.
  assert (Hs : Day s * msPerDay <= s < Day s * msPerDay + msPerDay)
    by (unfold Day; Z.div_mod_to_equations; lia).
  assert (Hm : Day m * msPerDay <= m < Day m * msPerDay + msPerDay)
    by (unfold Day; Z.div_mod_to_equations; lia).
  assert (He : Day e * msPerDay <= e < Day e * msPerDay + msPerDay)
    by (unfold Day; Z.div_mod_to_equations; lia).
  assert (Hsm : Day s * msPerDay <= Day m * msPerDay) by nia.
  assert (Hme : Day m * msPerDay <= Day e * msPerDay) by nia.
  set (rs := Day s * msPerDay) in *.
  set (rm := Day m * msPerDay + (msPerDay - 1)).
  set (re := Day e * msPerDay + (msPerDay - 1)).
  assert (Es : startOfDay (Some s) = Some rs)
    by (apply startOfDay_value; lia).
  assert (Em : endOfDay (Some m) = Some rm)
    by (apply endOfDay_value; lia).
  assert (Ee : endOfDay (Some e) = Some re)
    by (apply endOfDay_value; lia).
  assert (Em1 : addDays (Some m) 1 = Some (m + 1 * msPerDay))
    by (rewrite addDays_Some by lia; apply TimeClip_valid; lia).
  assert (Em' : startOfDay (Some (m + 1 * msPerDay)) = Some (rm + 1)).
  { rewrite startOfDay_value by lia. unfold Day.
    rewrite Z.div_add by lia. f_equal. unfold rm, Day. lia. }
  pose (base := _creationTime bill - 1000 * msPerWeek).
  exists (occurrencesIn base msPerWeek rs rm),
         (occurrencesIn base msPerWeek (rm + 1) re).
  rewrite Em1.
  rewrite <- (occurrencesIn_split base msPerWeek rs rm re Hw)
    by (unfold rm, re; lia).
  split; [|split].
  - apply (weekly_bill_is_counted_once_a_week_aux fuel bill (Some s) (Some m)
             rs rm); unfold rm; try assumption; lia.
  - apply (weekly_bill_is_counted_once_a_week_aux fuel bill
             (Some (m + 1 * msPerDay)) (Some e) (rm + 1) re);
      unfold rm, re; try assumption; lia.
  - apply (weekly_bill_is_counted_once_a_week_aux fuel bill (Some s) (Some e)
             rs re); unfold re; try assumption; lia.
Qed.

(** The weekly bill of the test fixture over 15 to 29 April 2024, split
    after 20 April: once (17 April) and once (24 April). *)
Lemma weekly_bill_total_is_additive_witness :
  let groceries :=
    mkBill "Groceries" 150 "weekly" None (Some true) (utc 2024 4 10 0 0 0 0) in
  exists n1 n2 : nat,
    calculateUpcomingBillsTotal 8 [groceries] (ymd 2024 4 15) (ymd 2024 4 20)
    = Returns (addTimes n1 (amount groceries) 0)
    /\ calculateUpcomingBillsTotal 8 [groceries]
         (addDays (ymd 2024 4 20) 1) (ymd 2024 4 29)
       = Returns (addTimes n2 (amount groceries) 0)
    /\ calculateUpcomingBillsTotal 8 [groceries] (ymd 2024 4 15)
         (ymd 2024 4 29)
       = Returns (addTimes (n1 + n2) (amount groceries) 0).
Proof.
  cbv zeta.
  apply (weekly_bill_total_is_additive 8
           (mkBill "Groceries" 150 "weekly" None (Some true)
                   (utc 2024 4 10 0 0 0 0))
           (utc 2024 4 15 0 0 0 0) (utc 2024 4 20 0 0 0 0)
           (utc 2024 4 29 0 0 0 0));
    first [by_computation | split; by_computation].
Defined.


(** X4.  A one-off bill is counted exactly when its due day is one of the days
    from the start date's to the end date's, both included, whatever the
    times of day of the three. *)
Theorem one_off_bill_is_counted_by_day
    (fuel : nat) (bills : list Bill) (bill : Bill) (s e due : Z)
    (total : float) :
  Z.abs s <= maxTime -> - maxTime <= e -> e + msPerDay <= maxTime ->
  Day s <= Day e ->
  frequency bill = "one-off"%string ->
  PrimFloat.is_nan (amount bill) = false ->
  dueDate bill = Some due ->
  Z.abs due <= maxTime ->
  calculateUpcomingBillsTotal fuel bills (Some s) (Some e) = Returns total ->
  calculateUpcomingBillsTotal fuel (bills ++ [bill]) (Some s) (Some e)
  = Returns (if (Day s <=? Day due) && (Day due <=? Day e)
             then (total + amount bill)%float else total).
Proof.
  intros Hs He1 He2 Hse Hf Hnan Hdue Hd Hbills.
  apply (calculateUpcomingBillsTotal_snoc fuel bills bill (Some s) (Some e)
           (Day s * msPerDay) (Day e * msPerDay + (msPerDay - 1)) total _
           (startOfDay_value s Hs) (endOfDay_value e He1 He2) Hbills).
  now apply processBill_one_off.
Qed.

(** A gig due at 21:30 on the last day of a range given by two mornings. *)
Lemma one_off_bill_is_counted_by_day_witness :
  let gig := mkBill "Gig" 80 "one-off" (Some (utc 2024 4 25 21 30 0 0))
                    None defaultCreation in
  calculateUpcomingBillsTotal 0 ([] ++ [gig])
    (Some (utc 2024 4 20 9 0 0 0)) (Some (utc 2024 4 25 8 0 0 0))
  = Returns 80%float.
Proof.
  cbv zeta.
  apply (one_off_bill_is_counted_by_day 0 []
           (mkBill "Gig" 80 "one-off" (Some (utc 2024 4 25 21 30 0 0))
                   None defaultCreation)
           (utc 2024 4 20 9 0 0 0) (utc 2024 4 25 8 0 0 0)
           (utc 2024 4 25 21 30 0 0) 0);
    by_computation.
Defined.

(** X5.  A bill the program cannot read is passed over, alone: one whose amount
    is NaN, a one-off bill without a due date or with one no [Date] can hold,
    a monthly bill without a day or with one outside 1 to 31, a weekly or
    fortnightly bill whose creation time no [Date] can hold, and a bill of
    any other frequency.  The total of a list is that of the list without
    such a bill, for every fuel and every range. *)
Theorem unreadable_bill_is_passed_over
    (fuel : nat) (pre post : list Bill) (bill : Bill)
    (startDate endDate : Date) :
  unreadable bill ->
  calculateUpcomingBillsTotal fuel (pre ++ bill :: post) startDate endDate
  = calculateUpcomingBillsTotal fuel (pre ++ post) startDate endDate.
Proof.
  intros Hbad. unfold calculateUpcomingBillsTotal.
  destruct (startOfDay startDate) as [rs|]; [|reflexivity].
  destruct (endOfDay endDate) as [re|]; [|reflexivity].
  rewrite !forEachBill_app.
  destruct (forEachBill fuel rs re pre 0) as [t|]; [|reflexivity].
  cbn [forEachBill].
  assert (Hp : processBill fuel rs re bill t = Some t).
  { unfold processBill.
    destruct (PrimFloat.is_nan (amount bill)) eqn:Hnan; [reflexivity|].
    destruct Hbad as [H|[H|[H|[H|H]]]].
    - congruence.
    - destruct H as (-> & H).
      change (String.eqb "one-off" "one-off") with true. cbv iota.
      destruct H as [->|(ts & -> & Hts)]; [reflexivity|].
      unfold TimeClip. destruct (Z.leb_spec (Z.abs ts) maxTime);
        [lia | reflexivity].
    - destruct H as (-> & H).
      change (String.eqb "monthly" "one-off") with false.
      change (String.eqb "monthly" "monthly") with true. cbv iota.
      destruct H as [->|(d & -> & Hd)]; [reflexivity|].
      destruct (Z.ltb_spec d 1); [reflexivity|].
      destruct (Z.ltb_spec 31 d); [reflexivity | lia].
    - destruct H as (H & Hc).
      assert (E : TimeClip (_creationTime bill) = None).
      { unfold TimeClip.
        destruct (Z.leb_spec (Z.abs (_creationTime bill)) maxTime);
          [lia | reflexivity]. }
      destruct H as [-> | ->].
      + change (String.eqb "weekly" "one-off") with false.
        change (String.eqb "weekly" "monthly") with false.
        change (String.eqb "weekly" "weekly") with true.
        cbn [orb]. now rewrite E.
      + change (String.eqb "fortnightly" "one-off") with false.
        change (String.eqb "fortnightly" "monthly") with false.
        change (String.eqb "fortnightly" "weekly") with false.
        change (String.eqb "fortnightly" "fortnightly") with true.
        cbn [orb]. now rewrite E.
    - destruct H as (H1 & H2 & H3 & H4).
      apply String.eqb_neq in H1, H2, H3, H4.
      now rewrite H1, H2, H3, H4. }
  now rewrite Hp.
Qed.

(** A monthly bill on day 0 between two good bills. *)
Lemma unreadable_bill_is_passed_over_witness :
  let bad := mkBill "Typo" 99 "monthly" (Some 0) None defaultCreation in
  calculateUpcomingBillsTotal 8 ([loan] ++ bad :: [cancelledSub])
    (ymd 2024 4 5) (ymd 2024 4 25)
  = calculateUpcomingBillsTotal 8 ([loan] ++ [cancelledSub])
      (ymd 2024 4 5) (ymd 2024 4 25).
Proof.
  cbv zeta.
  apply (unreadable_bill_is_passed_over 8 [loan] [cancelledSub]
           (mkBill "Typo" 99 "monthly" (Some 0) None defaultCreation)).
  right. right. left. split; [reflexivity|]. right. exists 0.
  split; [reflexivity | lia].
Defined.

(** X6.  A monthly bill due on a day every month has (the 1st to the 28th) is
    counted once for each month whose such day lies between the start of the
    start date's day and the end of the end date's day.  The months are
    counted from the month of the start date; [n] is any number of them that
    reaches past the end of the range. *)
Theorem monthly_bill_is_counted_once_a_month
    (fuel : nat) (bills : list Bill) (bill : Bill) (startDate endDate : Date)
    (rangeStart rangeEnd dayOfMonth : Z) (total : float) (n : nat) :
  startOfDay startDate = Some rangeStart ->
  endOfDay endDate = Some rangeEnd ->
  rangeStart <= rangeEnd ->
  - maxTime + 31 * msPerDay <= rangeStart ->
  rangeEnd + 61 * msPerDay <= maxTime ->
  frequency bill = "monthly"%string ->
  PrimFloat.is_nan (amount bill) = false ->
  dueDate bill = Some dayOfMonth ->
  1 <= dayOfMonth <= 28 ->
  rangeEnd < monthlyOccurrence rangeStart dayOfMonth n ->
  (n <= fuel)%nat ->
  calculateUpcomingBillsTotal fuel bills startDate endDate = Returns total ->
  calculateUpcomingBillsTotal fuel (bills ++ [bill]) startDate endDate
  = Returns (addTimes
               (monthlyOccurrencesFrom rangeStart dayOfMonth
                                       rangeStart rangeEnd 0 n)
               (amount bill) total).
Proof.
  intros Hs He Hord Hlo Hhi Hf Hnan Hdue Hd Hend Hfuel Hbills.
  apply (calculateUpcomingBillsTotal_snoc fuel bills bill startDate endDate
           rangeStart rangeEnd total _ Hs He Hbills).
  now apply processBill_monthly.
Qed.

(** The loan of the test fixture (300 on the 20th) from 25 April to 20 July
    2024: 20 May, 20 June and 20 July, and not 20 April. *)
Lemma monthly_bill_is_counted_once_a_month_witness :
  calculateUpcomingBillsTotal 8 ([] ++ [loan]) (ymd 2024 4 25) (ymd 2024 7 20)
  = Returns (addTimes 3 300 0).
Proof.
  apply (monthly_bill_is_counted_once_a_month 8 [] loan
           (ymd 2024 4 25) (ymd 2024 7 20)
           (utc 2024 4 25 0 0 0 0) (utc 2024 7 20 23 59 59 999) 20 0 4%nat);
    first [by_computation | lia | split; by_computation].
Defined.

(** X7.  The two entry points of the expander agree on every input: both throw
    when either date is the Invalid Date, and otherwise
    [calculateBillsBetweenDates] is [calculateUpcomingBillsTotal]. *)
Theorem calculateBillsBetweenDates_is_calculateUpcomingBillsTotal
    (fuel : nat) (bills : list Bill) (startDate endDate : Date) :
  calculateBillsBetweenDates fuel bills startDate endDate
  = calculateUpcomingBillsTotal fuel bills startDate endDate.
Proof.
  unfold calculateBillsBetweenDates.
  destruct startDate as [s|], endDate as [e|]; try reflexivity.
  unfold calculateUpcomingBillsTotal, endOfDay, setHours.
  now destruct (startOfDay (Some s)).
Qed.



End Occurrences.

(* ================================================================= *)
(** ** Paydays and allowances: lemmas *)

Module PaydayFacts.
Import JSDate DateFns Bills PayCalculations Scenarios DateFacts BillsFacts
       Calendar Termination Schedule Production Counting CountingFacts
       Occurrences.

Lemma TimeClip_bound (t u : Z) : TimeClip t = Some u -> Z.abs u <= maxTime.
Proof.
  unfold TimeClip. destruct (Z.leb_spec (Z.abs t) maxTime) as [Hle|];
    [|discriminate].
  intros E. injection E as <-. exact Hle.
Qed.

Lemma todayOf_bound (now today : Z) :
  todayOf now = Some today -> Z.abs today <= maxTime.
Proof.
  unfold todayOf, setHours. destruct (TimeClip now); [|discriminate].
  apply TimeClip_bound.
Qed.

(** A name the map answers a number for is not the empty string. *)
Lemma day_name_not_empty (dow : string) (w : Z) :
  dayOfWeekMap_get (toLowerCase dow) = PNumber w -> String.eqb dow "" = false.
Proof.
  destruct dow; [discriminate | reflexivity].
Qed.

(** What the weekly and fortnightly branches add to today. *)
Lemma days_added (today w : Z) :
  0 <= w <= 6 ->
  exists k,
    zeroToSeven (daysUntil (Some w) (getDay (Some today))) = Some k
    /\ 1 <= k <= 7
    /\ WeekDay (today + k * msPerDay) = w
    /\ (forall j, 1 <= j < k -> WeekDay (today + j * msPerDay) <> w).
Proof.
  intros Hw. cbn [getDay option_map].
  destruct (days_to_add (WeekDay today) w (WeekDay_range today) Hw)
    as (k & Hk & Hrange & Hday & Hmin & _).
  exists k. split; [exact Hk|]. split; [exact Hrange|]. split.
  - now rewrite WeekDay_shift.
  - intros j Hj. rewrite WeekDay_shift. now apply Hmin.
Qed.

(** The schedule loop dates its items a fixed number of days apart. *)
Lemma scheduleLoop_dates (fuel : nat) (bills : list Bill) (iv : Z)
    (amt : float) (left : nat) :
  iv <> 0 ->
  forall t schedule,
    scheduleLoop fuel bills iv amt left (Some t) = Returns schedule ->
    forall i item, nth_error schedule i = Some item ->
      allowanceDate item = Some (t + Z.of_nat i * iv * msPerDay).
Proof.
  intros Hiv. induction left as [|k IH]; intros t schedule H i item Hi;
    cbn [scheduleLoop] in H.
  - injection H as <-. destruct i; discriminate.
  - destruct (calculateBillsBetweenDates fuel bills (Some t)
                (addDays (Some t) iv)) as [r| |]; try discriminate.
    destruct (scheduleLoop fuel bills iv amt k (addDays (Some t) iv))
      as [tl| |] eqn:E; try discriminate.
    injection H as <-. destruct i as [|i'].
    + injection Hi as <-. cbn. f_equal. lia.
    + cbn [nth_error] in Hi.
      destruct tl as [|item' tl']; [destruct i'; discriminate|].
      destruct (scheduleLoop_first _ _ _ _ _ _ _ _ E) as (_ & t' & Ht').
      rewrite Ht' in E. rewrite (IH t' _ E i' item Hi).
      rewrite addDays_Some in Ht' by exact Hiv.
      apply TimeClip_Some in Ht'. subst t'. f_equal.
      rewrite Nat2Z.inj_succ. lia.
Qed.

(** The period of an item runs from its date to the date of the next
    allowance, and its bills are the expander's total for that range. *)
Lemma scheduleLoop_period (fuel : nat) (bills : list Bill) (iv : Z)
    (amt : float) (left : nat) :
  iv <> 0 ->
  forall t schedule,
    scheduleLoop fuel bills iv amt left (Some t) = Returns schedule ->
    forall i item, nth_error schedule i = Some item ->
      calculateUpcomingBillsTotal fuel bills
        (Some (t + Z.of_nat i * iv * msPerDay))
        (Some (t + (Z.of_nat i + 1) * iv * msPerDay))
      = Returns (billsDueInPeriod item).
Proof.
  intros Hiv t schedule H i item Hi.
  pose proof (scheduleLoop_dates fuel bills iv amt left Hiv t schedule H
                i item Hi) as Hdate.
  destruct (scheduleLoop_items fuel bills iv amt left _ _ H item
              (nth_error_In _ _ Hi)) as (_ & _ & Hbills).
  rewrite Hdate in Hbills.
  destruct (calculateBillsBetweenDates_Returns _ _ _ _ _ Hbills)
    as (ts & te & _ & Hte).
  rewrite Hte in Hbills. cbn [calculateBillsBetweenDates] in Hbills.
  rewrite addDays_Some in Hte by exact Hiv.
  apply TimeClip_Some in Hte. subst te.
  rewrite <- Hbills. do 2 f_equal. lia.
Qed.

(** What [generateProjectedSchedule] runs once its checks have passed: the
    loop, from some first date, with the interval of the frequency. *)
Lemma generateProjectedSchedule_loop (fuel : nat) (now : Z)
    (settings : Settings) (bills : list Bill) (count : Z)
    (schedule : list ProjectedScheduleItem) :
  generateProjectedSchedule fuel now settings bills count = Returns schedule ->
  schedule <> [] ->
  exists freq amt iv first,
    desiredPayFrequency settings = Some freq
    /\ desiredPayAmount settings = Some amt
    /\ (toLowerCase freq = "weekly"%string /\ iv = 7
        \/ toLowerCase freq = "fortnightly"%string /\ iv = 14)
    /\ scheduleLoop fuel bills iv amt (Z.to_nat count) (Some first)
       = Returns schedule.
Proof.
  unfold generateProjectedSchedule.
  destruct settings as [[freq|] [dow|] [amt|]]; cbn [desiredPayFrequency
    desiredPayDayOfWeek desiredPayAmount]; try (intros H; injection H as <-;
    intros Hne; now contradiction Hne).
  destruct (String.eqb freq "" || String.eqb dow "");
    [intros H; injection H as <-; intros Hne; now contradiction Hne|].
  assert (Hgo : forall start iv,
            (toLowerCase freq = "weekly"%string /\ iv = 7
             \/ toLowerCase freq = "fortnightly"%string /\ iv = 14) ->
            scheduleLoop fuel bills iv amt (Z.to_nat count) start
            = Returns schedule ->
            schedule <> [] ->
            exists freq0 amt0 iv0 first,
              Some freq = Some freq0 /\ Some amt = Some amt0
              /\ (toLowerCase freq0 = "weekly"%string /\ iv0 = 7
                  \/ toLowerCase freq0 = "fortnightly"%string /\ iv0 = 14)
              /\ scheduleLoop fuel bills iv0 amt0 (Z.to_nat count)
                   (Some first) = Returns schedule).
  { intros start iv Hiv H Hne.
    destruct schedule as [|item rest]; [now contradiction Hne|].
    destruct (scheduleLoop_first _ _ _ _ _ _ _ _ H) as (_ & first & Hfirst).
    rewrite Hfirst in H. exists freq, amt, iv, first. auto. }
  destruct (dayOfWeekMap_get (toLowerCase dow)) as [w| |];
    [| |intros H; injection H as <-; intros Hne; now contradiction Hne];
    (destruct (String.eqb_spec (toLowerCase freq) "weekly") as [Ew|_];
     [apply Hgo; left; now split|]);
    (destruct (String.eqb_spec (toLowerCase freq) "fortnightly") as [Ef|_];
     [apply Hgo; right; now split|]);
    intros H; injection H as <-; intros Hne; now contradiction Hne.
Qed.

(** A one-off bill alone, over a range the expander returns on. *)
Lemma one_off_bill_alone (fuel : nat) (bill : Bill) (s e due : Z)
    (r : float) :
  Day s <= Day e ->
  frequency bill = "one-off"%string ->
  PrimFloat.is_nan (amount bill) = false ->
  dueDate bill = Some due ->
  Z.abs due <= maxTime ->
  calculateUpcomingBillsTotal fuel [bill] (Some s) (Some e) = Returns r ->
  r = if (Day s <=? Day due) && (Day due <=? Day e)
      then (0 + amount bill)%float else 0%float.
Proof.
  intros Hse Hf Hnan Hdue Hd. pose proof msPerDay_pos as Hpos.
  unfold calculateUpcomingBillsTotal.
  destruct (startOfDay (Some s)) as [rs|] eqn:Es; [|discriminate].
  destruct (endOfDay (Some e)) as [re|] eqn:Ee; [|discriminate].
  unfold startOfDay, endOfDay, setHours in Es, Ee.
  change (((0 * 60 + 0) * 60 + 0) * 1000 + 0) with 0 in Es.
  change (((23 * 60 + 59) * 60 + 59) * 1000 + 999) with (msPerDay - 1) in Ee.
  apply TimeClip_Some in Es, Ee. unfold MakeDate in Es, Ee.
  rewrite Z.add_0_r in Es.
  cbn [forEachBill]. unfold processBill. rewrite Hnan, Hf, Hdue.
  change (String.eqb "one-off" "one-off") with true. cbv iota.
  rewrite TimeClip_valid by exact Hd. unfold isWithinInterval.
  pose proof (within_days s e due) as Hw.
  assert (Hord : rs <= re) by (subst rs re; nia).
  rewrite Z.min_l, Z.max_r by lia. subst rs re.
  destruct (Z.leb_spec (Day s * msPerDay) due);
    destruct (Z.leb_spec due (Day e * msPerDay + (msPerDay - 1)));
    destruct (Z.leb_spec (Day s) (Day due));
    destruct (Z.leb_spec (Day due) (Day e));
    cbn [andb]; intros Hr; injection Hr as <-; try reflexivity; lia.
Qed.

(** Lower-casing keeps a string empty or not. *)
Lemma toLowerCase_empty (s1 s2 : string) :
  toLowerCase s1 = toLowerCase s2 ->
  String.eqb s1 "" = String.eqb s2 "".
Proof. destruct s1, s2; try discriminate; reflexivity. Qed.

End PaydayFacts.

(* ================================================================= *)
(** ** The next actual payday *)

Module Paydays.
Import JSDate DateFns Bills PayCalculations Scenarios DateFacts BillsFacts
       Calendar Termination Schedule Production Counting CountingFacts
       NextPayday Occurrences Inputs PaydayFacts.

(** X9.  The next weekly payday is the first day strictly after today that falls
    on the pay weekday: between one and seven days ahead, a full week when
    today is such a day.  The day name is read without regard to case. *)
Theorem next_weekly_payday_is_the_next_such_weekday
    (now today : Z) (dayOfMonth : option Z) (dow : string) (w : Z) :
  todayOf now = Some today ->
  today + 7 * msPerDay <= maxTime ->
  dayOfWeekMap_get (toLowerCase dow) = PNumber w ->
  exists k,
    calculateNextPayday now (Some "weekly"%string) dayOfMonth (Some dow)
    = Some (Some (today + k * msPerDay))
    /\ 1 <= k <= 7
    /\ WeekDay (today + k * msPerDay) = w
    /\ (forall j, 1 <= j < k -> WeekDay (today + j * msPerDay) <> w).
Proof.
  intros Htoday Hhi Hw. pose proof msPerDay_pos as Hpos.
  pose proof (todayOf_bound now today Htoday) as Hb.
  destruct (days_added today w (dayOfWeekMap_get_range _ _ Hw))
    as (k & Hk & Hrange & Hday & Hmin).
  exists k. split; [|now repeat split].
  unfold calculateNextPayday.
  change (String.eqb "weekly" "") with false.
  change (String.eqb "weekly" "monthly") with false.
  change (String.eqb "weekly" "fortnightly") with false.
  change (String.eqb "weekly" "weekly") with true. cbv iota.
  rewrite (day_name_not_empty dow w Hw), Hw, Htoday.
  cbn [propertyToNumber]. rewrite Hk, setDate_plus.
  rewrite TimeClip_valid by nia. reflexivity.
Qed.

(** Asked on Monday 15 April 2024 for Mondays: 22 April. *)
Lemma next_weekly_payday_is_the_next_such_weekday_witness :
  exists k,
    calculateNextPayday (utc 2024 4 15 10 0 0 0) (Some "weekly"%string) None
      (Some "Monday"%string)
    = Some (Some (utc 2024 4 15 0 0 0 0 + k * msPerDay))
    /\ 1 <= k <= 7
    /\ WeekDay (utc 2024 4 15 0 0 0 0 + k * msPerDay) = 1
    /\ (forall j, 1 <= j < k ->
          WeekDay (utc 2024 4 15 0 0 0 0 + j * msPerDay) <> 1).
Proof.
  apply (next_weekly_payday_is_the_next_such_weekday
           (utc 2024 4 15 10 0 0 0) (utc 2024 4 15 0 0 0 0) None "Monday" 1);
    by_computation.
Defined.

(** X10.  The next fortnightly payday is exactly fourteen days after the next
    weekly payday for the same weekday: 15 to 21 days ahead, never the
    coming occurrence of the pay weekday. *)
Theorem next_fortnightly_payday_is_two_weeks_after_the_weekly_one
    (now today : Z) (dayOfMonth : option Z) (dow : string) (w : Z) :
  todayOf now = Some today ->
  today + 21 * msPerDay <= maxTime ->
  dayOfWeekMap_get (toLowerCase dow) = PNumber w ->
  exists weekly,
    calculateNextPayday now (Some "weekly"%string) dayOfMonth (Some dow)
    = Some (Some weekly)
    /\ calculateNextPayday now (Some "fortnightly"%string) dayOfMonth
         (Some dow)
       = Some (Some (weekly + 14 * msPerDay))
    /\ today + 15 * msPerDay <= weekly + 14 * msPerDay
       <= today + 21 * msPerDay
    /\ WeekDay (weekly + 14 * msPerDay) = w.
Proof.
  intros Htoday Hhi Hw. pose proof msPerDay_pos as Hpos.
  pose proof (todayOf_bound now today Htoday) as Hb.
  destruct (days_added today w (dayOfWeekMap_get_range _ _ Hw))
    as (k & Hk & Hrange & Hday & Hmin).
  exists (today + k * msPerDay).
  unfold calculateNextPayday.
  change (String.eqb "weekly" "") with false.
  change (String.eqb "weekly" "monthly") with false.
  change (String.eqb "weekly" "fortnightly") with false.
  change (String.eqb "weekly" "weekly") with true.
  change (String.eqb "fortnightly" "") with false.
  change (String.eqb "fortnightly" "monthly") with false.
  change (String.eqb "fortnightly" "fortnightly") with true. cbv iota.
  rewrite (day_name_not_empty dow w Hw), Hw, Htoday.
  cbn [propertyToNumber]. rewrite Hk, !setDate_plus.
  rewrite (TimeClip_valid (today + k * msPerDay)) by nia.
  rewrite setDate_plus, TimeClip_valid by nia.
  split; [reflexivity|]. split; [reflexivity|]. split; [nia|].
  rewrite WeekDay_shift, Hday.
  pose proof (dayOfWeekMap_get_range _ _ Hw).
  Z.div_mod_to_equations. lia.
Qed.

(** Asked on Monday 15 April 2024 for Fridays: 19 April weekly, 3 May
    fortnightly. *)
Lemma next_fortnightly_payday_is_two_weeks_after_the_weekly_one_witness :
  exists weekly,
    calculateNextPayday (utc 2024 4 15 10 0 0 0) (Some "weekly"%string) None
      (Some "friday"%string)
    = Some (Some weekly)
    /\ calculateNextPayday (utc 2024 4 15 10 0 0 0)
         (Some "fortnightly"%string) None (Some "friday"%string)
       = Some (Some (weekly + 14 * msPerDay))
    /\ utc 2024 4 15 0 0 0 0 + 15 * msPerDay <= weekly + 14 * msPerDay
       <= utc 2024 4 15 0 0 0 0 + 21 * msPerDay
    /\ WeekDay (weekly + 14 * msPerDay) = 5.
Proof.
  apply (next_fortnightly_payday_is_two_weeks_after_the_weekly_one
           (utc 2024 4 15 10 0 0 0) (utc 2024 4 15 0 0 0 0) None "friday" 5);
    by_computation.
Defined.

(** X11.  A day name that [dayOfWeekMap] inherits from [Object.prototype]
    ("constructor", "toString", ...) passes the check against [undefined]:
    the weekly and fortnightly branches then answer a [Date] object that
    holds the Invalid Date, not [null]. *)
Theorem next_payday_is_invalid_for_an_inherited_day_name
    (now : Z) (freq : string) (dayOfMonth : option Z) (dow : string) :
  freq = "weekly"%string \/ freq = "fortnightly"%string ->
  dayOfWeekMap_get (toLowerCase dow) = PInherited ->
  calculateNextPayday now (Some freq) dayOfMonth (Some dow) = Some None.
Proof.
  intros Hf Hw.
  assert (Hne : String.eqb dow "" = false)
    by (destruct dow; [discriminate | reflexivity]).
  unfold calculateNextPayday.
  destruct Hf as [-> | ->].
  - change (String.eqb "weekly" "") with false.
    change (String.eqb "weekly" "monthly") with false.
    change (String.eqb "weekly" "fortnightly") with false.
    change (String.eqb "weekly" "weekly") with true. cbv iota.
    rewrite Hne, Hw. cbn [propertyToNumber daysUntil zeroToSeven].
    destruct (todayOf now); reflexivity.
  - change (String.eqb "fortnightly" "") with false.
    change (String.eqb "fortnightly" "monthly") with false.
    change (String.eqb "fortnightly" "fortnightly") with true. cbv iota.
    rewrite Hne, Hw. cbn [propertyToNumber daysUntil zeroToSeven].
    destruct (todayOf now); reflexivity.
Qed.

Lemma next_payday_is_invalid_for_an_inherited_day_name_witness :
  calculateNextPayday (utc 2024 4 15 10 0 0 0) (Some "weekly"%string) None
    (Some "Constructor"%string) = Some None.
Proof.
  apply (next_payday_is_invalid_for_an_inherited_day_name
           (utc 2024 4 15 10 0 0 0) "weekly" None "Constructor");
    [left; reflexivity | by_computation].
Defined.


(** X12.  [calculateNextPayday] answers [null] exactly on the inputs it has no
    payday for, whatever the day it is asked on. *)
Theorem next_payday_is_null_exactly_on_refused_input
    (now : Z) (frequency : option string) (dayOfMonth : option Z)
    (dayOfWeek : option string) :
  calculateNextPayday now frequency dayOfMonth dayOfWeek = None
  <-> noPayday frequency dayOfMonth dayOfWeek.
Proof.
  unfold calculateNextPayday, noPayday.
  destruct frequency as [f|]; [|tauto].
  destruct (String.eqb_spec f "") as [->|Hne].
  { split; [intros _ | reflexivity].
    right. right. repeat split; discriminate. }
  destruct (String.eqb_spec f "monthly") as [->|Hm].
  { destruct dayOfMonth as [d|]; [|tauto].
    destruct (Z.eqb_spec d 0); destruct (Z.leb_spec 1 d);
      destruct (Z.leb_spec d 31); cbn [negb andb];
      split; intros E; try discriminate E; try reflexivity;
      try (left; split; [reflexivity | lia]);
      exfalso; intuition (try discriminate; try congruence; try lia). }
  destruct (String.eqb_spec f "fortnightly") as [->|Hf].
  { destruct dayOfWeek as [dow|].
    - destruct (String.eqb_spec dow "") as [->|Hd];
        [|destruct (dayOfWeekMap_get (toLowerCase dow)) eqn:Eg];
        split; intros E; try discriminate E; try reflexivity;
        try (right; left; split; [now right | tauto]);
        exfalso; intuition (try discriminate; try congruence).
    - split; [intros _; right; left; split; [now right | exact I]
             | reflexivity]. }
  destruct (String.eqb_spec f "weekly") as [->|Hw].
  { destruct dayOfWeek as [dow|].
    - destruct (String.eqb_spec dow "") as [->|Hd];
        [|destruct (dayOfWeekMap_get (toLowerCase dow)) eqn:Eg];
        split; intros E; try discriminate E; try reflexivity;
        try (right; left; split; [now left | tauto]);
        exfalso; intuition (try discriminate; try congruence).
    - split; [intros _; right; left; split; [now left | exact I]
             | reflexivity]. }
  split; [intros _; right; right; now repeat split | reflexivity].
Qed.

(** Asked on 15 December 2024 for the 10th: 10 January 2025. *)
Lemma next_payday_when_every_month_has_the_day_witness :
  exists r,
    calculateNextPayday (utc 2024 12 15 10 0 0 0) (Some "monthly"%string)
      (Some 10) None
    = Some (Some r)
    /\ DateFromTime r = 10
    /\ utc 2024 12 15 0 0 0 0 <= r
    /\ (DateFromTime (utc 2024 12 15 0 0 0 0) <= 10 ->
        YearFromTime r = YearFromTime (utc 2024 12 15 0 0 0 0)
        /\ MonthFromTime r = MonthFromTime (utc 2024 12 15 0 0 0 0))
    /\ (10 < DateFromTime (utc 2024 12 15 0 0 0 0) ->
        YearFromTime r
        = YearFromTime (utc 2024 12 15 0 0 0 0)
          + (MonthFromTime (utc 2024 12 15 0 0 0 0) + 1) / 12
        /\ MonthFromTime r
           = (MonthFromTime (utc 2024 12 15 0 0 0 0) + 1) mod 12).
Proof.
  apply (next_payday_when_every_month_has_the_day
           (utc 2024 12 15 10 0 0 0) (utc 2024 12 15 0 0 0 0) 10);
    first [by_computation | split; by_computation].
Defined.

End Paydays.

(* ================================================================= *)
(** ** The projected schedule *)

Module Allowances.
Import JSDate DateFns Bills PayCalculations Scenarios DateFacts BillsFacts
       Calendar Termination Schedule Production NextPayday Counting
       CountingFacts Occurrences Inputs PaydayFacts.

(** X14.  The allowances of a schedule are evenly spaced: seven days apart for a
    weekly allowance and fourteen for a fortnightly one (the frequency is
    read without regard to case), and there are [count] of them. *)
Theorem allowances_are_evenly_spaced
    (fuel : nat) (now : Z) (settings : Settings) (bills : list Bill)
    (count : Z) (schedule : list ProjectedScheduleItem) :
  generateProjectedSchedule fuel now settings bills count = Returns schedule ->
  schedule <> [] ->
  exists freq iv first,
    desiredPayFrequency settings = Some freq
    /\ (toLowerCase freq = "weekly"%string /\ iv = 7
        \/ toLowerCase freq = "fortnightly"%string /\ iv = 14)
    /\ List.length schedule = Z.to_nat count
    /\ forall i item, nth_error schedule i = Some item ->
         allowanceDate item = Some (first + Z.of_nat i * iv * msPerDay).
Proof.
  intros H Hne.
  destruct (generateProjectedSchedule_loop _ _ _ _ _ _ H Hne)
    as (freq & amt & iv & first & Hf & _ & Hiv & Hloop).
  exists freq, iv, first. split; [exact Hf|]. split; [exact Hiv|]. split.
  - now apply scheduleLoop_length in Hloop.
  - apply (scheduleLoop_dates fuel bills iv amt (Z.to_nat count));
      [|exact Hloop].
    destruct Hiv as [(_ & ->)|(_ & ->)]; discriminate.
Qed.

(** Three fortnightly allowances asked for on Monday 15 April 2024: Mondays
    22 April, 6 May and 20 May. *)
Lemma allowances_are_evenly_spaced_witness :
  exists freq iv first,
    desiredPayFrequency mondays = Some freq
    /\ (toLowerCase freq = "weekly"%string /\ iv = 7
        \/ toLowerCase freq = "fortnightly"%string /\ iv = 14)
    /\ List.length [mkItem (ymd 2024 4 22) 2307.69 0 2307.69;
                    mkItem (ymd 2024 5 6) 2307.69 0 2307.69;
                    mkItem (ymd 2024 5 20) 2307.69 0 2307.69]
       = Z.to_nat 3
    /\ forall i item,
         nth_error [mkItem (ymd 2024 4 22) 2307.69 0 2307.69;
                    mkItem (ymd 2024 5 6) 2307.69 0 2307.69;
                    mkItem (ymd 2024 5 20) 2307.69 0 2307.69] i = Some item ->
         allowanceDate item = Some (first + Z.of_nat i * iv * msPerDay).
Proof.
  apply (allowances_are_evenly_spaced 0 (utc 2024 4 15 10 0 0 0) mondays []
           3).
  - vm_compute. reflexivity.
  - discriminate.
Defined.

(** X15.  The periods of two consecutive allowances share a day: a one-off bill
    due on the day of an allowance that is not the first is counted in the
    period of that allowance and in the period of the one before. *)
Theorem bill_due_on_an_allowance_day_is_counted_twice
    (fuel : nat) (now : Z) (settings : Settings) (bill : Bill) (count : Z)
    (schedule : list ProjectedScheduleItem) (i : nat)
    (before item : ProjectedScheduleItem) (due t : Z) :
  generateProjectedSchedule fuel now settings [bill] count = Returns schedule ->
  nth_error schedule i = Some before ->
  nth_error schedule (S i) = Some item ->
  frequency bill = "one-off"%string ->
  PrimFloat.is_nan (amount bill) = false ->
  dueDate bill = Some due ->
  Z.abs due <= maxTime ->
  allowanceDate item = Some t ->
  Day due = Day t ->
  billsDueInPeriod before = (0 + amount bill)%float
  /\ billsDueInPeriod item = (0 + amount bill)%float.
Proof.
  intros H Hb Hi Hf Hnan Hdue Hd Ht Hday. pose proof msPerDay_pos as Hpos.
  assert (Hne : schedule <> []) by (destruct schedule; discriminate).
  destruct (generateProjectedSchedule_loop _ _ _ _ _ _ H Hne)
    as (freq & amt & iv & first & _ & _ & Hiv & Hloop).
  assert (Hiv' : iv = 7 \/ iv = 14)
    by (destruct Hiv as [(_ & E)|(_ & E)]; auto).
  assert (Hnz : iv <> 0) by lia.
  pose proof (scheduleLoop_dates _ _ _ _ _ Hnz _ _ Hloop _ _ Hi) as Hdate.
  rewrite Ht, Nat2Z.inj_succ in Hdate.
  assert (Et : t = first + (Z.of_nat i + 1) * iv * msPerDay)
    by (injection Hdate as ->; lia).
  pose proof (scheduleLoop_period _ _ _ _ _ Hnz _ _ Hloop _ _ Hb) as Pb.
  pose proof (scheduleLoop_period _ _ _ _ _ Hnz _ _ Hloop _ _ Hi) as Pi.
  rewrite Nat2Z.inj_succ in Pi.
  replace (first + (Z.of_nat i + 1) * iv * msPerDay) with t in Pb by lia.
  replace (first + Z.succ (Z.of_nat i) * iv * msPerDay) with t in Pi by lia.
  replace (first + (Z.succ (Z.of_nat i) + 1) * iv * msPerDay)
    with (t + iv * msPerDay) in Pi by lia.
  replace (first + Z.of_nat i * iv * msPerDay)
    with (t + - iv * msPerDay) in Pb by lia.
  assert (Dm : Day (t + - iv * msPerDay) = Day t - iv)
    by (unfold Day; rewrite Z.div_add by lia; lia).
  assert (Dp : Day (t + iv * msPerDay) = Day t + iv)
    by (unfold Day; rewrite Z.div_add by lia; lia).
  split.
  - assert (Ho : Day (t + - iv * msPerDay) <= Day t) by lia.
    rewrite (one_off_bill_alone fuel bill _ _ due _ Ho Hf Hnan Hdue Hd Pb).
    rewrite Dm, Hday.
    destruct (Z.leb_spec (Day t - iv) (Day t)); [|lia].
    destruct (Z.leb_spec (Day t) (Day t)); [reflexivity | lia].
  - assert (Ho : Day t <= Day (t + iv * msPerDay)) by lia.
    rewrite (one_off_bill_alone fuel bill _ _ due _ Ho Hf Hnan Hdue Hd Pi).
    rewrite Dp, Hday.
    destruct (Z.leb_spec (Day t) (Day t)); [|lia].
    destruct (Z.leb_spec (Day t) (Day t + iv)); [reflexivity | lia].
Qed.

(** A gig of 80 due on Monday 6 May 2024, the day of the second allowance:
    it is taken from the first allowance and from the second. *)
Lemma bill_due_on_an_allowance_day_is_counted_twice_witness :
  billsDueInPeriod (mkItem (ymd 2024 4 22) 2307.69 80 2227.69)
  = (0 + 80)%float
  /\ billsDueInPeriod (mkItem (ymd 2024 5 6) 2307.69 80 2227.69)
     = (0 + 80)%float.
Proof.
  apply (bill_due_on_an_allowance_day_is_counted_twice 0
           (utc 2024 4 15 10 0 0 0) mondays
           (mkBill "Gig" 80 "one-off" (Some (utc 2024 5 6 18 0 0 0)) None
                   defaultCreation)
           2
           [mkItem (ymd 2024 4 22) 2307.69 80 2227.69;
            mkItem (ymd 2024 5 6) 2307.69 80 2227.69]
           0 _ _ (utc 2024 5 6 18 0 0 0) (utc 2024 5 6 0 0 0 0));
    by_computation.
Defined.

(** X16.  The schedule reads the frequency and the day name without regard to
    case: settings that differ only in the case of these two give the same
    schedule. *)
Theorem schedule_ignores_the_case_of_names
    (fuel : nat) (now : Z) (bills : list Bill) (count : Z)
    (freq freq' dow dow' : string) (amt : float) :
  toLowerCase freq = toLowerCase freq' ->
  toLowerCase dow = toLowerCase dow' ->
  generateProjectedSchedule fuel now
    (mkSettings (Some freq) (Some dow) (Some amt)) bills count
  = generateProjectedSchedule fuel now
      (mkSettings (Some freq') (Some dow') (Some amt)) bills count.
Proof.
  intros Hf Hd. unfold generateProjectedSchedule.
  cbn [desiredPayFrequency desiredPayDayOfWeek desiredPayAmount].
  rewrite (toLowerCase_empty freq freq' Hf), (toLowerCase_empty dow dow' Hd).
  now rewrite Hf, Hd.
Qed.

Lemma schedule_ignores_the_case_of_names_witness :
  generateProjectedSchedule 8 (utc 2024 4 15 10 0 0 0)
    (mkSettings (Some "Weekly"%string) (Some "TUESDAY"%string)
                (Some 100%float)) testBills 2
  = generateProjectedSchedule 8 (utc 2024 4 15 10 0 0 0)
      (mkSettings (Some "weekly"%string) (Some "tuesday"%string)
                  (Some 100%float)) testBills 2.
Proof.
  apply (schedule_ignores_the_case_of_names 8 (utc 2024 4 15 10 0 0 0)
           testBills 2 "Weekly" "weekly" "TUESDAY" "tuesday" 100);
    reflexivity.
Defined.

(** [calculateNextPayday], by contrast, compares the frequency as it is
    written: "Weekly" is an unsupported frequency, and the answer is
    [null] where the schedule is produced. *)
Lemma next_payday_reads_the_frequency_as_written :
  calculateNextPayday (utc 2024 4 15 10 0 0 0) (Some "Weekly"%string) None
    (Some "TUESDAY"%string) = None
  /\ calculateNextPayday (utc 2024 4 15 10 0 0 0) (Some "weekly"%string) None
       (Some "TUESDAY"%string) = Some (ymd 2024 4 16).
Proof. split; vm_compute; reflexivity. Qed.

End Allowances.

(* ================================================================= *)
(** ** The bills of the users: lemmas *)

Module ConvexBillsFacts.
Import JSDate DateFns Bills Convex ConvexBills.

Lemma get_Some (db : BillsTable) (id : nat) (d : BillDoc) :
  get db id = Some d -> In d db /\ _id d = id.
Proof.
  unfold get. intros H. apply find_some in H as (Hin & Heq).
  split; [exact Hin | now apply Nat.eqb_eq].
Qed.

Lemma newId_fresh (db : BillsTable) (d : BillDoc) :
  In d db -> (_id d < newId (map _id db))%nat.
Proof.
  unfold newId. induction db as [|x rest IH]; intros Hin; [destruct Hin|].
  cbn [map fold_right]. destruct Hin as [->|Hin]; [lia|].
  specialize (IH Hin). lia.
Qed.

(** In a well-formed table a document is known by its identifier. *)
Lemma same_id (db : BillsTable) (d e : BillDoc) :
  distinctIds db -> In d db -> In e db -> _id d = _id e -> d = e.
Proof.
  unfold distinctIds. induction db as [|x rest IH]; intros Hnd Hd He Hid;
    [destruct Hd|].
  cbn [map] in Hnd. apply NoDup_cons_iff in Hnd as (Hx & Hrest).
  destruct Hd as [<-|Hd], He as [<-|He].
  - reflexivity.
  - exfalso. apply Hx. rewrite Hid. now apply in_map.
  - exfalso. apply Hx. rewrite <- Hid. now apply in_map.
  - now apply IH.
Qed.

Lemma patch_ids (db : BillsTable) (billId : nat) (name : option string)
    (amount : option float) (frequency : option string)
    (dueDate : option Z) (isActive : option bool) :
  map _id (patch db billId name amount frequency dueDate isActive)
  = map _id db.
Proof.
  unfold patch. rewrite map_map. apply map_ext. intros d.
  now destruct (Nat.eqb (_id d) billId).
Qed.

(** A patch leaves the documents of the other users where they were. *)
Lemma patch_other_user (db : BillsTable) (billId : nat) (owner v : string)
    (name : option string) (amount : option float)
    (frequency : option string) (dueDate : option Z)
    (isActive : option bool) :
  (forall d, In d db -> _id d = billId -> userId d = owner) ->
  owner <> v ->
  filter (byUserId v) (patch db billId name amount frequency dueDate isActive)
  = filter (byUserId v) db.
Proof.
  intros Hown Hv. unfold patch.
  induction db as [|x rest IH]; [reflexivity|].
  cbn [map filter].
  rewrite IH by (intros d Hd; apply Hown; now right).
  destruct (Nat.eqb_spec (_id x) billId) as [E|_]; [|reflexivity].
  assert (Hx : byUserId v x = false).
  { unfold byUserId. rewrite (Hown x (or_introl eq_refl) E).
    now apply String.eqb_neq. }
  assert (Hp : byUserId v (patched name amount frequency dueDate isActive x)
               = false) by exact Hx.
  now rewrite Hx, Hp.
Qed.

Lemma delete_other_user (db : BillsTable) (billId : nat) (owner v : string) :
  (forall d, In d db -> _id d = billId -> userId d = owner) ->
  owner <> v ->
  filter (byUserId v) (filter (fun d => negb (Nat.eqb (_id d) billId)) db)
  = filter (byUserId v) db.
Proof.
  intros Hown Hv. induction db as [|x rest IH]; [reflexivity|].
  cbn [filter].
  specialize (IH (fun d Hd => Hown d (or_intror Hd))).
  destruct (Nat.eqb_spec (_id x) billId) as [E|_]; cbn [negb filter].
  - unfold byUserId at 2. rewrite (Hown x (or_introl eq_refl) E).
    destruct (String.eqb_spec owner v); [contradiction | exact IH].
  - now rewrite IH.
Qed.

(** The bill an authorised mutation changes belongs to the caller. *)
Lemma owner_of_the_bill (db : BillsTable) (billId : nat) (uid : string)
    (existingBill : BillDoc) :
  distinctIds db ->
  get db billId = Some existingBill ->
  negb (String.eqb (userId existingBill) uid) = false ->
  forall d, In d db -> _id d = billId -> userId d = uid.
Proof.
  intros Hwf Hget Hown d Hd Hid.
  apply get_Some in Hget as (Hin & Hid').
  rewrite (same_id db d existingBill Hwf Hd Hin) by congruence.
  apply negb_false_iff in Hown. now apply String.eqb_eq.
Qed.

(** Marking a bill inactive and deleting it leave the same active bills. *)
Lemma deactivated_is_not_listed (db : BillsTable) (billId : nat) (v : string) :
  filter notInactive
    (filter (byUserId v) (patch db billId None None None None (Some false)))
  = filter notInactive
      (filter (byUserId v)
              (filter (fun d => negb (Nat.eqb (_id d) billId)) db)).
Proof.
  unfold patch. induction db as [|x rest IH]; [reflexivity|].
  cbn [map filter].
  destruct (Nat.eqb_spec (_id x) billId) as [E|_]; cbn [negb filter].
  - assert (Hp : byUserId v (patched None None None None (Some false) x)
                 = byUserId v x) by reflexivity.
    rewrite Hp. destruct (byUserId v x); [|exact IH].
    cbn [filter].
    assert (Hn : notInactive (patched None None None None (Some false) x)
                 = false) by reflexivity.
    rewrite Hn. exact IH.
  - destruct (byUserId v x); [|exact IH].
    cbn [filter]. destruct (notInactive x); [|exact IH].
    now rewrite IH.
Qed.

End ConvexBillsFacts.

(* ================================================================= *)
(** ** The bills of the users: who changes what *)

Module Ownership.
Import JSDate DateFns Bills Convex ConvexBills Fixtures ConvexBillsFacts.

(** X17.  The three mutations keep the identifiers of a table distinct: a
    new bill gets an identifier no other document has, and a patch or a
    deletion brings no identifier in. *)
Theorem bill_mutations_keep_identifiers_distinct
    (now : Z) (db db' : BillsTable) (billId id : nat) (userId name : string)
    (amount : float) (frequency : string) (dueDate : option Z)
    (isActive : option bool) (name' : option string)
    (amount' : option float) (frequency' : option string) :
  distinctIds db ->
  addBill now db userId name amount frequency dueDate isActive
    = Committed id db'
  \/ updateBill db billId userId name' amount' frequency' dueDate isActive
     = Committed id db'
  \/ deleteBill db billId userId = Committed id db' ->
  distinctIds db'.
Proof.
  unfold distinctIds. intros Hwf [H|[H|H]].
  - unfold addBill in H.
    destruct (negb (frequencyLiteral frequency)); [discriminate|].
    destruct (String.eqb userId ""); [discriminate|].
    injection H as _ <-. rewrite map_app. cbn [map _id].
    apply NoDup_app; [exact Hwf | constructor; [intros [] | constructor] |].
    intros a Ha [<-|[]].
    apply in_map_iff in Ha as (d & Hd & Hin).
    pose proof (newId_fresh db d Hin). lia.
  - unfold updateBill in H.
    destruct (match frequency' with
              | Some f => negb (frequencyLiteral f)
              | None => false
              end); [discriminate|].
    destruct (String.eqb userId ""); [discriminate|].
    destruct (get db billId) as [e|]; [|discriminate].
    destruct (negb (String.eqb (ConvexBills.userId e) userId));
      [discriminate|].
    injection H as _ <-. now rewrite patch_ids.
  - unfold deleteBill in H.
    destruct (String.eqb userId ""); [discriminate|].
    destruct (get db billId) as [e|]; [|discriminate].
    destruct (negb (String.eqb (ConvexBills.userId e) userId));
      [discriminate|].
    injection H as _ <-.
    induction db as [|x rest IH]; [constructor|].
    cbn [map] in Hwf. apply NoDup_cons_iff in Hwf as (Hx & Hrest).
    cbn [filter]. destruct (negb (Nat.eqb (_id x) billId)).
    + cbn [map]. constructor; [|now apply IH].
      intros Hin. apply Hx. apply in_map_iff in Hin as (d & Hd & Hin).
      apply filter_In in Hin as (Hin & _). apply in_map_iff. eauto.
    + now apply IH.
Qed.


Lemma bill_mutations_keep_identifiers_distinct_witness :
  distinctIds
    (twoUsers ++ [mkBillDoc 3 "bob"
                    (mkBill "Gig" 80 "one-off" (Some 86400000) (Some true) 7)]).
Proof.
  apply (bill_mutations_keep_identifiers_distinct 7 twoUsers _ 0 3
           "bob" "Gig" 80 "one-off" (Some 86400000) None None None None).
  - repeat constructor; cbn; intuition discriminate.
  - left. reflexivity.
Defined.

(** X18.  A mutation called for one user changes no bill of another: it commits
    only on a bill the caller owns, so the active bills of every other user
    are listed as before. *)
Theorem bill_mutations_leave_other_users_alone
    (now : Z) (db db' : BillsTable) (billId id : nat)
    (userId other name : string)
    (amount : float) (frequency : string) (dueDate : option Z)
    (isActive : option bool) (name' : option string)
    (amount' : option float) (frequency' : option string) :
  distinctIds db ->
  other <> userId ->
  addBill now db userId name amount frequency dueDate isActive
    = Committed id db'
  \/ updateBill db billId userId name' amount' frequency' dueDate isActive
     = Committed id db'
  \/ deleteBill db billId userId = Committed id db' ->
  listActiveBillsByUserId db' other = listActiveBillsByUserId db other.
Proof.
  intros Hwf Hother H. unfold listActiveBillsByUserId.
  destruct (String.eqb other ""); [reflexivity|].
  do 2 f_equal. destruct H as [H|[H|H]].
  - unfold addBill in H.
    destruct (negb (frequencyLiteral frequency)); [discriminate|].
    destruct (String.eqb userId ""); [discriminate|].
    injection H as _ <-. rewrite filter_app. cbn [filter].
    unfold byUserId at 2. cbn [ConvexBills.userId].
    destruct (String.eqb_spec userId other) as [E|_];
      [now contradiction Hother | apply app_nil_r].
  - unfold updateBill in H.
    destruct (match frequency' with
              | Some f => negb (frequencyLiteral f)
              | None => false
              end); [discriminate|].
    destruct (String.eqb userId ""); [discriminate|].
    destruct (get db billId) as [e|] eqn:Hget; [|discriminate].
    destruct (negb (String.eqb (ConvexBills.userId e) userId)) eqn:Hown;
      [discriminate|].
    injection H as _ <-.
    apply (patch_other_user db billId userId other);
      [exact (owner_of_the_bill db billId userId e Hwf Hget Hown) | congruence].
  - unfold deleteBill in H.
    destruct (String.eqb userId ""); [discriminate|].
    destruct (get db billId) as [e|] eqn:Hget; [|discriminate].
    destruct (negb (String.eqb (ConvexBills.userId e) userId)) eqn:Hown;
      [discriminate|].
    injection H as _ <-.
    apply (delete_other_user db billId userId other);
      [exact (owner_of_the_bill db billId userId e Hwf Hget Hown) | congruence].
Qed.

(** Bob deletes his bill: Alice's list is as it was. *)
Lemma bill_mutations_leave_other_users_alone_witness :
  listActiveBillsByUserId
    [mkBillDoc 1 "alice"
       (mkBill "Rent" 1500 "monthly" (Some 1) (Some true) 0)] "alice"
  = listActiveBillsByUserId twoUsers "alice".
Proof.
  apply (bill_mutations_leave_other_users_alone 0 twoUsers _ 2 2 "bob" "alice"
           "" 0 "weekly" None None None None None).
  - repeat constructor; cbn; intuition discriminate.
  - discriminate.
  - right. right. reflexivity.
Defined.

(** X19.  An update or a deletion commits only for a bill that is there,
    called by its owner under a user id that is not empty; in every other
    case the mutation throws.  It returns the identifier it was given. *)
Theorem only_the_owner_updates_or_deletes
    (db : BillsTable) (billId : nat) (userId : string) (name : option string)
    (amount : option float) (frequency : option string)
    (dueDate : option Z) (isActive : option bool) (id : nat)
    (db' : BillsTable) :
  updateBill db billId userId name amount frequency dueDate isActive
    = Committed id db'
  \/ deleteBill db billId userId = Committed id db' ->
  id = billId
  /\ exists existingBill,
       get db billId = Some existingBill
       /\ ConvexBills.userId existingBill = userId
       /\ userId <> ""%string.
Proof.
  intros [H|H].
  - unfold updateBill in H.
    destruct (match frequency with
              | Some f => negb (frequencyLiteral f)
              | None => false
              end); [discriminate|].
    destruct (String.eqb_spec userId "") as [|Hne]; [discriminate|].
    destruct (get db billId) as [e|]; [|discriminate].
    destruct (String.eqb_spec (ConvexBills.userId e) userId) as [E|];
      [|discriminate].
    cbn [negb] in H. injection H as <- _. eauto.
  - unfold deleteBill in H.
    destruct (String.eqb_spec userId "") as [|Hne]; [discriminate|].
    destruct (get db billId) as [e|]; [|discriminate].
    destruct (String.eqb_spec (ConvexBills.userId e) userId) as [E|];
      [|discriminate].
    cbn [negb] in H. injection H as <- _. eauto.
Qed.

Lemma only_the_owner_updates_or_deletes_witness :
  2%nat = 2%nat
  /\ exists existingBill,
       get twoUsers 2 = Some existingBill
       /\ ConvexBills.userId existingBill = "bob"%string
       /\ "bob"%string <> ""%string.
Proof.
  apply (only_the_owner_updates_or_deletes twoUsers 2 "bob" None None None
           None None 2
           [mkBillDoc 1 "alice"
              (mkBill "Rent" 1500 "monthly" (Some 1) (Some true) 0)]).
  right. reflexivity.
Defined.

(** X20.  A bill added without [isActive], or with [isActive] true, is stored as
    active and heads the list of its user's active bills (the newest comes
    first); one added with [isActive] false is stored and not listed. *)
Theorem added_bill_is_listed_unless_inactive
    (now : Z) (db db' : BillsTable) (id : nat) (userId name : string)
    (amount : float) (frequency : string) (dueDate : option Z)
    (isActive : option bool) :
  addBill now db userId name amount frequency dueDate isActive
    = Committed id db' ->
  let flag := match isActive with Some b => b | None => true end in
  let bill := mkBillDoc id userId
                (mkBill name amount frequency dueDate (Some flag) now) in
  get db id = None
  /\ db' = db ++ [bill]
  /\ listActiveBillsByUserId db' userId
     = if flag then bill :: listActiveBillsByUserId db userId
       else listActiveBillsByUserId db userId.
Proof.
  intros H. cbv zeta. unfold addBill in H.
  destruct (negb (frequencyLiteral frequency)); [discriminate|].
  destruct (String.eqb userId "") eqn:Hne; [discriminate|].
  injection H as <- <-. split; [|split; [reflexivity|]].
  - unfold get. destruct (find _ db) as [d|] eqn:E; [|reflexivity].
    apply find_some in E as (Hin & Hid). apply Nat.eqb_eq in Hid.
    pose proof (newId_fresh db d Hin). lia.
  - unfold listActiveBillsByUserId. rewrite Hne, !filter_app. cbn [filter].
    unfold byUserId at 2. cbn [ConvexBills.userId].
    rewrite String.eqb_refl. cbn [filter].
    unfold notInactive at 2. cbn [fields Bills.isActive].
    destruct isActive as [[|]|]; cbn [app];
      rewrite ?rev_app_distr, ?app_nil_r; reflexivity.
Qed.

Lemma added_bill_is_listed_unless_inactive_witness :
  let bill := mkBillDoc 3 "bob"
                (mkBill "Gig" 80 "one-off" (Some 86400000) (Some true) 7) in
  get twoUsers 3 = None
  /\ twoUsers ++ [bill] = twoUsers ++ [bill]
  /\ listActiveBillsByUserId (twoUsers ++ [bill]) "bob"
     = if true then bill :: listActiveBillsByUserId twoUsers "bob"
       else listActiveBillsByUserId twoUsers "bob".
Proof.
  apply (added_bill_is_listed_unless_inactive 7 twoUsers _ 3 "bob" "Gig" 80
           "one-off" (Some 86400000) None).
  reflexivity.
Defined.

(** X21.  Marking a bill inactive has, on the lists of active bills, the
    effect of deleting it: the two mutations commit for the same callers, and every
    user's list is the same after either. *)
Theorem deactivating_is_deleting_for_the_lists
    (db : BillsTable) (billId : nat) (userId : string) (id : nat)
    (db' : BillsTable) :
  updateBill db billId userId None None None None (Some false)
    = Committed id db' ->
  exists db'',
    deleteBill db billId userId = Committed id db''
    /\ forall user,
         listActiveBillsByUserId db' user = listActiveBillsByUserId db'' user.
Proof.
  unfold updateBill, deleteBill.
  destruct (String.eqb userId ""); [discriminate|].
  destruct (get db billId) as [e|]; [|discriminate].
  destruct (negb (String.eqb (ConvexBills.userId e) userId)); [discriminate|].
  intros H. injection H as <- <-. eexists. split; [reflexivity|].
  intros user. unfold listActiveBillsByUserId.
  destruct (String.eqb user ""); [reflexivity|].
  f_equal. apply deactivated_is_not_listed.
Qed.

Lemma deactivating_is_deleting_for_the_lists_witness :
  exists db'',
    deleteBill twoUsers 2 "bob" = Committed 2%nat db''
    /\ forall user,
         listActiveBillsByUserId
           [mkBillDoc 1 "alice"
              (mkBill "Rent" 1500 "monthly" (Some 1) (Some true) 0);
            mkBillDoc 2 "bob" (mkBill "Gym" 50 "weekly" None (Some false) 0)]
           user
         = listActiveBillsByUserId db'' user.
Proof.
  apply (deactivating_is_deleting_for_the_lists twoUsers 2 "bob").
  reflexivity.
Defined.

End Ownership.

(* ================================================================= *)
(** ** The settings of the users: lemmas *)

Module ConvexUserSettingsFacts.
Import JSDate DateFns Bills PayCalculations Convex ConvexUserSettings.

(** A number above zero is neither NaN, nor zero, nor at most zero. *)
Lemma positive_number (x : float) :
  PrimFloat.ltb 0 x = true ->
  PrimFloat.leb x 0 = false /\ PrimFloat.is_nan x = false
  /\ PrimFloat.eqb x 0 = false.
Proof.
  unfold PrimFloat.is_nan.
  rewrite FloatAxioms.ltb_spec, FloatAxioms.leb_spec, !FloatAxioms.eqb_spec.
  change (Prim2SF 0) with (S754_zero false).
  destruct (Prim2SF x) as [s|s| |s m e]; try destruct s; cbn;
    try discriminate; intros _; repeat split; try reflexivity;
    rewrite Z.compare_refl, Pos.compare_cont_refl; reflexivity.
Qed.

(** NaN times a number is NaN. *)
Lemma nan_times (x y : float) :
  PrimFloat.is_nan x = true -> PrimFloat.is_nan (x * y) = true.
Proof.
  unfold PrimFloat.is_nan. rewrite !FloatAxioms.eqb_spec, FloatAxioms.mul_spec.
  destruct (Prim2SF x) as [s|s| |s m e]; try destruct s; cbn;
    try discriminate; try reflexivity;
    rewrite Z.compare_refl, Pos.compare_cont_refl; discriminate.
Qed.

Lemma nan_not_at_most (x y : float) :
  PrimFloat.is_nan x = true -> PrimFloat.leb x y = false.
Proof.
  unfold PrimFloat.is_nan. rewrite FloatAxioms.eqb_spec, FloatAxioms.leb_spec.
  destruct (Prim2SF x) as [s|s| |s m e]; try destruct s; cbn;
    try discriminate; try reflexivity;
    rewrite Z.compare_refl, Pos.compare_cont_refl; discriminate.
Qed.

(** With one document a user at most, the query by user finds none or
    one. *)
Lemma one_document_per_user (db : SettingsTable) (uid : string) :
  NoDup (map userId db) ->
  (filter (ofUser uid) db = []
   /\ forall d, In d db -> userId d <> uid)
  \/ exists e, filter (ofUser uid) db = [e] /\ In e db /\ userId e = uid.
Proof.
  induction db as [|x rest IH]; intros Hnd.
  - left. split; [reflexivity | intros d []].
  - cbn [map] in Hnd. apply NoDup_cons_iff in Hnd as (Hx & Hrest).
    cbn [filter]. change (ofUser uid x) with (String.eqb (userId x) uid).
    destruct (String.eqb_spec (userId x) uid) as [E|N].
    + right. exists x. split; [|split; [now left | exact E]].
      f_equal. destruct (IH Hrest) as [(H0 & _)|(e & _ & He & Hu)];
        [exact H0|].
      exfalso. apply Hx. rewrite E, <- Hu. now apply in_map.
    + destruct (IH Hrest) as [(H0 & Hall)|(e & He & Hin & Hu)].
      * left. split; [exact H0|]. intros d [<-|Hd]; [exact N | now apply Hall].
      * right. exists e. split; [exact He|]. split; [now right | exact Hu].
Qed.

Lemma settings_newId_fresh (db : SettingsTable) (d : UserSettingsDoc) :
  In d db -> (_id d < newId (map _id db))%nat.
Proof.
  unfold newId. induction db as [|x rest IH]; intros Hin; [destruct Hin|].
  cbn [map fold_right]. destruct Hin as [->|Hin]; [lia|].
  specialize (IH Hin). lia.
Qed.

Lemma settings_same_id (db : SettingsTable) (d e : UserSettingsDoc) :
  NoDup (map _id db) -> In d db -> In e db -> _id d = _id e -> d = e.
Proof.
  induction db as [|x rest IH]; intros Hnd Hd He Hid; [destruct Hd|].
  cbn [map] in Hnd. apply NoDup_cons_iff in Hnd as (Hx & Hrest).
  destruct Hd as [<-|Hd], He as [<-|He].
  - reflexivity.
  - exfalso. apply Hx. rewrite Hid. now apply in_map.
  - exfalso. apply Hx. rewrite <- Hid. now apply in_map.
  - now apply IH.
Qed.

(** Replacing documents by documents of the same user commutes with the
    query by user. *)
Lemma filter_map_same_user (f : UserSettingsDoc -> UserSettingsDoc)
    (uid : string) (db : SettingsTable) :
  (forall d, In d db -> userId (f d) = userId d) ->
  filter (ofUser uid) (map f db) = map f (filter (ofUser uid) db).
Proof.
  induction db as [|x rest IH]; intros H; [reflexivity|].
  cbn [map filter].
  change (ofUser uid (f x)) with (String.eqb (userId (f x)) uid).
  change (ofUser uid x) with (String.eqb (userId x) uid).
  rewrite (H x (or_introl eq_refl)).
  rewrite IH by (intros d Hd; apply H; now right).
  now destruct (String.eqb (userId x) uid).
Qed.

(** What [upsert] does on a well-formed table: it commits, the table stays
    well formed, the user's document holds what was saved, and the
    documents of the other users are as they were. *)
Lemma upsert_saved (now : Z) (db : SettingsTable) (uid email : string)
    (amount : option float) (freq : option string) (dom : option Z)
    (dow : option string) (desired : option float) (next : option Z) :
  oneDocumentPerUser db ->
  freq = None \/ freq = Some "monthly"%string ->
  exists id created db',
    upsert now db uid email amount freq dom dow desired next
    = Committed id db'
    /\ oneDocumentPerUser db'
    /\ getByUserId db' uid
       = Some (Some (mkUserSettingsDoc id created uid email amount
                       (Some "monthly"%string) dom
                       (Some "fortnightly"%string) dow
                       (desiredAmountForDb amount desired) next))
    /\ (forall other, other <> uid ->
          filter (ofUser other) db' = filter (ofUser other) db).
Proof.
  intros (Hids & Husers) Hfreq. unfold upsert.
  assert (Hv : match freq with
               | Some f => negb (String.eqb f "monthly")
               | None => false
               end = false) by (destruct Hfreq as [-> | ->]; reflexivity).
  rewrite Hv. unfold getByUserId at 1.
  destruct (one_document_per_user db uid Husers)
    as [(Hnone & Hall)|(e & He & Hin & Hu)].
  - rewrite Hnone. cbn [unique].
    exists (newId (map _id db)), now. eexists. split; [reflexivity|].
    split; [split|split].
    + rewrite map_app. cbn [map _id].
      apply NoDup_app; [exact Hids | constructor; [intros [] | constructor] |].
      intros a Ha [<-|[]].
      apply in_map_iff in Ha as (d & Hd & Hd').
      pose proof (settings_newId_fresh db d Hd'). lia.
    + rewrite map_app. cbn [map userId].
      apply NoDup_app; [exact Husers | constructor; [intros [] | constructor]
                       |].
      intros a Ha [<-|[]].
      apply in_map_iff in Ha as (d & Hd & Hd'). exact (Hall d Hd' Hd).
    + unfold getByUserId. rewrite filter_app, Hnone. cbn [filter app].
      unfold ofUser. cbn [userId]. now rewrite String.eqb_refl.
    + intros other Hother. rewrite filter_app. cbn [filter].
      match goal with
      | |- context [ofUser other ?d] =>
          change (ofUser other d) with (String.eqb uid other)
      end.
      destruct (String.eqb_spec uid other) as [E|_];
        [now contradiction Hother | apply app_nil_r].
  - rewrite He. cbn [unique].
    set (f := fun d : UserSettingsDoc =>
                if Nat.eqb (_id d) (_id e)
                then mkUserSettingsDoc (_id d) (_creationTime d) uid email
                       amount (Some "monthly"%string) dom
                       (Some "fortnightly"%string) dow
                       (desiredAmountForDb amount desired) next
                else d).
    assert (Hsame : forall d, In d db -> userId (f d) = userId d).
    { intros d Hd. unfold f.
      destruct (Nat.eqb_spec (_id d) (_id e)) as [E|_]; [|reflexivity].
      rewrite (settings_same_id db d e Hids Hd Hin E). cbn [userId].
      now rewrite Hu. }
    assert (Hid : forall d, _id (f d) = _id d).
    { intros d. unfold f. now destruct (Nat.eqb (_id d) (_id e)). }
    exists (_id e), (_creationTime e). eexists. split; [reflexivity|].
    split; [split|split].
    + rewrite map_map. rewrite (map_ext _ _id Hid). exact Hids.
    + rewrite map_map.
      rewrite (map_ext_in (fun x => userId (f x)) userId db Hsame).
      exact Husers.
    + unfold getByUserId.
      rewrite (filter_map_same_user f uid db Hsame), He. cbn [map unique].
      unfold f. now rewrite Nat.eqb_refl.
    + intros other Hother.
      rewrite (filter_map_same_user f other db Hsame).
      assert (Hfix : forall d, In d (filter (ofUser other) db) -> f d = d).
      { intros d Hd. apply filter_In in Hd as (Hd & Hb). unfold f.
        destruct (Nat.eqb_spec (_id d) (_id e)) as [E|_]; [|reflexivity].
        exfalso. rewrite (settings_same_id db d e Hids Hd Hin E) in Hb.
        unfold ofUser in Hb. apply String.eqb_eq in Hb. congruence. }
      rewrite (map_ext_in f (fun d => d) _ Hfix). apply map_id.
Qed.

(** The amount stored for a pay above zero. *)
Lemma desiredAmountForDb_derived (a : float) (supplied : option float) :
  PrimFloat.ltb 0 a = true ->
  PrimFloat.ltb 0 (a * 12) = true ->
  desiredAmountForDb (Some a) supplied = Some (a * 12 / 26)%float.
Proof.
  intros Ha Hy.
  destruct (positive_number a Ha) as (Hle & _).
  destruct (positive_number (a * 12) Hy) as (Hle' & Hnan & Hz).
  unfold desiredAmountForDb, calculateAnnualSalary.
  rewrite Hle. cbn [falsyString String.eqb Ascii.eqb Bool.eqb orb].
  change (String.eqb "monthly" "") with false.
  change (String.eqb "monthly" "monthly") with true. cbv iota.
  unfold truthy. rewrite Hnan, Hz. cbn [negb andb].
  unfold calculateTargetCycleAmount. rewrite Hle'.
  reflexivity.
Qed.

(** What is read back after a commit. *)
Lemma upsert_reads_back (now : Z) (db db' : SettingsTable)
    (uid email : string) (amount : option float) (freq : option string)
    (dom : option Z) (dow : option string) (desired : option float)
    (next : option Z) (id : nat) (saved : UserSettingsDoc) :
  oneDocumentPerUser db ->
  upsert now db uid email amount freq dom dow desired next
  = Committed id db' ->
  getByUserId db' uid = Some (Some saved) ->
  settingsOf saved
  = mkSettings (Some "fortnightly"%string) dow
               (desiredAmountForDb amount desired).
Proof.
  intros Hwf Hup Hget.
  assert (Hfreq : freq = None \/ freq = Some "monthly"%string).
  { unfold upsert in Hup. destruct freq as [f|]; [|now left].
    destruct (String.eqb_spec f "monthly") as [->|_];
      [now right | discriminate]. }
  destruct (upsert_saved now db uid email amount freq dom dow desired next
              Hwf Hfreq)
    as (id0 & created & db0 & Hup0 & _ & Hget0 & _).
  rewrite Hup in Hup0. injection Hup0 as <- <-.
  rewrite Hget in Hget0. injection Hget0 as ->. reflexivity.
Qed.

End ConvexUserSettingsFacts.

(* ================================================================= *)
(** ** The settings of the users: what is saved *)

Module SavedSettings.
Import JSDate DateFns Bills PayCalculations Scenarios DateFacts Schedule
       Production Convex ConvexUserSettings ConvexUserSettingsFacts PaydayFacts
       Occurrences.

(** X22.  On a well-formed table [upsert] commits and the table stays well
    formed, with one document for the user: what [getByUserId] then reads
    is what was saved, the two frequencies being fixed to monthly and
    fortnightly; and the other users read what they read before. *)
Theorem upsert_saves_one_document_per_user
    (now : Z) (db : SettingsTable) (userId userEmail : string)
    (actualPayAmount : option float) (actualPayFrequency : option string)
    (actualPayDayOfMonth : option Z) (desiredPayDayOfWeek : option string)
    (desiredPayAmount : option float) (nextPaydayTimestamp : option Z) :
  oneDocumentPerUser db ->
  actualPayFrequency = None \/ actualPayFrequency = Some "monthly"%string ->
  exists id db' saved,
    upsert now db userId userEmail actualPayAmount actualPayFrequency
           actualPayDayOfMonth desiredPayDayOfWeek desiredPayAmount
           nextPaydayTimestamp
    = Committed id db'
    /\ oneDocumentPerUser db'
    /\ getByUserId db' userId = Some (Some saved)
    /\ _id saved = id
    /\ ConvexUserSettings.userId saved = userId
    /\ ConvexUserSettings.userEmail saved = userEmail
    /\ ConvexUserSettings.actualPayAmount saved = actualPayAmount
    /\ ConvexUserSettings.actualPayFrequency saved = Some "monthly"%string
    /\ ConvexUserSettings.actualPayDayOfMonth saved = actualPayDayOfMonth
    /\ ConvexUserSettings.desiredPayFrequency saved
       = Some "fortnightly"%string
    /\ ConvexUserSettings.desiredPayDayOfWeek saved = desiredPayDayOfWeek
    /\ ConvexUserSettings.desiredPayAmount saved
       = desiredAmountForDb actualPayAmount desiredPayAmount
    /\ ConvexUserSettings.nextPaydayTimestamp saved = nextPaydayTimestamp
    /\ forall other, other <> userId ->
         getByUserId db' other = getByUserId db other.
Proof.
  intros Hwf Hfreq.
  destruct (upsert_saved now db userId userEmail actualPayAmount
              actualPayFrequency actualPayDayOfMonth desiredPayDayOfWeek
              desiredPayAmount nextPaydayTimestamp Hwf Hfreq)
    as (id & created & db' & Hup & Hwf' & Hget & Hothers).
  exists id, db'. eexists. split; [exact Hup|]. split; [exact Hwf'|].
  split; [exact Hget|].
  repeat (split; [reflexivity|]).
  intros other Hother. unfold getByUserId. now rewrite Hothers.
Qed.

(** A first save, then a second by the same user: one document. *)
Lemma upsert_saves_one_document_per_user_witness :
  exists id db' saved,
    upsert 7 [mkUserSettingsDoc 1 0 "alice" "a@example.org" (Some 5000%float)
                (Some "monthly"%string) (Some 15)
                (Some "fortnightly"%string) (Some "friday"%string)
                (Some (5000 * 12 / 26)%float) None]
           "alice" "alice@example.org" (Some 6000%float) None (Some 20)
           (Some "monday"%string) None (Some 86400000)
    = Committed id db'
    /\ oneDocumentPerUser db'
    /\ getByUserId db' "alice" = Some (Some saved)
    /\ _id saved = id
    /\ ConvexUserSettings.userId saved = "alice"%string
    /\ ConvexUserSettings.userEmail saved = "alice@example.org"%string
    /\ ConvexUserSettings.actualPayAmount saved = Some 6000%float
    /\ ConvexUserSettings.actualPayFrequency saved = Some "monthly"%string
    /\ ConvexUserSettings.actualPayDayOfMonth saved = Some 20
    /\ ConvexUserSettings.desiredPayFrequency saved
       = Some "fortnightly"%string
    /\ ConvexUserSettings.desiredPayDayOfWeek saved = Some "monday"%string
    /\ ConvexUserSettings.desiredPayAmount saved
       = desiredAmountForDb (Some 6000%float) None
    /\ ConvexUserSettings.nextPaydayTimestamp saved = Some 86400000
    /\ forall other, other <> "alice"%string ->
         getByUserId db' other
         = getByUserId
             [mkUserSettingsDoc 1 0 "alice" "a@example.org" (Some 5000%float)
                (Some "monthly"%string) (Some 15)
                (Some "fortnightly"%string) (Some "friday"%string)
                (Some (5000 * 12 / 26)%float) None] other.
Proof.
  apply (upsert_saves_one_document_per_user 7 _ "alice" "alice@example.org"
           (Some 6000%float) None (Some 20) (Some "monday"%string) None
           (Some 86400000)).
  - split; repeat constructor; cbn; intuition discriminate.
  - left. reflexivity.
Defined.

(** X23.  The allowance [upsert] stores for a monthly pay above zero is the
    pay times 12 over 26, whatever allowance the caller supplies. *)
Theorem stored_allowance_is_derived_from_the_pay
    (now : Z) (db db' : SettingsTable) (userId userEmail : string)
    (a : float) (actualPayFrequency : option string)
    (actualPayDayOfMonth : option Z) (desiredPayDayOfWeek : option string)
    (supplied : option float) (nextPaydayTimestamp : option Z) (id : nat)
    (saved : UserSettingsDoc) :
  oneDocumentPerUser db ->
  upsert now db userId userEmail (Some a) actualPayFrequency
         actualPayDayOfMonth desiredPayDayOfWeek supplied nextPaydayTimestamp
  = Committed id db' ->
  getByUserId db' userId = Some (Some saved) ->
  PrimFloat.ltb 0 a = true ->
  PrimFloat.ltb 0 (a * 12) = true ->
  ConvexUserSettings.desiredPayAmount saved = Some (a * 12 / 26)%float.
Proof.
  intros Hwf Hup Hget Ha Hy.
  pose proof (upsert_reads_back _ _ _ _ _ _ _ _ _ _ _ _ _ Hwf Hup Hget) as H.
  unfold settingsOf in H. injection H as _ _ ->.
  now apply desiredAmountForDb_derived.
Qed.

(** A pay of 5000 saved with an allowance of 1: 5000 * 12 / 26 is stored. *)
Lemma stored_allowance_is_derived_from_the_pay_witness :
  ConvexUserSettings.desiredPayAmount
    (mkUserSettingsDoc 1 7 "alice" "a@example.org" (Some 5000%float)
       (Some "monthly"%string) None (Some "fortnightly"%string) None
       (Some (5000 * 12 / 26)%float) None)
  = Some (5000 * 12 / 26)%float.
Proof.
  apply (stored_allowance_is_derived_from_the_pay 7 []
           [mkUserSettingsDoc 1 7 "alice" "a@example.org" (Some 5000%float)
              (Some "monthly"%string) None (Some "fortnightly"%string) None
              (Some (5000 * 12 / 26)%float) None]
           "alice" "a@example.org" 5000 None None None (Some 1%float) None
           1%nat);
    first [by_computation | split; constructor].
Defined.

(** X24.  Without a pay above zero (none given, one at most zero, NaN) the
    allowance [upsert] stores is the one the caller supplies, or none. *)
Theorem supplied_allowance_is_kept_without_a_pay
    (now : Z) (db db' : SettingsTable) (userId userEmail : string)
    (actualPayAmount : option float) (actualPayFrequency : option string)
    (actualPayDayOfMonth : option Z) (desiredPayDayOfWeek : option string)
    (supplied : option float) (nextPaydayTimestamp : option Z) (id : nat)
    (saved : UserSettingsDoc) :
  oneDocumentPerUser db ->
  upsert now db userId userEmail actualPayAmount actualPayFrequency
         actualPayDayOfMonth desiredPayDayOfWeek supplied nextPaydayTimestamp
  = Committed id db' ->
  getByUserId db' userId = Some (Some saved) ->
  actualPayAmount = None
  \/ (exists a, actualPayAmount = Some a
                /\ (PrimFloat.leb a 0 = true \/ PrimFloat.is_nan a = true)) ->
  ConvexUserSettings.desiredPayAmount saved = supplied.
Proof.
  intros Hwf Hup Hget Hpay.
  pose proof (upsert_reads_back _ _ _ _ _ _ _ _ _ _ _ _ _ Hwf Hup Hget) as H.
  unfold settingsOf in H. injection H as _ _ ->.
  destruct Hpay as [->|(a & -> & [Hle|Hnan])].
  - reflexivity.
  - unfold desiredAmountForDb, calculateAnnualSalary. rewrite Hle.
    reflexivity.
  - unfold desiredAmountForDb, calculateAnnualSalary.
    rewrite (nan_not_at_most a 0 Hnan).
    cbn [falsyString orb].
    change (String.eqb "monthly" "") with false.
    change (String.eqb "monthly" "monthly") with true. cbv iota.
    unfold truthy. rewrite (nan_times a 12 Hnan). reflexivity.
Qed.

(** A pay of 0 saved with an allowance of 2300: 2300 is stored. *)
Lemma supplied_allowance_is_kept_without_a_pay_witness :
  ConvexUserSettings.desiredPayAmount
    (mkUserSettingsDoc 1 7 "alice" "a@example.org" (Some 0%float)
       (Some "monthly"%string) None (Some "fortnightly"%string) None
       (Some 2300%float) None)
  = Some 2300%float.
Proof.
  apply (supplied_allowance_is_kept_without_a_pay 7 []
           [mkUserSettingsDoc 1 7 "alice" "a@example.org" (Some 0%float)
              (Some "monthly"%string) None (Some "fortnightly"%string) None
              (Some 2300%float) None]
           "alice" "a@example.org" (Some 0%float) None None None
           (Some 2300%float) None 1%nat).
  - split; constructor.
  - reflexivity.
  - reflexivity.
  - right. exists 0%float. split; [reflexivity | left; reflexivity].
Defined.



End SavedSettings.

(* ================================================================= *)
(** ** The loaders *)

Module Dashboard.
Import JSDate DateFns Bills PayCalculations Scenarios DateFacts BillsFacts
       Termination Counting CountingFacts Occurrences Loaders.

(** X26.  The "next fourteen days" of the two loaders are fifteen calendar days:
    today and the fourteen days after it.  A one-off bill is in the total
    exactly when it is due on one of them; and what is left is the stored
    allowance minus the total, or [null] without a stored allowance. *)
Theorem upcoming_bills_cover_fifteen_days
    (fuel : nat) (now : Z)
    (settings : option ConvexUserSettings.UserSettingsDoc)
    (bills : list Bill) (bill : Bill) (due : Z) (data : LoaderData) :
  - maxTime <= now -> now + 15 * msPerDay <= maxTime ->
  frequency bill = "one-off"%string ->
  PrimFloat.is_nan (amount bill) = false ->
  dueDate bill = Some due ->
  Z.abs due <= maxTime ->
  summarize fuel now settings bills = Returns data ->
  exists data',
    summarize fuel now settings (bills ++ [bill]) = Returns data'
    /\ upcomingBillsTotal data'
       = (if (Day now <=? Day due) && (Day due <=? Day now + 14)
          then (upcomingBillsTotal data + amount bill)%float
          else upcomingBillsTotal data)
    /\ leftoverAmount data'
       = match settings with
         | Some s =>
             match ConvexUserSettings.desiredPayAmount s with
             | Some a => Some (a - upcomingBillsTotal data')%float
             | None => None
             end
         | None => None
         end.
Proof.
  intros Hlo Hhi Hf Hnan Hdue Hd. pose proof msPerDay_pos as Hpos.
  unfold summarize.
  rewrite (TimeClip_valid now) by lia.
  rewrite addDays_Some by lia. rewrite TimeClip_valid by lia.
  destruct (calculateUpcomingBillsTotal fuel bills (Some now)
              (Some (now + 14 * msPerDay))) as [total| |] eqn:E;
    try discriminate.
  intros H. injection H as <-.
  assert (HD : Day (now + 14 * msPerDay) = Day now + 14)
    by (unfold Day; now rewrite Z.div_add by lia).
  assert (Hsnoc : calculateUpcomingBillsTotal fuel (bills ++ [bill]) (Some now)
                     (Some (now + 14 * msPerDay))
                   = Returns (if (Day now <=? Day due)
                                 && (Day due <=? Day now + 14)
                              then (total + amount bill)%float else total)).
  { rewrite <- HD.
    apply (calculateUpcomingBillsTotal_snoc fuel bills bill (Some now)
             (Some (now + 14 * msPerDay)) (Day now * msPerDay)
             (Day (now + 14 * msPerDay) * msPerDay + (msPerDay - 1)) total);
      [apply startOfDay_value; lia | apply endOfDay_value; lia | exact E |].
    apply processBill_one_off; [lia | assumption..]. }
  rewrite Hsnoc. eexists. split; [reflexivity|].
  cbn [upcomingBillsTotal leftoverAmount]. split; [reflexivity|].
  now destruct settings.
Qed.

(** Asked at 10:00 on 15 April 2024: a gig on the evening of 29 April is
    in the total. *)
Lemma upcoming_bills_cover_fifteen_days_witness :
  let gig := mkBill "Gig" 80 "one-off" (Some (utc 2024 4 29 21 0 0 0)) None
                    defaultCreation in
  exists data',
    summarize 8 (utc 2024 4 15 10 0 0 0) None ([] ++ [gig]) = Returns data'
    /\ upcomingBillsTotal data'
       = (if (Day (utc 2024 4 15 10 0 0 0) <=? Day (utc 2024 4 29 21 0 0 0))
             && (Day (utc 2024 4 29 21 0 0 0)
                 <=? Day (utc 2024 4 15 10 0 0 0) + 14)
          then (upcomingBillsTotal (mkLoaderData None [] 0 None)
                + amount gig)%float
          else upcomingBillsTotal (mkLoaderData None [] 0 None))
    /\ leftoverAmount data' = None.
Proof.
  cbv zeta.
  apply (upcoming_bills_cover_fifteen_days 8 (utc 2024 4 15 10 0 0 0) None []
           (mkBill "Gig" 80 "one-off" (Some (utc 2024 4 29 21 0 0 0)) None
                   defaultCreation)
           (utc 2024 4 29 21 0 0 0) (mkLoaderData None [] 0 None));
    by_computation.
Defined.

(** X27.  What the dashboard and the schedule page show does not count a bill
    marked inactive: after the update that marks a bill inactive the loader
    answers, for every user, what it answers after the bill's deletion. *)
Theorem loader_leaves_out_inactive_bills
    (fuel : nat) (now : Z) (userSettings : ConvexUserSettings.SettingsTable)
    (db db1 db2 : ConvexBills.BillsTable) (billId id1 id2 : nat)
    (owner user : string) :
  ConvexBills.updateBill db billId owner None None None None (Some false)
    = Convex.Committed id1 db1 ->
  ConvexBills.deleteBill db billId owner = Convex.Committed id2 db2 ->
  loader fuel now userSettings db1 user
  = loader fuel now userSettings db2 user.
Proof.
  unfold ConvexBills.updateBill, ConvexBills.deleteBill.
  destruct (String.eqb owner ""); [discriminate|].
  destruct (ConvexBills.get db billId) as [e|]; [|discriminate].
  destruct (negb (String.eqb (ConvexBills.userId e) owner)); [discriminate|].
  intros H1 H2. injection H1 as _ <-. injection H2 as _ <-.
  unfold loader, ConvexBills.listActiveBillsByUserId.
  destruct (String.eqb user ""); [reflexivity|].
  now rewrite ConvexBillsFacts.deactivated_is_not_listed.
Qed.

Lemma loader_leaves_out_inactive_bills_witness :
  loader 8 (utc 2024 4 15 10 0 0 0) []
    [ConvexBills.mkBillDoc 1 "alice"
       (mkBill "Rent" 1500 "monthly" (Some 20) (Some false) 0)] "alice"
  = loader 8 (utc 2024 4 15 10 0 0 0) [] [] "alice".
Proof.
  apply (loader_leaves_out_inactive_bills 8 (utc 2024 4 15 10 0 0 0) []
           [ConvexBills.mkBillDoc 1 "alice"
              (mkBill "Rent" 1500 "monthly" (Some 20) (Some true) 0)]
           _ _ 1 1 1 "alice" "alice");
    reflexivity.
Defined.

End Dashboard.

(* ================================================================= *)
(** ** The payday reminder *)

Module Reminders.
Import JSDate DateFns Bills PayCalculations Scenarios DateFacts Termination
       Notifications Fixtures.

(** X28.  A run that finds a payday and an address sleeps until exactly two
    days before the payday, then hands over the address, the stored
    allowance and the payday. *)
Theorem notification_is_two_days_before_payday
    (db : ConvexUserSettings.SettingsTable) (userId : string)
    (userSettingsId : nat) (s : ConvexUserSettings.UserSettingsDoc)
    (ts : Z) :
  ConvexUserSettings.getById db userSettingsId = Some s ->
  ConvexUserSettings.nextPaydayTimestamp s = Some ts ->
  ts <> 0 ->
  ConvexUserSettings.userEmail s <> ""%string ->
  - maxTime + 2 * msPerDay <= ts <= maxTime ->
  scheduleNotifications db userId userSettingsId
  = Scheduled (ts - 2 * msPerDay)
      (mkPayload userId (ConvexUserSettings.userEmail s)
                 (ConvexUserSettings.desiredPayAmount s) ts).
Proof.
  intros Hget Hts Hnz Hmail Hrange. pose proof msPerDay_pos as Hpos.
  unfold scheduleNotifications. rewrite Hget. cbv zeta. rewrite Hts.
  destruct (Z.eqb_spec ts 0) as [|_]; [contradiction|].
  destruct (String.eqb_spec (ConvexUserSettings.userEmail s) "") as [|_];
    [contradiction|].
  cbn [orb]. rewrite (TimeClip_valid ts) by lia.
  rewrite addDays_Some by lia.
  replace (ts + -2 * msPerDay) with (ts - 2 * msPerDay) by lia.
  now rewrite TimeClip_valid by lia.
Qed.

(** A payday on 15 May 2024: the run sleeps until 13 May. *)
Lemma notification_is_two_days_before_payday_witness :
  scheduleNotifications [aliceSettings] "alice" 1
  = Scheduled (utc 2024 5 15 0 0 0 0 - 2 * msPerDay)
      (mkPayload "alice" (ConvexUserSettings.userEmail aliceSettings)
                 (ConvexUserSettings.desiredPayAmount aliceSettings)
                 (utc 2024 5 15 0 0 0 0)).
Proof.
  apply (notification_is_two_days_before_payday [aliceSettings] "alice" 1
           aliceSettings (utc 2024 5 15 0 0 0 0));
    first [by_computation | split; by_computation].
Defined.

(** X29.  A run cancels exactly when it finds no settings, no payday (none
    stored, or the time value 0, which reads as false) or no address. *)
Theorem notification_is_cancelled_exactly_without_payday_or_address
    (db : ConvexUserSettings.SettingsTable) (userId : string)
    (userSettingsId : nat) :
  scheduleNotifications db userId userSettingsId = Cancelled
  <-> ConvexUserSettings.getById db userSettingsId = None
      \/ exists s, ConvexUserSettings.getById db userSettingsId = Some s
           /\ (ConvexUserSettings.nextPaydayTimestamp s = None
               \/ ConvexUserSettings.nextPaydayTimestamp s = Some 0
               \/ ConvexUserSettings.userEmail s = ""%string).
Proof.
  unfold scheduleNotifications. cbv zeta.
  destruct (ConvexUserSettings.getById db userSettingsId) as [s|];
    [|split; auto].
  destruct (ConvexUserSettings.nextPaydayTimestamp s) as [ts|] eqn:Ets.
  - destruct (Z.eqb_spec ts 0) as [->|Hnz].
    + split; [intros _; right; exists s; auto | reflexivity].
    + destruct (String.eqb_spec (ConvexUserSettings.userEmail s) "")
        as [Hm|Hm]; cbn [orb].
      * split; [intros _; right; exists s; auto | reflexivity].
      * destruct (addDays (TimeClip ts) (-2));
          (split; [discriminate|]);
          intros [H|(s' & H & [H'|[H'|H']])]; try discriminate H;
          injection H as <-; congruence.
  - split; [intros _; right; exists s; auto | reflexivity].
Qed.

(** X30.  What a run hands over is accepted by [sendPaydayNotification] as
    long as the event named a user: the address is the stored one, it is not
    empty, and the payday is the stored one, two days after the date the run
    slept until. *)
Theorem scheduled_payload_is_accepted
    (db : ConvexUserSettings.SettingsTable) (userId : string)
    (userSettingsId : nat) (notificationDate : Z)
    (data : SendNotificationInvokePayload) :
  scheduleNotifications db userId userSettingsId
    = Scheduled notificationDate data ->
  payloadAccepted (Some data) = negb (String.eqb userId "")
  /\ Notifications.userId data = userId
  /\ notificationDate + 2 * msPerDay = payday data
  /\ exists s, ConvexUserSettings.getById db userSettingsId = Some s
       /\ userEmail data = ConvexUserSettings.userEmail s
       /\ targetAmount data = ConvexUserSettings.desiredPayAmount s
       /\ ConvexUserSettings.nextPaydayTimestamp s = Some (payday data).
Proof.
  unfold scheduleNotifications. cbv zeta.
  destruct (ConvexUserSettings.getById db userSettingsId) as [s|];
    [|discriminate].
  destruct (ConvexUserSettings.nextPaydayTimestamp s) as [ts|] eqn:Ets;
    [|discriminate].
  destruct (ts =? 0); [discriminate|].
  destruct (String.eqb (ConvexUserSettings.userEmail s) "") eqn:Em;
    [discriminate|].
  cbn [orb].
  destruct (TimeClip ts) as [t|] eqn:Et; [|discriminate].
  apply TimeClip_Some in Et. subst t.
  rewrite addDays_Some by lia.
  destruct (TimeClip (ts + -2 * msPerDay)) as [n|] eqn:En; [|discriminate].
  apply TimeClip_Some in En. subst n.
  intros H. injection H as <- <-.
  cbn [payloadAccepted userEmail Notifications.userId payday targetAmount].
  rewrite Em. cbn [negb andb].
  split; [reflexivity|]. split; [reflexivity|].
  split; [unfold msPerDay; lia|].
  exists s. auto.
Qed.

Lemma scheduled_payload_is_accepted_witness :
  let data := mkPayload "alice" "a@example.org" (Some 2307.69%float)
                        (utc 2024 5 15 0 0 0 0) in
  payloadAccepted (Some data) = negb (String.eqb "alice" "")
  /\ Notifications.userId data = "alice"%string
  /\ utc 2024 5 13 0 0 0 0 + 2 * msPerDay = payday data
  /\ exists s, ConvexUserSettings.getById [aliceSettings] 1 = Some s
       /\ userEmail data = ConvexUserSettings.userEmail s
       /\ targetAmount data = ConvexUserSettings.desiredPayAmount s
       /\ ConvexUserSettings.nextPaydayTimestamp s = Some (payday data).
Proof.
  cbv zeta.
  apply (scheduled_payload_is_accepted [aliceSettings] "alice" 1
           (utc 2024 5 13 0 0 0 0)
           (mkPayload "alice" "a@example.org" (Some 2307.69%float)
                      (utc 2024 5 15 0 0 0 0))).
  vm_compute. reflexivity.
Defined.

End Reminders.
